(** * A shared, reconnecting web-socket session and its topic subscriptions

    Shallow embedding of [src/websocket.util.ts] (class [Subscription]) and of
    [src/WebSocketProvider.tsx] (the provider component: registry of
    subscriptions, connection callbacks, waiter queue).

    The program is event driven and single threaded: every handler runs to
    completion.  A handler is therefore a function [State -> State]; what it
    does to the outside world (transport primitives, user callbacks, timers)
    is appended to the [trace] of the state.  The asynchronous parts
    ([setTimeout], [await]) are kept as pending work in the state and are
    run by later events.  Message delivery ([onMessage], [onMessageHandler])
    and the logging hook touch none of the state below and are left out. *)

From Stdlib Require Import ZArith List Bool Lia String.
From stdpp Require Import base list.
Import ListNotations.

(** ** Values *)

(** A JavaScript [number] as far as the code looks at it: an integer or NaN
    (an absent option field is [None]). *)
Inductive jsnum : Type :=
| JNum (z : Z)
| JNaN.

(** Truthiness of an optional number: [undefined], [0] and [NaN] are falsy. *)
Definition truthy_num (o : option jsnum) : bool :=
  match o with
  | Some (JNum z) => negb (z =? 0)%Z
  | Some JNaN => false
  | None => false
  end.

(** [o || d] for an optional number [o] and a numeric default [d]. *)
Definition num_or (o : option jsnum) (d : Z) : Z :=
  match o with
  | Some (JNum z) => if (z =? 0)%Z then d else z
  | Some JNaN => d
  | None => d
  end.

(** Truthiness of an optional string: [undefined] and the empty string are
    falsy. *)
Definition truthy_str (o : option string) : bool :=
  match o with
  | Some s => negb (String.eqb s EmptyString)
  | None => false
  end.

(** A function handed over by the caller, known by its identity; [noOp] is
    the provider's [const noOp = () => {}]. *)
Inductive callback : Type :=
| noOp
| userCallback (n : nat).

(** The two poll loops of a subscription. *)
Inductive loop : Type :=
| PrimaryLoop
| FallbackLoop.

(** What an awaited [pollingCallback()] gives back. *)
Inductive pollResult : Type :=
| Returned (isPollAgain : bool)
| Threw.

(** How the async timer body of a poll loop settles. *)
Inductive settled : Type :=
| Fulfilled
| Rejected.

(** ** websocket.util.ts *)

Definition DEFAULT_POLLING_DELAY : Z := 3000.
Definition DEFAULT_FIXED_POLLING_DELAY : Z := 20000.

(** [ISubscribeOptions]; the polling callback is known by its identity, its
    results are supplied by the environment when the [await] resumes. *)
Record ISubscribeOptions : Type := mkOptions {
  opt_pollingCallback : option nat;
  opt_pollingDelay : option jsnum;
  opt_fallbackPollingDelay : option jsnum
}.

(** The fields of a [Subscription] object.  There is one transport client,
    so [s_client] only records whether [this.client] is that client or
    [null]; [s_subscription] is the handle returned by [client.subscribe].
    [this.onUnsubscribe] is always the provider's [onUnsubscribe]. *)
Record Subscription : Type := mkSubscription {
  s_id : string;
  s_client : bool;
  s_topicId : string;
  s_subscription : option nat;
  s_pollingCallback : option nat;
  s_pollingDelay : Z;
  s_fallbackPollingDelay : Z
}.

(** The field assignments of the constructor, before its final
    [this.subscribe()]. *)
Definition Subscription_fields (client : bool) (topicId : string)
    (options : ISubscribeOptions) (newId : string) : Subscription :=
  {| s_id := newId;
     s_client := client;
     s_topicId := topicId;
     s_subscription := None;
     s_pollingCallback := opt_pollingCallback options;
     s_pollingDelay := num_or (opt_pollingDelay options) DEFAULT_POLLING_DELAY;
     s_fallbackPollingDelay :=
       num_or (opt_fallbackPollingDelay options) DEFAULT_FIXED_POLLING_DELAY |}.

(** ** Effects *)

Inductive event : Type :=
| EvConnect (topicId : string)
| EvDisconnect (onComplete : callback)
| EvSend (url : string) (res : string)
| EvBeforeDisconnect (topicId : option string)
| EvCall (cb : callback)
| EvTransportSubscribe (destination : string) (handle : nat)
| EvTransportUnsubscribe (handle : nat)
| EvOnUnsubscribe (id : string)
| EvSetTimeout (l : loop) (obj : nat) (delay : Z)
| EvPoll (obj : nat)
| EvStartAllPollings.

(** ** WebSocketProvider.tsx: configuration and state *)

Definition DEFAULT_RECONNECTION_DELAY : Z := 5000.
Definition DEFAULT_RECONNECTION_TRIES : Z := 3.

Record Config : Type := mkConfig {
  reconnectionDelay : option jsnum;
  reconnectionTries : option jsnum;
  sendMessageUrl : option string
}.

Definition reconnectDelay (config : Config) : Z :=
  num_or (reconnectionDelay config) DEFAULT_RECONNECTION_DELAY.

Definition clientMaxReconnectionTries (config : Config) : Z :=
  num_or (reconnectionTries config) DEFAULT_RECONNECTION_TRIES.

(** The registry object [subscriptionsRef.current]: its own keys in
    insertion order (the order of [Object.keys] for ids that are not array
    indices), values are addresses of [Subscription] objects in the heap.
    The members the object inherits from [Object.prototype] are not in this
    list; [registry_get] below adds them to the lookup. *)
Definition registry : Type := list (string * nat).

(** Everything the handlers read and write.
    - the refs of the component, under their names;
    - [onDisconnectHandler_memo]: the cell of
      [useCallback(disconnectCallback.current, [])];
    - [promiseArr]: the module-level array of resolvers, each entry being the
      state of the promise it resolves ([true] once resolved); [step] is
      what this provider does to it, [shared_step] below adds what the
      other providers of the module do;
    - the transport client: [connected], [active], [client_reconnectDelay],
      and the next handle [client.subscribe] will return;
    - [heap]: the [Subscription] objects, shared between the registry, the
      callers and the timer closures; an address is an index;
    - [timers]: closures passed to [setTimeout] that have not fired;
      [awaiting]: timer bodies suspended at [await this.pollingCallback()];
    - [trace]: the effects so far, oldest first. *)
Record State : Type := mkState {
  subscriptionsRef : registry;
  disconnectCallback : callback;
  beforeDisconnectCallback : option (option string -> string);
  isFirstConnection : bool;
  clientReconnectionTries : Z;
  isClientConnectionBroken : bool;
  isPollingActive : bool;
  isClientDisconnectedForced : bool;
  onDisconnectHandler_memo : option callback;
  promiseArr : list bool;
  connected : bool;
  active : bool;
  client_reconnectDelay : Z;
  nextHandle : nat;
  heap : list Subscription;
  timers : list (loop * nat);
  awaiting : list (loop * nat);
  trace : list event
}.

Definition set_subscriptionsRef (v : registry) (st : State) : State :=
  mkState v (disconnectCallback st) (beforeDisconnectCallback st) (isFirstConnection st)
    (clientReconnectionTries st) (isClientConnectionBroken st) (isPollingActive st)
    (isClientDisconnectedForced st) (onDisconnectHandler_memo st) (promiseArr st)
    (connected st) (active st) (client_reconnectDelay st) (nextHandle st) (heap st)
    (timers st) (awaiting st) (trace st).

Definition set_disconnectCallback (v : callback) (st : State) : State :=
  mkState (subscriptionsRef st) v (beforeDisconnectCallback st) (isFirstConnection st)
    (clientReconnectionTries st) (isClientConnectionBroken st) (isPollingActive st)
    (isClientDisconnectedForced st) (onDisconnectHandler_memo st) (promiseArr st)
    (connected st) (active st) (client_reconnectDelay st) (nextHandle st) (heap st)
    (timers st) (awaiting st) (trace st).

Definition set_beforeDisconnectCallback (v : option (option string -> string))
    (st : State) : State :=
  mkState (subscriptionsRef st) (disconnectCallback st) v (isFirstConnection st)
    (clientReconnectionTries st) (isClientConnectionBroken st) (isPollingActive st)
    (isClientDisconnectedForced st) (onDisconnectHandler_memo st) (promiseArr st)
    (connected st) (active st) (client_reconnectDelay st) (nextHandle st) (heap st)
    (timers st) (awaiting st) (trace st).

Definition set_isFirstConnection (v : bool) (st : State) : State :=
  mkState (subscriptionsRef st) (disconnectCallback st) (beforeDisconnectCallback st) v
    (clientReconnectionTries st) (isClientConnectionBroken st) (isPollingActive st)
    (isClientDisconnectedForced st) (onDisconnectHandler_memo st) (promiseArr st)
    (connected st) (active st) (client_reconnectDelay st) (nextHandle st) (heap st)
    (timers st) (awaiting st) (trace st).

Definition set_clientReconnectionTries (v : Z) (st : State) : State :=
  mkState (subscriptionsRef st) (disconnectCallback st) (beforeDisconnectCallback st)
    (isFirstConnection st) v (isClientConnectionBroken st) (isPollingActive st)
    (isClientDisconnectedForced st) (onDisconnectHandler_memo st) (promiseArr st)
    (connected st) (active st) (client_reconnectDelay st) (nextHandle st) (heap st)
    (timers st) (awaiting st) (trace st).

Definition set_isClientConnectionBroken (v : bool) (st : State) : State :=
  mkState (subscriptionsRef st) (disconnectCallback st) (beforeDisconnectCallback st)
    (isFirstConnection st) (clientReconnectionTries st) v (isPollingActive st)
    (isClientDisconnectedForced st) (onDisconnectHandler_memo st) (promiseArr st)
    (connected st) (active st) (client_reconnectDelay st) (nextHandle st) (heap st)
    (timers st) (awaiting st) (trace st).

Definition set_isPollingActive (v : bool) (st : State) : State :=
  mkState (subscriptionsRef st) (disconnectCallback st) (beforeDisconnectCallback st)
    (isFirstConnection st) (clientReconnectionTries st) (isClientConnectionBroken st) v
    (isClientDisconnectedForced st) (onDisconnectHandler_memo st) (promiseArr st)
    (connected st) (active st) (client_reconnectDelay st) (nextHandle st) (heap st)
    (timers st) (awaiting st) (trace st).

Definition set_isClientDisconnectedForced (v : bool) (st : State) : State :=
  mkState (subscriptionsRef st) (disconnectCallback st) (beforeDisconnectCallback st)
    (isFirstConnection st) (clientReconnectionTries st) (isClientConnectionBroken st)
    (isPollingActive st) v (onDisconnectHandler_memo st) (promiseArr st)
    (connected st) (active st) (client_reconnectDelay st) (nextHandle st) (heap st)
    (timers st) (awaiting st) (trace st).

Definition set_onDisconnectHandler_memo (v : option callback) (st : State) : State :=
  mkState (subscriptionsRef st) (disconnectCallback st) (beforeDisconnectCallback st)
    (isFirstConnection st) (clientReconnectionTries st) (isClientConnectionBroken st)
    (isPollingActive st) (isClientDisconnectedForced st) v (promiseArr st)
    (connected st) (active st) (client_reconnectDelay st) (nextHandle st) (heap st)
    (timers st) (awaiting st) (trace st).

Definition set_promiseArr (v : list bool) (st : State) : State :=
  mkState (subscriptionsRef st) (disconnectCallback st) (beforeDisconnectCallback st)
    (isFirstConnection st) (clientReconnectionTries st) (isClientConnectionBroken st)
    (isPollingActive st) (isClientDisconnectedForced st) (onDisconnectHandler_memo st) v
    (connected st) (active st) (client_reconnectDelay st) (nextHandle st) (heap st)
    (timers st) (awaiting st) (trace st).

Definition set_connected (v : bool) (st : State) : State :=
  mkState (subscriptionsRef st) (disconnectCallback st) (beforeDisconnectCallback st)
    (isFirstConnection st) (clientReconnectionTries st) (isClientConnectionBroken st)
    (isPollingActive st) (isClientDisconnectedForced st) (onDisconnectHandler_memo st)
    (promiseArr st) v (active st) (client_reconnectDelay st) (nextHandle st) (heap st)
    (timers st) (awaiting st) (trace st).

Definition set_active (v : bool) (st : State) : State :=
  mkState (subscriptionsRef st) (disconnectCallback st) (beforeDisconnectCallback st)
    (isFirstConnection st) (clientReconnectionTries st) (isClientConnectionBroken st)
    (isPollingActive st) (isClientDisconnectedForced st) (onDisconnectHandler_memo st)
    (promiseArr st) (connected st) v (client_reconnectDelay st) (nextHandle st) (heap st)
    (timers st) (awaiting st) (trace st).

Definition set_client_reconnectDelay (v : Z) (st : State) : State :=
  mkState (subscriptionsRef st) (disconnectCallback st) (beforeDisconnectCallback st)
    (isFirstConnection st) (clientReconnectionTries st) (isClientConnectionBroken st)
    (isPollingActive st) (isClientDisconnectedForced st) (onDisconnectHandler_memo st)
    (promiseArr st) (connected st) (active st) v (nextHandle st) (heap st)
    (timers st) (awaiting st) (trace st).

Definition set_nextHandle (v : nat) (st : State) : State :=
  mkState (subscriptionsRef st) (disconnectCallback st) (beforeDisconnectCallback st)
    (isFirstConnection st) (clientReconnectionTries st) (isClientConnectionBroken st)
    (isPollingActive st) (isClientDisconnectedForced st) (onDisconnectHandler_memo st)
    (promiseArr st) (connected st) (active st) (client_reconnectDelay st) v (heap st)
    (timers st) (awaiting st) (trace st).

Definition set_heap (v : list Subscription) (st : State) : State :=
  mkState (subscriptionsRef st) (disconnectCallback st) (beforeDisconnectCallback st)
    (isFirstConnection st) (clientReconnectionTries st) (isClientConnectionBroken st)
    (isPollingActive st) (isClientDisconnectedForced st) (onDisconnectHandler_memo st)
    (promiseArr st) (connected st) (active st) (client_reconnectDelay st) (nextHandle st) v
    (timers st) (awaiting st) (trace st).

Definition set_timers (v : list (loop * nat)) (st : State) : State :=
  mkState (subscriptionsRef st) (disconnectCallback st) (beforeDisconnectCallback st)
    (isFirstConnection st) (clientReconnectionTries st) (isClientConnectionBroken st)
    (isPollingActive st) (isClientDisconnectedForced st) (onDisconnectHandler_memo st)
    (promiseArr st) (connected st) (active st) (client_reconnectDelay st) (nextHandle st)
    (heap st) v (awaiting st) (trace st).

Definition set_awaiting (v : list (loop * nat)) (st : State) : State :=
  mkState (subscriptionsRef st) (disconnectCallback st) (beforeDisconnectCallback st)
    (isFirstConnection st) (clientReconnectionTries st) (isClientConnectionBroken st)
    (isPollingActive st) (isClientDisconnectedForced st) (onDisconnectHandler_memo st)
    (promiseArr st) (connected st) (active st) (client_reconnectDelay st) (nextHandle st)
    (heap st) (timers st) v (trace st).

Definition set_trace (v : list event) (st : State) : State :=
  mkState (subscriptionsRef st) (disconnectCallback st) (beforeDisconnectCallback st)
    (isFirstConnection st) (clientReconnectionTries st) (isClientConnectionBroken st)
    (isPollingActive st) (isClientDisconnectedForced st) (onDisconnectHandler_memo st)
    (promiseArr st) (connected st) (active st) (client_reconnectDelay st) (nextHandle st)
    (heap st) (timers st) (awaiting st) v.

(** Record one effect. *)
Definition emit (e : event) (st : State) : State :=
  set_trace (trace st ++ [e]) st.

(** [array.forEach]: the handlers of the elements run in order, each on the
    state the previous one left. *)
Definition forEach {A : Type} (f : A -> State -> State) (l : list A) (st : State) : State :=
  fold_left (fun s x => f x s) l st.

(** ** The registry object *)

(** [registry[id]] *)
Fixpoint reg_lookup (id : string) (r : registry) : option nat :=
  match r with
  | [] => None
  | (k, a) :: r' => if String.eqb k id then Some a else reg_lookup id r'
  end.

(** [delete registry[id]] *)
Fixpoint reg_delete (id : string) (r : registry) : registry :=
  match r with
  | [] => []
  | (k, a) :: r' => if String.eqb k id then reg_delete id r' else (k, a) :: reg_delete id r'
  end.

(** [registry[id] = a]: an existing key keeps its place. *)
Fixpoint reg_set (id : string) (a : nat) (r : registry) : registry :=
  match r with
  | [] => [(id, a)]
  | (k, b) :: r' => if String.eqb k id then (k, a) :: r' else (k, b) :: reg_set id a r'
  end.

(** [Object.keys(registry)] *)
Definition reg_keys (r : registry) : list string := map fst r.

(** ** The transport client (external): what its primitives do to the
    properties the program reads *)

Definition client_connect (topicId : string) (st : State) : State :=
  set_active true (emit (EvConnect topicId) st).

Definition client_disconnect (onComplete : callback) (st : State) : State :=
  set_active false (emit (EvDisconnect onComplete) st).

Definition setTimeout (l : loop) (obj : nat) (delay : Z) (st : State) : State :=
  emit (EvSetTimeout l obj delay) (set_timers (timers st ++ [(l, obj)]) st).

(** ** Methods of [Subscription]; [this] is the address of the object *)

Definition set_s_subscription (h : option nat) (s : Subscription) : Subscription :=
  mkSubscription (s_id s) (s_client s) (s_topicId s) h (s_pollingCallback s)
    (s_pollingDelay s) (s_fallbackPollingDelay s).

Definition set_s_client (c : bool) (s : Subscription) : Subscription :=
  mkSubscription (s_id s) c (s_topicId s) (s_subscription s) (s_pollingCallback s)
    (s_pollingDelay s) (s_fallbackPollingDelay s).

Definition startPolling (this : nat) (st : State) : State :=
  match heap st !! this with
  | Some s =>
      match s_pollingCallback s with
      | Some _ => setTimeout PrimaryLoop this (s_pollingDelay s) st
      | None => st
      end
  | None => st
  end.

Definition fallbackPolling (this : nat) (st : State) : State :=
  match heap st !! this with
  | Some s =>
      match s_pollingCallback s with
      | Some _ => setTimeout FallbackLoop this (s_fallbackPollingDelay s) st
      | None => st
      end
  | None => st
  end.

Definition Subscription_subscribe (this : nat) (st : State) : State :=
  match heap st !! this with
  | Some s =>
      if s_client s && connected st then
        let h := nextHandle st in
        let st1 :=
          emit (EvTransportSubscribe (String.append "/topic/" (s_topicId s)) h)
            (set_nextHandle (S h) st) in
        let st2 := set_heap (<[this := set_s_subscription (Some h) s]> (heap st1)) st1 in
        fallbackPolling this st2
      else st
  | None => st
  end.

(** The provider's [onUnsubscribe], which every subscription is given. *)
Definition onUnsubscribe (id : string) (st : State) : State :=
  let st1 := emit (EvOnUnsubscribe id) st in
  match reg_lookup id (subscriptionsRef st1) with
  | Some _ => set_subscriptionsRef (reg_delete id (subscriptionsRef st1)) st1
  | None => st1
  end.

Definition Subscription_unsubscribe (this : nat) (st : State) : State :=
  match heap st !! this with
  | Some s =>
      let st1 :=
        if s_client s && connected st then
          match s_subscription s with
          | Some h => emit (EvTransportUnsubscribe h) st
          | None => st
          end
        else st in
      onUnsubscribe (s_id s) st1
  | None => st
  end.

(** [new Subscription(client, topicId, options, onUnsubscribe)]: a fresh
    object, its fields assigned, then [this.subscribe()].  [client] tells
    whether the first argument is the client or [null]; [newId] is what
    [generateRandomID()] returns. *)
Definition new_Subscription (client : bool) (topicId : string)
    (options : ISubscribeOptions) (newId : string) (st : State) : nat * State :=
  let this := length (heap st) in
  (this,
   Subscription_subscribe this
     (set_heap (heap st ++ [Subscription_fields client topicId options newId]) st)).

Definition setClientAndSubscribe (this : nat) (st : State) : State :=
  match heap st !! this with
  | Some s =>
      Subscription_subscribe this (set_heap (<[this := set_s_client true s]> (heap st)) st)
  | None => st
  end.

(** The closure [startPolling] gives to [setTimeout], up to its [await].
    A timer exists only for an object with a [pollingCallback], and that
    field is never reassigned; calling an absent one would throw before any
    effect. *)
Definition startPolling_timer (this : nat) (st : State) : State :=
  match heap st !! this with
  | Some s =>
      if negb (s_client s && connected st) then
        match s_pollingCallback s with
        | Some _ => set_awaiting (awaiting st ++ [(PrimaryLoop, this)]) (emit (EvPoll this) st)
        | None => st
        end
      else st
  | None => st
  end.

(** The rest of that closure, once the awaited call has settled: a thrown
    or rejected call ends the async body there, as a rejection nobody
    handles. *)
Definition startPolling_resume (this : nat) (r : pollResult) (st : State) : State * settled :=
  match r with
  | Returned true => (startPolling this st, Fulfilled)
  | Returned false => (Subscription_unsubscribe this st, Fulfilled)
  | Threw => (st, Rejected)
  end.

Definition fallbackPolling_timer (this : nat) (st : State) : State :=
  match heap st !! this with
  | Some s =>
      if s_client s && connected st && bool_decide (is_Some (s_subscription s)) then
        match s_pollingCallback s with
        | Some _ => set_awaiting (awaiting st ++ [(FallbackLoop, this)]) (emit (EvPoll this) st)
        | None => st
        end
      else st
  | None => st
  end.

Definition fallbackPolling_resume (this : nat) (r : pollResult) (st : State) : State * settled :=
  match r with
  | Returned true => (fallbackPolling this st, Fulfilled)
  | Returned false => (Subscription_unsubscribe this st, Fulfilled)
  | Threw => (st, Rejected)
  end.

(** ** The provider *)

Definition resolveAllPromises (st : State) : State :=
  set_promiseArr (map (fun _ => true) (promiseArr st)) st.

(** [useCallback(fn, [])]: the first render stores [fn], every later render
    returns what is stored. *)
Definition useCallback_noDeps (memo : option callback) (fn : callback) : callback :=
  match memo with
  | Some stored => stored
  | None => fn
  end.

(** A render of the component, as far as it touches the state. *)
Definition render (st : State) : State :=
  set_onDisconnectHandler_memo
    (Some (useCallback_noDeps (onDisconnectHandler_memo st) (disconnectCallback st))) st.

(** The [onDisconnectHandler] the handlers close over. *)
Definition onDisconnectHandler (st : State) : callback :=
  useCallback_noDeps (onDisconnectHandler_memo st) (disconnectCallback st).

(** The state after the first render; [delay0] is the reconnect delay the
    transport gives a new client. *)
Definition mount (delay0 : Z) : State :=
  render
    {| subscriptionsRef := [];
       disconnectCallback := noOp;
       beforeDisconnectCallback := None;
       isFirstConnection := true;
       clientReconnectionTries := 0;
       isClientConnectionBroken := false;
       isPollingActive := false;
       isClientDisconnectedForced := false;
       onDisconnectHandler_memo := None;
       promiseArr := [];
       connected := false;
       active := false;
       client_reconnectDelay := delay0;
       nextHandle := 0;
       heap := [];
       timers := [];
       awaiting := [];
       trace := [] |}.

Definition startAllPollings (st : State) : State :=
  if negb (isPollingActive st) then
    let st1 := emit EvStartAllPollings (set_isPollingActive true st) in
    forEach
      (fun subId s =>
         match reg_lookup subId (subscriptionsRef s) with
         | Some a => startPolling a s
         | None => s
         end)
      (reg_keys (subscriptionsRef st1)) st1
  else st.

Definition onDisconnect (cb : callback) (st : State) : State :=
  set_disconnectCallback cb st.

Definition onBeforeDisconnect (hook : option string -> string) (st : State) : State :=
  set_beforeDisconnectCallback (Some hook) st.

Section Provider.

Variable config : Config.

Definition checkAndDisconnectClient (topicId : option string) (st : State) : State :=
  if (length (reg_keys (subscriptionsRef st)) =? 0) && connected st then
    let st1 := set_isClientDisconnectedForced true st in
    let st2 :=
      match beforeDisconnectCallback st1, sendMessageUrl config with
      | Some hook, Some url =>
          if truthy_str (Some url) then
            emit (EvSend url (hook topicId)) (emit (EvBeforeDisconnect topicId) st1)
          else st1
      | _, _ => st1
      end in
    client_disconnect (onDisconnectHandler st2) st2
  else st.

Definition unsubscribeAll (st : State) : State :=
  let subscriptionKeys := reg_keys (subscriptionsRef st) in
  let getLastTopicId :=
    match subscriptionKeys with
    | [k] =>
        match reg_lookup k (subscriptionsRef st) with
        | Some a => s_topicId <$> heap st !! a
        | None => None
        end
    | _ => None
    end in
  let st1 :=
    forEach
      (fun subId s =>
         match reg_lookup subId (subscriptionsRef s) with
         | Some a =>
             let s1 := if connected s then Subscription_unsubscribe a s else s in
             set_subscriptionsRef (reg_delete subId (subscriptionsRef s1)) s1
         | None => s
         end)
      subscriptionKeys st in
  checkAndDisconnectClient (Some (default EmptyString getLastTopicId)) st1.

Definition setClientAndSubscribeAll (st : State) : State :=
  forEach
    (fun subId s =>
       match reg_lookup subId (subscriptionsRef s) with
       | Some a => if connected s then setClientAndSubscribe a s else s
       | None => s
       end)
    (reg_keys (subscriptionsRef st)) st.

Definition connectSuccessCallback (st : State) : State :=
  let st1 :=
    if isClientConnectionBroken st then
      forEach
        (fun subId s =>
           match reg_lookup subId (subscriptionsRef s) with
           | Some a => if connected s then Subscription_subscribe a s else s
           | None => s
           end)
        (reg_keys (subscriptionsRef st)) st
    else setClientAndSubscribeAll (resolveAllPromises st) in
  set_isFirstConnection false
    (set_client_reconnectDelay (reconnectDelay config)
       (set_clientReconnectionTries 0 (set_isPollingActive false st1))).

Definition connectErrorCallback (st : State) : State :=
  set_isFirstConnection false (resolveAllPromises st).

Definition connectCloseCallback (st : State) : State :=
  if negb (isFirstConnection st) then
    if isClientDisconnectedForced st then
      set_isClientDisconnectedForced false st
    else
      let st1 := set_isClientConnectionBroken true st in
      if (clientReconnectionTries st1 <? clientMaxReconnectionTries config)%Z then
        let st2 := startAllPollings st1 in
        set_clientReconnectionTries (clientReconnectionTries st2 + 1)%Z st2
      else
        let st2 := unsubscribeAll (set_client_reconnectDelay 0 st1) in
        emit (EvCall (onDisconnectHandler st2)) st2
  else
    if (clientReconnectionTries st <? clientMaxReconnectionTries config)%Z then
      set_clientReconnectionTries (clientReconnectionTries st + 1)%Z st
    else
      set_isFirstConnection false
        (resolveAllPromises (set_client_reconnectDelay 0 st)).

Definition createClient (topicId : string) (st : State) : State :=
  if negb (active st) then client_connect topicId st else st.

Definition holdPromise (topicId : string) (st : State) : State :=
  createClient topicId (set_promiseArr (promiseArr st ++ [false]) st).

(** [subscribe(topicId, options)], up to its [await]. *)
Definition subscribe (topicId : string) (options : ISubscribeOptions) (newId : string)
    (st : State) : State :=
  let '(this, st2) := new_Subscription (connected st) topicId options newId st in
  let st3 := set_subscriptionsRef (reg_set newId this (subscriptionsRef st2)) st2 in
  let st4 := if negb (connected st3) then startPolling this st3 else st3 in
  if isFirstConnection st4 then holdPromise topicId st4 else st4.

Definition unsubscribe (id : string) (st : State) : State :=
  match reg_lookup id (subscriptionsRef st) with
  | Some a =>
      let topicId := if connected st then s_topicId <$> heap st !! a else None in
      let st1 := if connected st then Subscription_unsubscribe a st else st in
      let st2 := set_subscriptionsRef (reg_delete id (subscriptionsRef st1)) st1 in
      checkAndDisconnectClient topicId st2
  | None => st
  end.

(** ** Events *)

(** The transport calls the success callback once [client.connected] holds
    and the close callback once it no longer does. *)
Definition transport_connected (st : State) : State :=
  connectSuccessCallback (set_connected true st).

Definition transport_error (st : State) : State :=
  connectErrorCallback st.

Definition transport_closed (st : State) : State :=
  connectCloseCallback (set_connected false st).

(** The [n]-th pending timer fires. *)
Definition timer_fires (n : nat) (st : State) : State :=
  match timers st !! n with
  | Some (l, a) =>
      let st1 := set_timers (delete n (timers st)) st in
      match l with
      | PrimaryLoop => startPolling_timer a st1
      | FallbackLoop => fallbackPolling_timer a st1
      end
  | None => st
  end.

(** The [n]-th suspended timer body resumes with the result [r]. *)
Definition poll_settles (n : nat) (r : pollResult) (st : State) : State * settled :=
  match awaiting st !! n with
  | Some (l, a) =>
      let st1 := set_awaiting (delete n (awaiting st)) st in
      match l with
      | PrimaryLoop => startPolling_resume a r st1
      | FallbackLoop => fallbackPolling_resume a r st1
      end
  | None => (st, Fulfilled)
  end.

Inductive label : Type :=
| LSubscribe (topicId : string) (options : ISubscribeOptions) (newId : string)
| LUnsubscribe (id : string)
| LUnsubscribeAll
| LOnDisconnect (cb : callback)
| LOnBeforeDisconnect (hook : option string -> string)
| LRender
| LConnected
| LError
| LClosed
| LTimer (n : nat)
| LSettle (n : nat) (r : pollResult).

Definition step (l : label) (st : State) : State :=
  match l with
  | LSubscribe topicId options newId => subscribe topicId options newId st
  | LUnsubscribe id => unsubscribe id st
  | LUnsubscribeAll => unsubscribeAll st
  | LOnDisconnect cb => onDisconnect cb st
  | LOnBeforeDisconnect hook => onBeforeDisconnect hook st
  | LRender => render st
  | LConnected => transport_connected st
  | LError => transport_error st
  | LClosed => transport_closed st
  | LTimer n => timer_fires n st
  | LSettle n r => fst (poll_settles n r st)
  end.

Definition run (ls : list label) (st : State) : State :=
  fold_left (fun s l => step l s) ls st.

(** The states the mounted provider can be in. *)
Inductive reachable : State -> Prop :=
| reachable_mount delay0 : reachable (mount delay0)
| reachable_step l st : reachable st -> reachable (step l st).

End Provider.

(** ** Observations on traces and runs *)

(** The effects the methods of a [Subscription] and the timers produce. *)
Definition low_event (e : event) : bool :=
  match e with
  | EvTransportSubscribe _ _ | EvTransportUnsubscribe _ | EvOnUnsubscribe _
  | EvSetTimeout _ _ _ | EvPoll _ => true
  | _ => false
  end.

Definition is_disconnect (e : event) : bool :=
  match e with EvDisconnect _ => true | _ => false end.

Definition is_call (e : event) : bool :=
  match e with EvCall _ => true | _ => false end.

Definition is_startAllPollings (e : event) : bool :=
  match e with EvStartAllPollings => true | _ => false end.

Definition is_onUnsubscribe (e : event) : bool :=
  match e with EvOnUnsubscribe _ => true | _ => false end.

Definition is_setTimeout (e : event) : bool :=
  match e with EvSetTimeout _ _ _ => true | _ => false end.

(** Number of events of a kind in a trace. *)
Definition count (p : event -> bool) (tr : list event) : nat :=
  length (List.filter p tr).

(** All waiters have been released. *)
Definition drained (st : State) : bool := forallb (fun b => b) (promiseArr st).

(** [n] close events in a row. *)
Definition closes (config : Config) (n : nat) (st : State) : State :=
  Nat.iter n (transport_closed config) st.

(** The calls of the claim on sequences of subscribe and unsubscribe. *)
Definition is_subscribe_or_unsubscribe (l : label) : bool :=
  match l with
  | LSubscribe _ _ _ | LUnsubscribe _ => true
  | _ => false
  end.

Definition registry_empty (st : State) : bool :=
  length (reg_keys (subscriptionsRef st)) =? 0.

(** Number of steps of a run at which the registry goes from non-empty to
    empty. *)
Fixpoint emptyings (config : Config) (ls : list label) (st : State) : nat :=
  match ls with
  | [] => 0
  | l :: ls' =>
      let st' := step config l st in
      (if negb (registry_empty st) && registry_empty st' then 1 else 0)
      + emptyings config ls' st'
  end.

(** Every bound object holds a handle. *)
Definition bound_has_handle (st : State) : Prop :=
  forall a s, heap st !! a = Some s -> s_client s = true -> is_Some (s_subscription s).

(** An observation the timers and the methods of [Subscription] other than
    [subscribe] leave alone: it does not look at the pending work, and at
    the trace only through events they do not produce. *)
Class Framed {A : Type} (obs : State -> A) : Prop := {
  framed_timers : forall v st, obs (set_timers v st) = obs st;
  framed_awaiting : forall v st, obs (set_awaiting v st) = obs st;
  framed_nextHandle : forall v st, obs (set_nextHandle v st) = obs st;
  framed_emit : forall e st, low_event e = true -> obs (emit e st) = obs st
}.

(** An observation that does not look at the heap at all. *)
Class FramedHeap {A : Type} (obs : State -> A) : Prop :=
  framed_heap : forall v st, obs (set_heap v st) = obs st.

(** An observation that does not look at the registry either. *)
Class FramedReg {A : Type} (obs : State -> A) : Prop :=
  framed_reg : forall v st, obs (set_subscriptionsRef v st) = obs st.

Definition is_connected_label (l : label) : bool :=
  match l with LConnected => true | _ => false end.

(** What one event other than a successful connect does to the flag and to
    the number of activations. *)
Definition polling_step (st st' : State) : Prop :=
  (isPollingActive st' = isPollingActive st /\
   count is_startAllPollings (trace st') = count is_startAllPollings (trace st)) \/
  (isPollingActive st = false /\ isPollingActive st' = true /\
   count is_startAllPollings (trace st') = count is_startAllPollings (trace st) + 1).

(** What [this.unsubscribe()] tells the transport. *)
Definition unsubscribe_frames (s : Subscription) (st : State) : list event :=
  if s_client s && connected st then
    match s_subscription s with
    | Some h => [EvTransportUnsubscribe h]
    | None => []
    end
  else [].

(** What the empty-registry teardown does with the before-disconnect hook. *)
Definition before_disconnect_frames (config : Config) (st : State)
    (topicId : option string) : list event :=
  match beforeDisconnectCallback st, sendMessageUrl config with
  | Some hook, Some url =>
      if truthy_str (Some url)
      then [EvBeforeDisconnect topicId; EvSend url (hook topicId)]
      else []
  | _, _ => []
  end.

(** The effects of the calls on the transport client and of the
    before-disconnect hook. *)
Definition call_event (e : event) : bool :=
  match e with
  | EvConnect _ | EvBeforeDisconnect _ | EvSend _ _ | EvDisconnect _ => true
  | _ => false
  end.

(** An observation that [subscribe], [unsubscribe] and [unsubscribeAll]
    leave alone as well: it looks at neither the waiters, nor the client's
    [active] property, nor the forced-disconnect flag. *)
Class FramedCalls {A : Type} (obs : State -> A) : Prop := {
  framed_promiseArr : forall v st, obs (set_promiseArr v st) = obs st;
  framed_active : forall v st, obs (set_active v st) = obs st;
  framed_forced : forall v st, obs (set_isClientDisconnectedForced v st) = obs st;
  framed_call : forall e st, call_event e = true -> obs (emit e st) = obs st
}.

(** ** Concrete inputs *)

(** No [config] prop: every default applies. *)
Definition defaultConfig : Config := mkConfig None None None.

Definition polling_options : ISubscribeOptions := mkOptions (Some 0) None None.

Definition no_options : ISubscribeOptions := mkOptions None None None.

(** One caller has subscribed to a topic on the freshly mounted provider. *)
Definition one_waiting : State :=
  run defaultConfig [LSubscribe "orders"%string polling_options "s1"%string] (mount 0).

(** That caller's subscription is bound: the first connection succeeded. *)
Definition one_connected : State :=
  run defaultConfig
    [LSubscribe "orders"%string polling_options "s1"%string; LConnected] (mount 0).

(** The retries after a successful connection have been used up. *)
Definition one_exhausted : State :=
  run defaultConfig
    [LSubscribe "orders"%string polling_options "s1"%string; LConnected;
     LClosed; LClosed; LClosed] (mount 0).

(** A provider with a send target and a before-disconnect hook that reports
    the topic it is given; one subscription, bound. *)
Definition hookConfig : Config := mkConfig None None (Some "/app/bye"%string).

Definition report_topic (topicId : option string) : string :=
  default "none"%string topicId.

Definition one_hooked : State :=
  run hookConfig
    [LOnBeforeDisconnect report_topic;
     LSubscribe "orders"%string polling_options "s1"%string; LConnected] (mount 0).

(** ** Further observations *)

Definition is_connect (e : event) : bool :=
  match e with EvConnect _ => true | _ => false end.

(** What [subscribe(topicId, options)] does to the outside world, read off
    the state it is called in: a transport subscribe and the fallback loop
    when the client is connected, the primary loop when it is not, and the
    connect of the first-connection phase. *)
Definition subscribe_frames (topicId : string) (options : ISubscribeOptions)
    (st : State) : list event :=
  (if connected st then
     EvTransportSubscribe (String.append "/topic/" topicId) (nextHandle st)
     :: match opt_pollingCallback options with
        | Some _ =>
            [EvSetTimeout FallbackLoop (length (heap st))
               (num_or (opt_fallbackPollingDelay options) DEFAULT_FIXED_POLLING_DELAY)]
        | None => []
        end
   else
     match opt_pollingCallback options with
     | Some _ =>
         [EvSetTimeout PrimaryLoop (length (heap st))
            (num_or (opt_pollingDelay options) DEFAULT_POLLING_DELAY)]
     | None => []
     end)
  ++ (if isFirstConnection st && negb (active st) then [EvConnect topicId] else []).

(** The first-connection phase: not connected, neither broken nor
    disconnecting on purpose. *)
Definition first_phase_clean (st : State) : Prop :=
  (connected st = true -> isFirstConnection st = false) /\
  (isFirstConnection st = true ->
   isClientConnectionBroken st = false /\ isClientDisconnectedForced st = false).

(** Once the first-connection phase is over, no waiter is left suspended. *)
Definition waiters_released (st : State) : Prop :=
  isFirstConnection st = false -> drained st = true.

(** [client.connect] has been called at most once, and during the
    first-connection phase exactly when the client is active. *)
Definition connected_at_most_once (st : State) : Prop :=
  count is_connect (trace st) <= 1 /\
  (isFirstConnection st = true ->
   count is_connect (trace st) = if active st then 1 else 0).

Definition lifecycle (st : State) : Prop :=
  first_phase_clean st /\ waiters_released st /\ connected_at_most_once st.

(** Every key of the registry leads to an object that carries that key as
    its id. *)
Definition registry_consistent (st : State) : Prop :=
  forall id a, reg_lookup id (subscriptionsRef st) = Some a ->
    exists s, heap st !! a = Some s /\ s_id s = id.

(** [s'] is a later state of the object [s]: same id, topic and options; a
    binding and a handle, once there, are still there. *)
Definition later_object (s s' : Subscription) : Prop :=
  s_id s' = s_id s /\
  s_topicId s' = s_topicId s /\
  s_pollingCallback s' = s_pollingCallback s /\
  s_pollingDelay s' = s_pollingDelay s /\
  s_fallbackPollingDelay s' = s_fallbackPollingDelay s /\
  (s_client s = true -> s_client s' = true) /\
  (is_Some (s_subscription s) -> is_Some (s_subscription s')).

(** Every object of [st] is still there in [st'], as a later state of
    itself. *)
Definition heap_grows (st st' : State) : Prop :=
  forall a s, heap st !! a = Some s ->
    exists s', heap st' !! a = Some s' /\ later_object s s'.

(** Every entry of the registry of [st'] is an entry of the registry of
    [st]. *)
Definition registry_shrinks (st st' : State) : Prop :=
  forall k a, reg_lookup k (subscriptionsRef st') = Some a ->
    reg_lookup k (subscriptionsRef st) = Some a.

(** The object at [a] is bound to the client and holds a handle. *)
Definition bound_at (a : nat) (st : State) : Prop :=
  exists s, heap st !! a = Some s /\ s_client s = true /\ is_Some (s_subscription s).

(** Timers not yet fired plus timer bodies not yet resumed. *)
Definition pending (st : State) : nat := length (timers st) + length (awaiting st).

(** A trace that only gained effects of the methods of [Subscription]. *)
Definition low_extension (st st' : State) : Prop :=
  exists pre, trace st' = trace st ++ pre /\ forallb low_event pre = true.

(** The timers pending in [st] are still pending in [st'], in front of any
    new ones. *)
Definition timers_kept (st st' : State) : Prop :=
  exists more, timers st' = timers st ++ more.

Definition is_timer_label (l : label) : bool :=
  match l with LTimer _ => true | _ => false end.

(** Two subscriptions, both bound. *)
Definition two_connected : State :=
  run defaultConfig
    [LSubscribe "orders"%string polling_options "s1"%string; LConnected;
     LSubscribe "prices"%string no_options "s2"%string] (mount 0).

(** A break, during which a second subscription is made. *)
Definition one_broken_one_new : State :=
  run defaultConfig
    [LSubscribe "orders"%string polling_options "s1"%string; LConnected; LClosed;
     LSubscribe "prices"%string no_options "s2"%string] (mount 0).

(** ** Unsubscribing *)

Definition is_transportUnsubscribe (e : event) : bool :=
  match e with EvTransportUnsubscribe _ => true | _ => false end.

(** The effects of [Subscription.unsubscribe]: the transport unsubscribe and
    the provider's [onUnsubscribe], which removes the entry. *)
Definition unsubscribe_event (e : event) : bool :=
  match e with
  | EvTransportUnsubscribe _ | EvOnUnsubscribe _ => true
  | _ => false
  end.

(** A trace that only gained such effects. *)
Definition unsubscribe_extension (st st' : State) : Prop :=
  exists pre, trace st' = trace st ++ pre /\ forallb unsubscribe_event pre = true.

(** A callback has been registered before the subscription of
    [one_connected] was made. *)
Definition one_notified : State :=
  run defaultConfig
    [LOnDisconnect (userCallback 7);
     LSubscribe "orders"%string polling_options "s1"%string; LConnected] (mount 0).

(** ** The registry as the plain object it is *)

(** The property names of an unmodified [Object.prototype]. *)
Definition Object_prototype_keys : list string :=
  ["constructor"%string; "hasOwnProperty"%string; "isPrototypeOf"%string;
   "propertyIsEnumerable"%string; "toLocaleString"%string; "toString"%string;
   "valueOf"%string; "__proto__"%string; "__defineGetter__"%string;
   "__defineSetter__"%string; "__lookupGetter__"%string; "__lookupSetter__"%string].

Definition Object_prototype_member (id : string) : bool :=
  existsb (String.eqb id) Object_prototype_keys.

(** What [registry[id]] finds on an object created as [{}]: an entry of its
    own, else a member inherited from [Object.prototype] (a function, or
    the prototype itself: truthy, and without a [getTopicId]), else
    [undefined]. *)
Inductive property : Type :=
| OwnEntry (a : nat)
| Inherited
| Undefined.

Definition registry_get (id : string) (r : registry) : property :=
  match reg_lookup id r with
  | Some a => OwnEntry a
  | None => if Object_prototype_member id then Inherited else Undefined
  end.

(** [unsubscribe(id)] with that lookup.  [None] is the [TypeError] of
    [registry[id].getTopicId()] on an inherited member, thrown before
    anything has been done.  [delete registry[id]] removes own entries
    only. *)
Definition unsubscribe_plain_object (config : Config) (id : string) (st : State)
    : option State :=
  match registry_get id (subscriptionsRef st) with
  | OwnEntry a =>
      let topicId := if connected st then s_topicId <$> heap st !! a else None in
      let st1 := if connected st then Subscription_unsubscribe a st else st in
      let st2 := set_subscriptionsRef (reg_delete id (subscriptionsRef st1)) st1 in
      Some (checkAndDisconnectClient config topicId st2)
  | Inherited =>
      if connected st then None
      else
        let st2 := set_subscriptionsRef (reg_delete id (subscriptionsRef st)) st in
        Some (checkAndDisconnectClient config None st2)
  | Undefined => Some st
  end.

(** ** The array of waiters, shared by the module *)

(** [promiseArr] is a constant of the module: every provider mounted from it
    pushes its waiters on the same array, and [resolveAllPromises] releases
    all of them.  What one provider sees of the others is a waiter of theirs
    pushed ([holdPromise]) or the whole array released. *)
Inductive shared_label : Type :=
| Own (l : label)
| OtherHoldPromise
| OtherResolveAllPromises.

Definition shared_step (config : Config) (sl : shared_label) (st : State) : State :=
  match sl with
  | Own l => step config l st
  | OtherHoldPromise => set_promiseArr (promiseArr st ++ [false]) st
  | OtherResolveAllPromises => resolveAllPromises st
  end.

(** The position of the waiter an event of this provider pushes: a subscribe
    made during the first-connection phase pushes one at the end of the
    array. *)
Definition own_waiter (sl : shared_label) (st : State) : list nat :=
  match sl with
  | Own (LSubscribe _ _ _) =>
      if isFirstConnection st then [length (promiseArr st)] else []
  | _ => []
  end.

(** A run of the module, together with the positions of the waiters this
    provider has pushed. *)
Fixpoint shared_run (config : Config) (sls : list shared_label) (st : State)
    (own : list nat) : State * list nat :=
  match sls with
  | [] => (st, own)
  | sl :: sls' =>
      shared_run config sls' (shared_step config sl st) (own ++ own_waiter sl st)
  end.

(** The waiters at the positions [own] are in the array, and once the
    first-connection phase is over every one of them has been released. *)
Definition own_waiters_released (st : State) (own : list nat) : Prop :=
  (forall i, In i own -> i < length (promiseArr st)) /\
  (isFirstConnection st = false ->
   forall i, In i own -> promiseArr st !! i = Some true).

(** One event, seen from the array: the array only grows, a released waiter
    stays released, the first-connection phase does not come back, the
    event that ends it releases every waiter of the array, and waiters are
    pushed only while it lasts. *)
Definition waiters_step (st st' : State) (new : list nat) : Prop :=
  length (promiseArr st) <= length (promiseArr st') /\
  (forall i, promiseArr st !! i = Some true -> promiseArr st' !! i = Some true) /\
  (isFirstConnection st = false -> isFirstConnection st' = false) /\
  (isFirstConnection st = true -> isFirstConnection st' = false ->
   forall i, i < length (promiseArr st) -> promiseArr st' !! i = Some true) /\
  (forall i, In i new -> i < length (promiseArr st') /\ isFirstConnection st' = true).

(** * Lemmas *)

Lemma count_app p tr1 tr2 : count p (tr1 ++ tr2) = count p tr1 + count p tr2.
Proof. unfold count. rewrite List.filter_app, length_app. reflexivity. Qed.

Lemma count_low p e tr :
  p e = false -> count p (tr ++ [e]) = count p tr.
Proof. intros He. rewrite count_app. unfold count at 2. simpl. rewrite He. simpl. lia. Qed.

Lemma forEach_cons {A} (f : A -> State -> State) x l st :
  forEach f (x :: l) st = forEach f l (f x st).
Proof. reflexivity. Qed.

Lemma forEach_inv {A} (P : State -> Prop) (f : A -> State -> State) l :
  (forall x s, P s -> P (f x s)) -> forall st, P st -> P (forEach f l st).
Proof.
  intros Hf. induction l as [|x l IH]; intros st Hst; [exact Hst|].
  rewrite forEach_cons. apply IH, Hf, Hst.
Qed.

Lemma forEach_frame {A B} (obs : State -> B) (f : A -> State -> State) l :
  (forall x s, obs (f x s) = obs s) -> forall st, obs (forEach f l st) = obs st.
Proof.
  intros Hf st. apply (forEach_inv (fun s => obs s = obs st)); [|reflexivity].
  intros x s Hs. rewrite Hf. exact Hs.
Qed.

#[local] Ltac framed_proj := split; intros; reflexivity.

#[local] Ltac framed_count :=
  split; intros; try reflexivity;
  match goal with
  | H : low_event ?e = true |- _ =>
      unfold emit; simpl; apply count_low; destruct e; simpl in *; congruence
  end.

#[export] Instance Framed_tries : Framed clientReconnectionTries.
Proof. framed_proj. Qed.
#[export] Instance Framed_memo : Framed onDisconnectHandler_memo.
Proof. framed_proj. Qed.
#[export] Instance Framed_disconnectCallback : Framed disconnectCallback.
Proof. framed_proj. Qed.
#[export] Instance Framed_beforeDisconnectCallback : Framed beforeDisconnectCallback.
Proof. framed_proj. Qed.
#[export] Instance Framed_handler : Framed onDisconnectHandler.
Proof. framed_proj. Qed.
#[export] Instance Framed_pollingActive : Framed isPollingActive.
Proof. framed_proj. Qed.
#[export] Instance Framed_broken : Framed isClientConnectionBroken.
Proof. framed_proj. Qed.
#[export] Instance Framed_first : Framed isFirstConnection.
Proof. framed_proj. Qed.
#[export] Instance Framed_forced : Framed isClientDisconnectedForced.
Proof. framed_proj. Qed.
#[export] Instance Framed_connected : Framed connected.
Proof. framed_proj. Qed.
#[export] Instance Framed_promiseArr : Framed promiseArr.
Proof. framed_proj. Qed.
#[export] Instance Framed_delay : Framed client_reconnectDelay.
Proof. framed_proj. Qed.
#[export] Instance Framed_registry : Framed subscriptionsRef.
Proof. framed_proj. Qed.
#[export] Instance Framed_disconnects : Framed (fun st => count is_disconnect (trace st)).
Proof. framed_count. Qed.
#[export] Instance Framed_calls : Framed (fun st => count is_call (trace st)).
Proof. framed_count. Qed.
#[export] Instance Framed_startAllPollings :
  Framed (fun st => count is_startAllPollings (trace st)).
Proof. framed_count. Qed.

#[export] Instance FramedHeap_tries : FramedHeap clientReconnectionTries.
Proof. intros v st. reflexivity. Qed.
#[export] Instance FramedHeap_memo : FramedHeap onDisconnectHandler_memo.
Proof. intros v st. reflexivity. Qed.
#[export] Instance FramedHeap_disconnectCallback : FramedHeap disconnectCallback.
Proof. intros v st. reflexivity. Qed.
#[export] Instance FramedHeap_handler : FramedHeap onDisconnectHandler.
Proof. intros v st. reflexivity. Qed.
#[export] Instance FramedHeap_pollingActive : FramedHeap isPollingActive.
Proof. intros v st. reflexivity. Qed.
#[export] Instance FramedHeap_broken : FramedHeap isClientConnectionBroken.
Proof. intros v st. reflexivity. Qed.
#[export] Instance FramedHeap_first : FramedHeap isFirstConnection.
Proof. intros v st. reflexivity. Qed.
#[export] Instance FramedHeap_forced : FramedHeap isClientDisconnectedForced.
Proof. intros v st. reflexivity. Qed.
#[export] Instance FramedHeap_connected : FramedHeap connected.
Proof. intros v st. reflexivity. Qed.
#[export] Instance FramedHeap_promiseArr : FramedHeap promiseArr.
Proof. intros v st. reflexivity. Qed.
#[export] Instance FramedHeap_delay : FramedHeap client_reconnectDelay.
Proof. intros v st. reflexivity. Qed.
#[export] Instance FramedHeap_registry : FramedHeap subscriptionsRef.
Proof. intros v st. reflexivity. Qed.
#[export] Instance FramedHeap_disconnects :
  FramedHeap (fun st => count is_disconnect (trace st)).
Proof. intros v st. reflexivity. Qed.
#[export] Instance FramedHeap_calls : FramedHeap (fun st => count is_call (trace st)).
Proof. intros v st. reflexivity. Qed.
#[export] Instance FramedHeap_startAllPollings :
  FramedHeap (fun st => count is_startAllPollings (trace st)).
Proof. intros v st. reflexivity. Qed.
#[export] Instance Framed_heap : Framed heap.
Proof. framed_proj. Qed.
#[export] Instance FramedReg_heap : FramedReg heap.
Proof. intros v st. reflexivity. Qed.

#[export] Instance FramedReg_tries : FramedReg clientReconnectionTries.
Proof. intros v st. reflexivity. Qed.
#[export] Instance FramedReg_memo : FramedReg onDisconnectHandler_memo.
Proof. intros v st. reflexivity. Qed.
#[export] Instance FramedReg_disconnectCallback : FramedReg disconnectCallback.
Proof. intros v st. reflexivity. Qed.
#[export] Instance FramedReg_beforeDisconnectCallback : FramedReg beforeDisconnectCallback.
Proof. intros v st. reflexivity. Qed.
#[export] Instance FramedReg_handler : FramedReg onDisconnectHandler.
Proof. intros v st. reflexivity. Qed.
#[export] Instance FramedReg_pollingActive : FramedReg isPollingActive.
Proof. intros v st. reflexivity. Qed.
#[export] Instance FramedReg_broken : FramedReg isClientConnectionBroken.
Proof. intros v st. reflexivity. Qed.
#[export] Instance FramedReg_first : FramedReg isFirstConnection.
Proof. intros v st. reflexivity. Qed.
#[export] Instance FramedReg_forced : FramedReg isClientDisconnectedForced.
Proof. intros v st. reflexivity. Qed.
#[export] Instance FramedReg_connected : FramedReg connected.
Proof. intros v st. reflexivity. Qed.
#[export] Instance FramedReg_promiseArr : FramedReg promiseArr.
Proof. intros v st. reflexivity. Qed.
#[export] Instance FramedReg_delay : FramedReg client_reconnectDelay.
Proof. intros v st. reflexivity. Qed.
#[export] Instance FramedReg_disconnects :
  FramedReg (fun st => count is_disconnect (trace st)).
Proof. intros v st. reflexivity. Qed.
#[export] Instance FramedReg_calls : FramedReg (fun st => count is_call (trace st)).
Proof. intros v st. reflexivity. Qed.
#[export] Instance FramedReg_startAllPollings :
  FramedReg (fun st => count is_startAllPollings (trace st)).
Proof. intros v st. reflexivity. Qed.

Section Frames.

Context {A : Type} (obs : State -> A) `{!Framed obs} `{!FramedHeap obs}.

Lemma setTimeout_frame l a d st : obs (setTimeout l a d st) = obs st.
Proof. unfold setTimeout. rewrite framed_emit by reflexivity. apply framed_timers. Qed.

Lemma startPolling_frame this st : obs (startPolling this st) = obs st.
Proof.
  unfold startPolling. destruct (heap st !! this) as [s|]; [|reflexivity].
  destruct (s_pollingCallback s); [apply setTimeout_frame|reflexivity].
Qed.

Lemma fallbackPolling_frame this st : obs (fallbackPolling this st) = obs st.
Proof.
  unfold fallbackPolling. destruct (heap st !! this) as [s|]; [|reflexivity].
  destruct (s_pollingCallback s); [apply setTimeout_frame|reflexivity].
Qed.

Lemma Subscription_subscribe_frame this st :
  obs (Subscription_subscribe this st) = obs st.
Proof.
  unfold Subscription_subscribe. destruct (heap st !! this) as [s|]; [|reflexivity].
  destruct (s_client s && connected st); [|reflexivity].
  rewrite fallbackPolling_frame, framed_heap, framed_emit by reflexivity.
  apply framed_nextHandle.
Qed.

Lemma setClientAndSubscribe_frame this st :
  obs (setClientAndSubscribe this st) = obs st.
Proof.
  unfold setClientAndSubscribe. destruct (heap st !! this) as [s|]; [|reflexivity].
  rewrite Subscription_subscribe_frame. apply framed_heap.
Qed.

Lemma startPolling_timer_frame this st : obs (startPolling_timer this st) = obs st.
Proof.
  unfold startPolling_timer. destruct (heap st !! this) as [s|]; [|reflexivity].
  destruct (negb (s_client s && connected st)); [|reflexivity].
  destruct (s_pollingCallback s); [|reflexivity].
  rewrite framed_awaiting. apply framed_emit. reflexivity.
Qed.

Lemma fallbackPolling_timer_frame this st :
  obs (fallbackPolling_timer this st) = obs st.
Proof.
  unfold fallbackPolling_timer. destruct (heap st !! this) as [s|]; [|reflexivity].
  destruct (s_client s && connected st && _); [|reflexivity].
  destruct (s_pollingCallback s); [|reflexivity].
  rewrite framed_awaiting. apply framed_emit. reflexivity.
Qed.

Context `{!FramedReg obs}.

Lemma onUnsubscribe_frame id st : obs (onUnsubscribe id st) = obs st.
Proof.
  unfold onUnsubscribe. simpl.
  destruct (reg_lookup id (subscriptionsRef st)).
  - rewrite framed_reg. apply framed_emit. reflexivity.
  - apply framed_emit. reflexivity.
Qed.

Lemma Subscription_unsubscribe_frame this st :
  obs (Subscription_unsubscribe this st) = obs st.
Proof.
  unfold Subscription_unsubscribe. destruct (heap st !! this) as [s|]; [|reflexivity].
  rewrite onUnsubscribe_frame.
  destruct (s_client s && connected st); [|reflexivity].
  destruct (s_subscription s); [|reflexivity].
  apply framed_emit. reflexivity.
Qed.

Lemma startPolling_resume_frame this r st :
  obs (fst (startPolling_resume this r st)) = obs st.
Proof.
  destruct r as [[|]|]; simpl;
    [apply startPolling_frame|apply Subscription_unsubscribe_frame|reflexivity].
Qed.

Lemma fallbackPolling_resume_frame this r st :
  obs (fst (fallbackPolling_resume this r st)) = obs st.
Proof.
  destruct r as [[|]|]; simpl;
    [apply fallbackPolling_frame|apply Subscription_unsubscribe_frame|reflexivity].
Qed.

Lemma timer_fires_frame n st : obs (timer_fires n st) = obs st.
Proof.
  unfold timer_fires. destruct (timers st !! n) as [[[|] a]|]; [| |reflexivity].
  - rewrite startPolling_timer_frame. apply framed_timers.
  - rewrite fallbackPolling_timer_frame. apply framed_timers.
Qed.

Lemma poll_settles_frame n r st :
  obs (fst (poll_settles n r st)) = obs st.
Proof.
  unfold poll_settles. destruct (awaiting st !! n) as [[[|] a]|]; [| |reflexivity].
  - rewrite startPolling_resume_frame. apply framed_awaiting.
  - rewrite fallbackPolling_resume_frame. apply framed_awaiting.
Qed.

End Frames.

(** ** The constructor of [Subscription] *)

Lemma startPolling_heap this st : heap (startPolling this st) = heap st.
Proof.
  unfold startPolling. destruct (heap st !! this) as [s|]; [|reflexivity].
  destruct (s_pollingCallback s); reflexivity.
Qed.

Lemma fallbackPolling_heap this st : heap (fallbackPolling this st) = heap st.
Proof.
  unfold fallbackPolling. destruct (heap st !! this) as [s|]; [|reflexivity].
  destruct (s_pollingCallback s); reflexivity.
Qed.

Lemma Subscription_subscribe_heap this st a :
  heap (Subscription_subscribe this st) !! a =
  if s_client <$> heap st !! this is Some true then
    if connected st then
      if decide (a = this) then set_s_subscription (Some (nextHandle st)) <$> heap st !! this
      else heap st !! a
    else heap st !! a
  else heap st !! a.
Proof.
  unfold Subscription_subscribe.
  destruct (heap st !! this) as [s|] eqn:Hs; simpl; [|reflexivity].
  destruct (s_client s); simpl; [|reflexivity].
  destruct (connected st); simpl; [|reflexivity].
  rewrite fallbackPolling_heap. simpl. destruct (decide (a = this)) as [->|Hne].
  - rewrite list_lookup_insert_eq; [reflexivity|].
    apply lookup_lt_Some in Hs. exact Hs.
  - rewrite list_lookup_insert_ne by congruence. reflexivity.
Qed.

Lemma new_Subscription_object client topicId options newId st :
  exists s,
    heap (snd (new_Subscription client topicId options newId st))
      !! fst (new_Subscription client topicId options newId st) = Some s /\
    s_id s = newId /\ s_topicId s = topicId /\ s_client s = client /\
    s_pollingCallback s = opt_pollingCallback options /\
    s_pollingDelay s = num_or (opt_pollingDelay options) DEFAULT_POLLING_DELAY /\
    s_fallbackPollingDelay s =
      num_or (opt_fallbackPollingDelay options) DEFAULT_FIXED_POLLING_DELAY /\
    (client = true -> connected st = true -> is_Some (s_subscription s)).
Proof.
  unfold new_Subscription. cbn [fst snd].
  set (s0 := Subscription_fields client topicId options newId).
  assert (H0 : (heap st ++ [s0]) !! length (heap st) = Some s0)
    by (apply list_lookup_middle; reflexivity).
  rewrite Subscription_subscribe_heap. cbn [heap connected set_heap nextHandle].
  rewrite H0. cbn [fmap option_fmap option_map s_client s0 Subscription_fields].
  destruct client; [destruct (connected st)|].
  - rewrite decide_True by reflexivity.
    eexists. split; [reflexivity|]. simpl. repeat split; eauto.
  - exists s0. split; [first [reflexivity|exact H0]|]. simpl. repeat split; intros; congruence.
  - exists s0. split; [first [reflexivity|exact H0]|]. simpl. repeat split; intros; congruence.
Qed.

(** C10. For every [Subscription] constructed with options whose
    [pollingDelay] (resp. [fallbackPollingDelay]) is falsy (absent, 0 or NaN),
    the stored field is the default 3000 (resp. 20000), a positive integer;
    in particular a caller-supplied 0 is not honoured. *)
Theorem C10_falsy_delays_replaced_by_defaults
    (client : bool) (topicId : string) (options : ISubscribeOptions) (newId : string)
    (st : State) :
  exists s,
    heap (snd (new_Subscription client topicId options newId st))
      !! fst (new_Subscription client topicId options newId st) = Some s /\
    (truthy_num (opt_pollingDelay options) = false ->
       s_pollingDelay s = 3000%Z /\ (0 < s_pollingDelay s)%Z) /\
    (truthy_num (opt_fallbackPollingDelay options) = false ->
       s_fallbackPollingDelay s = 20000%Z /\ (0 < s_fallbackPollingDelay s)%Z) /\
    (opt_pollingDelay options = Some (JNum 0) -> s_pollingDelay s <> 0%Z) /\
    (opt_fallbackPollingDelay options = Some (JNum 0) -> s_fallbackPollingDelay s <> 0%Z).
Proof.
  destruct (new_Subscription_object client topicId options newId st)
    as (s & Hs & _ & _ & _ & _ & Hp & Hf & _).
  exists s. split; [exact Hs|]. rewrite Hp, Hf.
  unfold DEFAULT_POLLING_DELAY, DEFAULT_FIXED_POLLING_DELAY.
  repeat split.
  - destruct (opt_pollingDelay options) as [[z|]|]; simpl in *; try reflexivity.
    destruct (z =? 0)%Z; [reflexivity|discriminate].
  - destruct (opt_pollingDelay options) as [[z|]|]; simpl in *; try lia.
    destruct (z =? 0)%Z; [lia|discriminate].
  - destruct (opt_fallbackPollingDelay options) as [[z|]|]; simpl in *; try reflexivity.
    destruct (z =? 0)%Z; [reflexivity|discriminate].
  - destruct (opt_fallbackPollingDelay options) as [[z|]|]; simpl in *; try lia.
    destruct (z =? 0)%Z; [lia|discriminate].
  - intros ->. simpl. lia.
  - intros ->. simpl. lia.
Qed.

Lemma C10_witness :
  exists s,
    heap (snd (new_Subscription false "orders"%string (mkOptions None (Some (JNum 0)) (Some JNaN))
                 "s1"%string (mount 0)))
      !! 0 = Some s /\
    s_pollingDelay s = 3000%Z /\ s_fallbackPollingDelay s = 20000%Z /\
    s_pollingDelay s <> 0%Z.
Proof.
  destruct (C10_falsy_delays_replaced_by_defaults false "orders"%string
              (mkOptions None (Some (JNum 0)) (Some JNaN)) "s1"%string (mount 0))
    as (s & Hs & Hp & Hf & Hz & _).
  exists s. split; [exact Hs|].
  split; [apply Hp; reflexivity|]. split; [apply Hf; reflexivity|].
  apply Hz. reflexivity.
Defined.

(** ** The success callback *)

Section SuccessFrames.

Context {A : Type} (obs : State -> A) `{!Framed obs} `{!FramedHeap obs}.

Lemma resubscribe_loop_frame keys st :
  obs (forEach
         (fun subId s =>
            match reg_lookup subId (subscriptionsRef s) with
            | Some a => if connected s then Subscription_subscribe a s else s
            | None => s
            end) keys st) = obs st.
Proof.
  apply forEach_frame. intros subId s.
  destruct (reg_lookup subId (subscriptionsRef s)); [|reflexivity].
  destruct (connected s); [apply Subscription_subscribe_frame; assumption|reflexivity].
Qed.

Lemma setClientAndSubscribeAll_frame st : obs (setClientAndSubscribeAll st) = obs st.
Proof.
  unfold setClientAndSubscribeAll. apply forEach_frame. intros subId s.
  destruct (reg_lookup subId (subscriptionsRef s)); [|reflexivity].
  destruct (connected s); [apply setClientAndSubscribe_frame; assumption|reflexivity].
Qed.

End SuccessFrames.

Lemma connectSuccessCallback_fields (config : Config) (st : State) :
  let st' := connectSuccessCallback config st in
  clientReconnectionTries st' = 0%Z /\
  isFirstConnection st' = false /\
  isPollingActive st' = false /\
  client_reconnectDelay st' = reconnectDelay config /\
  isClientConnectionBroken st' = isClientConnectionBroken st.
Proof.
  unfold connectSuccessCallback. cbn zeta. repeat split.
  cbn [isClientConnectionBroken set_isFirstConnection set_client_reconnectDelay
         set_clientReconnectionTries set_isPollingActive].
  destruct (isClientConnectionBroken st) eqn:Hb.
  - rewrite (resubscribe_loop_frame isClientConnectionBroken). exact Hb.
  - rewrite (setClientAndSubscribeAll_frame isClientConnectionBroken). exact Hb.
Qed.

(** C4 (as amended). Every successful connect resets [reconnectAttempts] to
    0, marks [hasConnectedBefore] (clears [isFirstConnection]), clears the
    polling-active flag and restores the configured reconnect delay, on the
    first connection and on a recovery alike; the connection-broken flag
    [isClientConnectionBroken] is left as it was. *)
Theorem C4_success_postconditions (config : Config) (st : State) :
  let st' := connectSuccessCallback config st in
  clientReconnectionTries st' = 0%Z /\
  isFirstConnection st' = false /\
  isPollingActive st' = false /\
  client_reconnectDelay st' = reconnectDelay config /\
  isClientConnectionBroken st' = isClientConnectionBroken st.
Proof. exact (connectSuccessCallback_fields config st). Qed.

(** C4, the claim as stated fails: after a break and a successful
    reconnection the connection-broken flag is still set. *)
Lemma C4_broken_flag_not_cleared :
  let st := run defaultConfig
              [LSubscribe "orders"%string polling_options "s1"%string;
               LConnected; LClosed; LConnected] (mount 0) in
  connected st = true /\ isClientConnectionBroken st = true.
Proof. vm_compute. split; reflexivity. Qed.

(** ** Failures of the first connection *)

Lemma first_close_below config st :
  isFirstConnection st = true ->
  (clientReconnectionTries st < clientMaxReconnectionTries config)%Z ->
  transport_closed config st =
  set_clientReconnectionTries (clientReconnectionTries st + 1)%Z (set_connected false st).
Proof.
  intros Hf Hlt. unfold transport_closed, connectCloseCallback. simpl. rewrite Hf. simpl.
  apply Z.ltb_lt in Hlt. rewrite Hlt. reflexivity.
Qed.

Lemma first_close_at_max config st :
  isFirstConnection st = true ->
  (clientMaxReconnectionTries config <= clientReconnectionTries st)%Z ->
  transport_closed config st =
  set_isFirstConnection false
    (resolveAllPromises (set_client_reconnectDelay 0 (set_connected false st))).
Proof.
  intros Hf Hge. unfold transport_closed, connectCloseCallback. simpl. rewrite Hf. simpl.
  apply Z.ltb_ge in Hge. rewrite Hge. reflexivity.
Qed.

Lemma first_closes_below config (k : nat) st :
  isFirstConnection st = true ->
  clientReconnectionTries st = 0%Z ->
  (Z.of_nat k <= clientMaxReconnectionTries config)%Z ->
  let st' := closes config k st in
  promiseArr st' = promiseArr st /\
  clientReconnectionTries st' = Z.of_nat k /\
  isFirstConnection st' = true /\
  client_reconnectDelay st' = client_reconnectDelay st /\
  subscriptionsRef st' = subscriptionsRef st /\
  trace st' = trace st.
Proof.
  intros Hf H0. induction k as [|k IH]; intros Hk; cbn zeta.
  - simpl. rewrite H0. repeat split; try reflexivity; assumption.
  - destruct IH as (Hp & Ht & Hfi & Hd & Hr & Htr); [lia|].
    unfold closes in *. rewrite Nat.iter_succ.
    rewrite first_close_below by (try assumption; lia).
    simpl. rewrite Ht. repeat split; try assumption. lia.
Qed.

Lemma drained_resolveAllPromises st : drained (resolveAllPromises st) = true.
Proof.
  unfold drained, resolveAllPromises. simpl.
  induction (promiseArr st) as [|b l IH]; [reflexivity|exact IH].
Qed.

(** C1 (as amended). During the first-ever connection, a close event met
    with [reconnectAttempts] below the maximum increments the counter and
    does nothing else: after [k <= max] consecutive closes the counter is
    [k] and the waiters are still suspended.  The next close, the
    [(max+1)]-th, does not increment; it disables auto-retry (delay 0),
    releases every waiter and ends the first-connection phase.  With the
    default maximum of 3 the waiters are released by the 4th consecutive
    close.  The error callback releases every waiter and ends the
    first-connection phase at once, whatever the counter, which it leaves
    alone. *)
Theorem C1_first_connection_failures (config : Config) (st : State) (n : nat) :
  isFirstConnection st = true ->
  clientReconnectionTries st = 0%Z ->
  Z.of_nat n = clientMaxReconnectionTries config ->
  (forall k, k <= n ->
     promiseArr (closes config k st) = promiseArr st /\
     clientReconnectionTries (closes config k st) = Z.of_nat k /\
     isFirstConnection (closes config k st) = true /\
     client_reconnectDelay (closes config k st) = client_reconnectDelay st /\
     trace (closes config k st) = trace st) /\
  (drained (closes config (S n) st) = true /\
   length (promiseArr (closes config (S n) st)) = length (promiseArr st) /\
   clientReconnectionTries (closes config (S n) st) = Z.of_nat n /\
   client_reconnectDelay (closes config (S n) st) = 0%Z /\
   isFirstConnection (closes config (S n) st) = false) /\
  (drained (transport_error st) = true /\
   isFirstConnection (transport_error st) = false /\
   clientReconnectionTries (transport_error st) = clientReconnectionTries st).
Proof.
  intros Hf H0 Hn. split; [|split].
  - intros k Hk.
    destruct (first_closes_below config k st Hf H0) as (Hp & Ht & Hfi & Hd & _ & Htr);
      [lia|]. repeat split; assumption.
  - destruct (first_closes_below config n st Hf H0) as (Hp & Ht & Hfi & Hd & _ & Htr);
      [lia|].
    unfold closes in *. rewrite Nat.iter_succ.
    rewrite first_close_at_max by (try assumption; lia).
    split; [apply drained_resolveAllPromises|].
    simpl. rewrite length_map, Hp, Ht. repeat split; reflexivity.
  - unfold transport_error, connectErrorCallback.
    split; [apply drained_resolveAllPromises|]. split; reflexivity.
Qed.

Lemma C1_witness :
  drained (closes defaultConfig 3 one_waiting) = false /\
  drained (closes defaultConfig 4 one_waiting) = true /\
  client_reconnectDelay (closes defaultConfig 4 one_waiting) = 0%Z.
Proof.
  destruct (C1_first_connection_failures defaultConfig one_waiting 3)
    as (Hbelow & (Hd & _ & _ & Hdelay & _) & _); try reflexivity.
  destruct (Hbelow 3) as (Hp & _); [lia|].
  split; [|split; assumption].
  unfold drained. rewrite Hp. reflexivity.
Defined.

(** C1, the claim as stated fails: with the default maximum of 3, three
    consecutive failed attempts of the first connection leave the waiter
    suspended (it is released by the fourth); and a single error callback
    releases it with the counter still at 0. *)
Lemma C1_not_drained_after_third_failure :
  clientMaxReconnectionTries defaultConfig = 3%Z /\
  promiseArr one_waiting = [false] /\
  drained (closes defaultConfig 3 one_waiting) = false /\
  clientReconnectionTries (closes defaultConfig 3 one_waiting) = 3%Z /\
  drained (transport_error one_waiting) = true /\
  clientReconnectionTries (transport_error one_waiting) = 0%Z.
Proof. vm_compute. repeat split; reflexivity. Qed.

(** ** Frames of the provider's own operations *)

#[local] Ltac framed_calls_proj := split; intros; reflexivity.

#[export] Instance FramedCalls_heap : FramedCalls heap.
Proof. framed_calls_proj. Qed.
#[export] Instance FramedCalls_registry : FramedCalls subscriptionsRef.
Proof. framed_calls_proj. Qed.
#[export] Instance FramedCalls_delay : FramedCalls client_reconnectDelay.
Proof. framed_calls_proj. Qed.
#[export] Instance FramedCalls_tries : FramedCalls clientReconnectionTries.
Proof. framed_calls_proj. Qed.
#[export] Instance FramedCalls_memo : FramedCalls onDisconnectHandler_memo.
Proof. framed_calls_proj. Qed.
#[export] Instance FramedCalls_pollingActive : FramedCalls isPollingActive.
Proof. framed_calls_proj. Qed.
#[export] Instance FramedCalls_first : FramedCalls isFirstConnection.
Proof. framed_calls_proj. Qed.
#[export] Instance FramedCalls_connected : FramedCalls connected.
Proof. framed_calls_proj. Qed.
#[export] Instance FramedCalls_startAllPollings :
  FramedCalls (fun st => count is_startAllPollings (trace st)).
Proof.
  split; intros; try reflexivity.
  unfold emit; simpl; apply count_low; destruct e; simpl in *; congruence.
Qed.
#[export] Instance FramedCalls_calls : FramedCalls (fun st => count is_call (trace st)).
Proof.
  split; intros; try reflexivity.
  unfold emit; simpl; apply count_low; destruct e; simpl in *; congruence.
Qed.

Section CallFrames.

Context {A : Type} (obs : State -> A) `{!Framed obs} `{!FramedReg obs} `{!FramedHeap obs}.

Lemma unsubscribe_loop_frame keys st :
  obs (forEach
         (fun subId s =>
            match reg_lookup subId (subscriptionsRef s) with
            | Some a =>
                let s1 := if connected s then Subscription_unsubscribe a s else s in
                set_subscriptionsRef (reg_delete subId (subscriptionsRef s1)) s1
            | None => s
            end) keys st) = obs st.
Proof.
  apply forEach_frame. intros subId s.
  destruct (reg_lookup subId (subscriptionsRef s)); [|reflexivity].
  cbn zeta. rewrite framed_reg.
  destruct (connected s); [apply Subscription_unsubscribe_frame; assumption|reflexivity].
Qed.

Lemma startAllPollings_frame st :
  (forall v s, obs (set_isPollingActive v s) = obs s) ->
  (forall s, obs (emit EvStartAllPollings s) = obs s) ->
  obs (startAllPollings st) = obs st.
Proof.
  intros Hp He. unfold startAllPollings.
  destruct (negb (isPollingActive st)); [|reflexivity].
  rewrite forEach_frame; [rewrite He; apply Hp|].
  intros subId s. destruct (reg_lookup subId (subscriptionsRef s)); [|reflexivity].
  apply startPolling_frame; assumption.
Qed.

Context `{!FramedCalls obs}.

Lemma checkAndDisconnectClient_frame config topicId st :
  obs (checkAndDisconnectClient config topicId st) = obs st.
Proof.
  unfold checkAndDisconnectClient.
  destruct ((length (reg_keys (subscriptionsRef st)) =? 0) && connected st);
    [|reflexivity].
  unfold client_disconnect. cbn zeta.
  rewrite framed_active, framed_call by reflexivity.
  destruct (beforeDisconnectCallback _) as [hook|]; [|apply framed_forced].
  destruct (sendMessageUrl config) as [url|]; [|apply framed_forced].
  destruct (truthy_str (Some url)); [|apply framed_forced].
  rewrite !framed_call by reflexivity. apply framed_forced.
Qed.

Lemma unsubscribeAll_frame config st : obs (unsubscribeAll config st) = obs st.
Proof.
  unfold unsubscribeAll. cbn zeta.
  rewrite checkAndDisconnectClient_frame. apply unsubscribe_loop_frame.
Qed.

Lemma unsubscribe_frame config id st : obs (unsubscribe config id st) = obs st.
Proof.
  unfold unsubscribe. destruct (reg_lookup id (subscriptionsRef st)); [|reflexivity].
  cbn zeta. rewrite checkAndDisconnectClient_frame, framed_reg.
  destruct (connected st); [apply Subscription_unsubscribe_frame; assumption|reflexivity].
Qed.

Lemma subscribe_frame topicId options newId st :
  obs (subscribe topicId options newId st) = obs st.
Proof.
  unfold subscribe, new_Subscription. cbn zeta.
  set (st2 := Subscription_subscribe _ _).
  set (st3 := set_subscriptionsRef _ st2).
  set (st4 := if negb (connected st3) then _ else _).
  assert (H4 : obs st4 = obs st).
  { transitivity (obs st3).
    - subst st4. destruct (negb (connected st3)); [|reflexivity].
      apply startPolling_frame; assumption.
    - subst st3 st2. rewrite framed_reg, Subscription_subscribe_frame by assumption.
      apply framed_heap. }
  destruct (isFirstConnection st4); [|exact H4].
  unfold holdPromise, createClient.
  destruct (negb (active _)).
  - unfold client_connect. rewrite framed_active, framed_call by reflexivity.
    rewrite framed_promiseArr. exact H4.
  - rewrite framed_promiseArr. exact H4.
Qed.

End CallFrames.

(** ** The retry counter *)

Lemma tries_after_close config st :
  clientReconnectionTries (transport_closed config st) =
  if (clientReconnectionTries st <? clientMaxReconnectionTries config)%Z
  then
    if negb (isFirstConnection st) && isClientDisconnectedForced st
    then clientReconnectionTries st
    else (clientReconnectionTries st + 1)%Z
  else clientReconnectionTries st.
Proof.
  unfold transport_closed, connectCloseCallback.
  cbn [isFirstConnection isClientDisconnectedForced set_connected clientReconnectionTries
         set_isClientConnectionBroken].
  destruct (isFirstConnection st), (isClientDisconnectedForced st);
    cbn [negb andb];
    destruct (clientReconnectionTries st <? clientMaxReconnectionTries config)%Z;
    try reflexivity.
  - cbn [clientReconnectionTries set_clientReconnectionTries].
    rewrite (startAllPollings_frame clientReconnectionTries) by reflexivity. reflexivity.
  - cbn zeta. cbn [clientReconnectionTries emit set_trace].
    rewrite (unsubscribeAll_frame clientReconnectionTries). reflexivity.
Qed.

Lemma tries_step config l st :
  l <> LConnected -> l <> LClosed ->
  clientReconnectionTries (step config l st) = clientReconnectionTries st.
Proof.
  intros Hc Hl. destruct l; try congruence; cbn [step].
  - apply subscribe_frame; typeclasses eauto.
  - apply unsubscribe_frame; typeclasses eauto.
  - apply unsubscribeAll_frame; typeclasses eauto.
  - reflexivity.
  - reflexivity.
  - reflexivity.
  - reflexivity.
  - apply timer_fires_frame; typeclasses eauto.
  - apply poll_settles_frame; typeclasses eauto.
Qed.

Lemma tries_bounded_step config l st :
  (0 <= clientMaxReconnectionTries config)%Z ->
  (clientReconnectionTries st <= clientMaxReconnectionTries config)%Z ->
  (clientReconnectionTries (step config l st) <= clientMaxReconnectionTries config)%Z.
Proof.
  intros Hmax Hst.
  assert (Hother : l <> LConnected -> l <> LClosed ->
            (clientReconnectionTries (step config l st)
             <= clientMaxReconnectionTries config)%Z).
  { intros Hc Hl. rewrite tries_step by assumption. exact Hst. }
  destruct l; try (apply Hother; discriminate); clear Hother; cbn [step].
  - unfold transport_connected.
    destruct (connectSuccessCallback_fields config (set_connected true st)) as (-> & _).
    exact Hmax.
  - rewrite tries_after_close.
    destruct (clientReconnectionTries st <? clientMaxReconnectionTries config)%Z eqn:Hlt;
      [|exact Hst].
    apply Z.ltb_lt in Hlt.
    destruct (negb (isFirstConnection st) && isClientDisconnectedForced st); lia.
Qed.

Lemma reachable_run config ls st :
  reachable config st -> reachable config (run config ls st).
Proof.
  revert st. induction ls as [|l ls IH]; intros st Hr; [exact Hr|].
  apply IH. apply reachable_step. exact Hr.
Qed.

Lemma tries_bounded_reachable config st :
  (0 <= clientMaxReconnectionTries config)%Z ->
  reachable config st ->
  (clientReconnectionTries st <= clientMaxReconnectionTries config)%Z.
Proof.
  intros Hmax Hr. induction Hr as [delay0|l st Hr IH].
  - exact Hmax.
  - apply tries_bounded_step; assumption.
Qed.

(** ** Clearing the registry *)

Lemma reg_delete_absent id r : reg_lookup id r = None -> reg_delete id r = r.
Proof.
  induction r as [|[k a] r IH]; [reflexivity|]. simpl.
  destruct (String.eqb k id); [discriminate|]. intros H. rewrite IH by exact H. reflexivity.
Qed.

Lemma reg_delete_lookup_eq id r : reg_lookup id (reg_delete id r) = None.
Proof.
  induction r as [|[k a] r IH]; [reflexivity|]. simpl.
  destruct (String.eqb k id) eqn:E; [exact IH|]. simpl. rewrite E. exact IH.
Qed.

Lemma reg_delete_keys id k r :
  In k (reg_keys (reg_delete id r)) -> In k (reg_keys r) /\ k <> id.
Proof.
  induction r as [|[k' a] r IH]; simpl; [tauto|].
  destruct (String.eqb k' id) eqn:E.
  - intros H. destruct (IH H). tauto.
  - simpl. intros [<-|H].
    + split; [tauto|]. apply String.eqb_neq. exact E.
    + destruct (IH H). tauto.
Qed.

Lemma delete_all_keys keys r :
  (forall k, In k (reg_keys r) -> In k keys) ->
  fold_left (fun r' k => reg_delete k r') keys r = [].
Proof.
  revert r. induction keys as [|k keys IH]; intros r Hr.
  - simpl. destruct r as [|[k a] r]; [reflexivity|]. destruct (Hr k). simpl. tauto.
  - simpl. apply IH. intros k' Hk'. apply reg_delete_keys in Hk'. destruct Hk' as [Hin Hne].
    destruct (Hr k' Hin) as [->|H]; [congruence|exact H].
Qed.

Lemma set_subscriptionsRef_same st : set_subscriptionsRef (subscriptionsRef st) st = st.
Proof. destruct st. reflexivity. Qed.

Lemma unsubscribe_loop_disconnected keys st :
  connected st = false ->
  forEach
    (fun subId s =>
       match reg_lookup subId (subscriptionsRef s) with
       | Some a =>
           let s1 := if connected s then Subscription_unsubscribe a s else s in
           set_subscriptionsRef (reg_delete subId (subscriptionsRef s1)) s1
       | None => s
       end) keys st =
  set_subscriptionsRef
    (fold_left (fun r' k => reg_delete k r') keys (subscriptionsRef st)) st.
Proof.
  revert st. induction keys as [|k keys IH]; intros st Hc.
  - simpl. symmetry. apply set_subscriptionsRef_same.
  - rewrite forEach_cons. cbn [fold_left].
    destruct (reg_lookup k (subscriptionsRef st)) eqn:Hk.
    + cbn zeta. rewrite Hc. rewrite IH by exact Hc. reflexivity.
    + rewrite IH by exact Hc. rewrite (reg_delete_absent _ _ Hk). reflexivity.
Qed.

Lemma unsubscribeAll_disconnected config st :
  connected st = false ->
  unsubscribeAll config st = set_subscriptionsRef [] st.
Proof.
  intros Hc. unfold unsubscribeAll. cbn zeta.
  rewrite unsubscribe_loop_disconnected by exact Hc.
  rewrite delete_all_keys by tauto.
  unfold checkAndDisconnectClient. cbn [connected set_subscriptionsRef].
  rewrite Hc, andb_false_r. reflexivity.
Qed.

(** ** Closes after a successful connection *)

Lemma later_close_below config st :
  isFirstConnection st = false ->
  isClientDisconnectedForced st = false ->
  (clientReconnectionTries st < clientMaxReconnectionTries config)%Z ->
  transport_closed config st =
  set_clientReconnectionTries (clientReconnectionTries st + 1)%Z
    (startAllPollings (set_isClientConnectionBroken true (set_connected false st))).
Proof.
  intros Hf Hd Hlt. unfold transport_closed, connectCloseCallback.
  cbn [isFirstConnection isClientDisconnectedForced set_connected clientReconnectionTries
         set_isClientConnectionBroken].
  rewrite Hf, Hd. cbn [negb]. apply Z.ltb_lt in Hlt. rewrite Hlt. cbn zeta.
  rewrite (startAllPollings_frame clientReconnectionTries) by reflexivity. reflexivity.
Qed.

Lemma later_close_exhausted config st :
  isFirstConnection st = false ->
  isClientDisconnectedForced st = false ->
  (clientMaxReconnectionTries config <= clientReconnectionTries st)%Z ->
  transport_closed config st =
  emit (EvCall (onDisconnectHandler st))
    (set_subscriptionsRef []
       (set_client_reconnectDelay 0
          (set_isClientConnectionBroken true (set_connected false st)))).
Proof.
  intros Hf Hd Hge. unfold transport_closed, connectCloseCallback.
  cbn [isFirstConnection isClientDisconnectedForced set_connected clientReconnectionTries
         set_isClientConnectionBroken].
  rewrite Hf, Hd. cbn [negb]. apply Z.ltb_ge in Hge. rewrite Hge. cbn zeta.
  rewrite unsubscribeAll_disconnected by reflexivity. reflexivity.
Qed.

Lemma count_startAllPollings_other p st :
  p EvStartAllPollings = false ->
  count p (trace (emit EvStartAllPollings st)) = count p (trace st).
Proof. intros Hp. unfold emit. simpl. apply count_low. exact Hp. Qed.

Lemma later_closes_below config (k : nat) st :
  isFirstConnection st = false ->
  isClientDisconnectedForced st = false ->
  clientReconnectionTries st = 0%Z ->
  (Z.of_nat k <= clientMaxReconnectionTries config)%Z ->
  let st' := closes config k st in
  clientReconnectionTries st' = Z.of_nat k /\
  isFirstConnection st' = false /\
  isClientDisconnectedForced st' = false /\
  onDisconnectHandler st' = onDisconnectHandler st /\
  subscriptionsRef st' = subscriptionsRef st /\
  count is_call (trace st') = count is_call (trace st) /\
  count is_disconnect (trace st') = count is_disconnect (trace st).
Proof.
  intros Hf Hd H0. induction k as [|k IH]; intros Hk; cbn zeta.
  - simpl. rewrite H0. repeat split; try reflexivity; assumption.
  - destruct IH as (Ht & Hfi & Hfo & Hh & Hr & Hc & Hdi); [lia|].
    unfold closes in *. rewrite Nat.iter_succ.
    rewrite later_close_below by (try assumption; lia).
    set (st1 := set_isClientConnectionBroken true (set_connected false _)).
    cbn [clientReconnectionTries isFirstConnection isClientDisconnectedForced
           subscriptionsRef trace set_clientReconnectionTries].
    change (onDisconnectHandler (set_clientReconnectionTries _ ?s))
      with (onDisconnectHandler s).
    rewrite (startAllPollings_frame isFirstConnection) by reflexivity.
    rewrite (startAllPollings_frame isClientDisconnectedForced) by reflexivity.
    rewrite (startAllPollings_frame onDisconnectHandler) by reflexivity.
    rewrite (startAllPollings_frame subscriptionsRef) by reflexivity.
    rewrite (startAllPollings_frame (fun s => count is_call (trace s)))
      by (try reflexivity; intros; apply count_startAllPollings_other; reflexivity).
    rewrite (startAllPollings_frame (fun s => count is_disconnect (trace s)))
      by (try reflexivity; intros; apply count_startAllPollings_other; reflexivity).
    subst st1. cbn. rewrite Ht. repeat split; try assumption. lia.
Qed.

(** ** [Subscription.unsubscribe] *)

Lemma onUnsubscribe_effects id st :
  trace (onUnsubscribe id st) = trace st ++ [EvOnUnsubscribe id] /\
  subscriptionsRef (onUnsubscribe id st) = reg_delete id (subscriptionsRef st) /\
  timers (onUnsubscribe id st) = timers st /\
  awaiting (onUnsubscribe id st) = awaiting st /\
  heap (onUnsubscribe id st) = heap st.
Proof.
  unfold onUnsubscribe. cbn zeta. cbn [subscriptionsRef emit set_trace].
  destruct (reg_lookup id (subscriptionsRef st)) eqn:Hl.
  - repeat split; reflexivity.
  - rewrite (reg_delete_absent _ _ Hl). repeat split; reflexivity.
Qed.

Lemma Subscription_unsubscribe_effects this s st :
  heap st !! this = Some s ->
  trace (Subscription_unsubscribe this st) =
    trace st ++ unsubscribe_frames s st ++ [EvOnUnsubscribe (s_id s)] /\
  subscriptionsRef (Subscription_unsubscribe this st) =
    reg_delete (s_id s) (subscriptionsRef st) /\
  timers (Subscription_unsubscribe this st) = timers st /\
  awaiting (Subscription_unsubscribe this st) = awaiting st /\
  heap (Subscription_unsubscribe this st) = heap st.
Proof.
  intros Hs. unfold Subscription_unsubscribe, unsubscribe_frames. rewrite Hs. cbn zeta.
  set (st1 := if s_client s && connected st then _ else st).
  destruct (onUnsubscribe_effects (s_id s) st1) as (Ht & Hr & Hti & Ha & Hh).
  rewrite Ht, Hr, Hti, Ha, Hh. subst st1.
  destruct (s_client s && connected st); [destruct (s_subscription s)|];
    cbn; rewrite <- ?app_assoc, ?app_nil_r; repeat split; reflexivity.
Qed.

Lemma reg_lookup_absent_keys id r : reg_lookup id r = None -> ~ In id (reg_keys r).
Proof.
  induction r as [|[k a] r IH]; simpl; [tauto|].
  destruct (String.eqb k id) eqn:E; [discriminate|].
  intros H [Hk|Hin]; [|exact (IH H Hin)].
  apply String.eqb_neq in E. congruence.
Qed.

Lemma Subscription_unsubscribe_keys this st k :
  In k (reg_keys (subscriptionsRef (Subscription_unsubscribe this st))) ->
  In k (reg_keys (subscriptionsRef st)).
Proof.
  destruct (heap st !! this) as [s|] eqn:Hs.
  - destruct (Subscription_unsubscribe_effects this s st Hs) as (_ & -> & _).
    intros H. apply reg_delete_keys in H. tauto.
  - unfold Subscription_unsubscribe. rewrite Hs. tauto.
Qed.

Lemma unsubscribe_loop_clears keys st :
  (forall k, In k (reg_keys (subscriptionsRef st)) -> In k keys) ->
  subscriptionsRef
    (forEach
       (fun subId s =>
          match reg_lookup subId (subscriptionsRef s) with
          | Some a =>
              let s1 := if connected s then Subscription_unsubscribe a s else s in
              set_subscriptionsRef (reg_delete subId (subscriptionsRef s1)) s1
          | None => s
          end) keys st) = [].
Proof.
  revert st. induction keys as [|k keys IH]; intros st Hk.
  - simpl. destruct (subscriptionsRef st) as [|[k a] r]; [reflexivity|].
    destruct (Hk k). simpl. tauto.
  - rewrite forEach_cons. apply IH. intros k' Hk'.
    destruct (reg_lookup k (subscriptionsRef st)) as [a|] eqn:Hl.
    + cbn zeta in Hk'. cbn [subscriptionsRef set_subscriptionsRef] in Hk'.
      apply reg_delete_keys in Hk'. destruct Hk' as [Hin Hne].
      assert (Hin' : In k' (reg_keys (subscriptionsRef st))).
      { destruct (connected st); [|exact Hin].
        apply (Subscription_unsubscribe_keys a). exact Hin. }
      destruct (Hk k' Hin') as [->|H]; [congruence|exact H].
    + destruct (Hk k' Hk') as [<-|H]; [|exact H].
      destruct (reg_lookup_absent_keys _ _ Hl Hk').
Qed.

Lemma unsubscribeAll_clears config st : subscriptionsRef (unsubscribeAll config st) = [].
Proof.
  unfold unsubscribeAll. cbn zeta.
  rewrite (checkAndDisconnectClient_frame subscriptionsRef).
  apply unsubscribe_loop_clears. tauto.
Qed.

Lemma close_exhausted_any_client config st :
  isFirstConnection st = false ->
  isClientDisconnectedForced st = false ->
  (clientMaxReconnectionTries config <= clientReconnectionTries st)%Z ->
  subscriptionsRef (connectCloseCallback config st) = [] /\
  count is_call (trace (connectCloseCallback config st)) = count is_call (trace st) + 1 /\
  client_reconnectDelay (connectCloseCallback config st) = 0%Z.
Proof.
  intros Hf Hd Hge. unfold connectCloseCallback.
  rewrite Hf, Hd. cbn [negb]. cbn [clientReconnectionTries set_isClientConnectionBroken].
  apply Z.ltb_ge in Hge. rewrite Hge. cbn zeta.
  cbn [subscriptionsRef trace client_reconnectDelay emit set_trace].
  rewrite unsubscribeAll_clears, count_app.
  rewrite (unsubscribeAll_frame (fun s => count is_call (trace s))).
  rewrite (unsubscribeAll_frame client_reconnectDelay).
  repeat split; reflexivity.
Qed.

Lemma startAllPollings_count p st :
  (forall l a d, p (EvSetTimeout l a d) = false) ->
  p EvStartAllPollings = false ->
  count p (trace (startAllPollings st)) = count p (trace st).
Proof.
  intros Ht Hs. unfold startAllPollings.
  destruct (negb (isPollingActive st)); [|reflexivity].
  rewrite (forEach_frame (fun s => count p (trace s))).
  - unfold emit. cbn. apply count_low. exact Hs.
  - intros subId s. destruct (reg_lookup subId (subscriptionsRef s)) as [a|]; [|reflexivity].
    unfold startPolling. destruct (heap s !! a) as [o|]; [|reflexivity].
    destruct (s_pollingCallback o); [|reflexivity].
    unfold setTimeout, emit. cbn. apply count_low. apply Ht.
Qed.

Lemma later_closes_quiet config (k : nat) st :
  isFirstConnection st = false ->
  isClientDisconnectedForced st = false ->
  clientReconnectionTries st = 0%Z ->
  (Z.of_nat k <= clientMaxReconnectionTries config)%Z ->
  heap (closes config k st) = heap st /\
  count unsubscribe_event (trace (closes config k st)) =
    count unsubscribe_event (trace st).
Proof.
  intros Hf Hd H0. induction k as [|k IH]; intros Hk; [split; reflexivity|].
  destruct IH as [Hh Hu]; [lia|].
  destruct (later_closes_below config k st Hf Hd H0) as (Ht & Hfi & Hfo & _); [lia|].
  unfold closes in *. rewrite Nat.iter_succ.
  rewrite later_close_below by (try assumption; lia).
  cbn [heap trace set_clientReconnectionTries].
  rewrite (startAllPollings_frame heap) by reflexivity.
  rewrite startAllPollings_count by reflexivity.
  split; [exact Hh|exact Hu].
Qed.

(** C2 (as amended). With a non-negative configured maximum (the data model
    asks for a positive integer), [reconnectAttempts <= maxReconnectAttempts]
    holds in every reachable state.  After a successful connection, [max]
    consecutive unexpected closes use up the retries, leaving the registry
    and the number of calls of the disconnect handler as they were; the
    next close, the [(max+1)]-th, empties the registry without
    unsubscribing any entry: the client is not connected at a close, so the
    trace gains the one call of [onDisconnectHandler] and nothing else (no
    [unsubscribe()] of a subscription, no transport unsubscribe, no
    transport disconnect), the [Subscription] objects are the ones of
    before the closes and the pending timers stay pending.  It also
    disables auto-retry and leaves the counter at [max].  The close callback
    met with exhausted retries clears the registry and calls the handler
    exactly once whatever the client's [connected] property says. *)
Theorem C2_bounded_retries_then_teardown (config : Config) :
  (0 <= clientMaxReconnectionTries config)%Z ->
  (forall st, reachable config st ->
     (clientReconnectionTries st <= clientMaxReconnectionTries config)%Z) /\
  (forall st (n : nat),
     isFirstConnection st = false ->
     isClientDisconnectedForced st = false ->
     clientReconnectionTries st = 0%Z ->
     Z.of_nat n = clientMaxReconnectionTries config ->
     (forall k, k <= n ->
        clientReconnectionTries (closes config k st) = Z.of_nat k /\
        subscriptionsRef (closes config k st) = subscriptionsRef st /\
        count is_call (trace (closes config k st)) = count is_call (trace st)) /\
     subscriptionsRef (closes config (S n) st) = [] /\
     (forall id, reg_lookup id (subscriptionsRef (closes config (S n) st)) = None) /\
     trace (closes config (S n) st) =
       trace (closes config n st) ++ [EvCall (onDisconnectHandler st)] /\
     count unsubscribe_event (trace (closes config (S n) st)) =
       count unsubscribe_event (trace st) /\
     heap (closes config (S n) st) = heap st /\
     timers (closes config (S n) st) = timers (closes config n st) /\
     awaiting (closes config (S n) st) = awaiting (closes config n st) /\
     count is_call (trace (closes config (S n) st)) = count is_call (trace st) + 1 /\
     count is_disconnect (trace (closes config (S n) st)) =
       count is_disconnect (trace st) /\
     client_reconnectDelay (closes config (S n) st) = 0%Z /\
     clientReconnectionTries (closes config (S n) st) = Z.of_nat n) /\
  (forall st,
     isFirstConnection st = false ->
     isClientDisconnectedForced st = false ->
     (clientMaxReconnectionTries config <= clientReconnectionTries st)%Z ->
     subscriptionsRef (connectCloseCallback config st) = [] /\
     count is_call (trace (connectCloseCallback config st)) =
       count is_call (trace st) + 1).
Proof.
  intros Hmax. split; [|split].
  - intros st Hr. apply tries_bounded_reachable; assumption.
  - intros st n Hf Hd H0 Hn. split.
    + intros k Hk.
      destruct (later_closes_below config k st Hf Hd H0) as (Ht & _ & _ & _ & Hr & Hc & _);
        [lia|]. repeat split; assumption.
    + destruct (later_closes_below config n st Hf Hd H0)
        as (Ht & Hfi & Hfo & Hh & Hr & Hc & Hdi); [lia|].
      destruct (later_closes_quiet config n st Hf Hd H0) as [Hheap Hquiet]; [lia|].
      assert (E : closes config (S n) st = transport_closed config (closes config n st))
        by reflexivity.
      rewrite E, later_close_exhausted by (try assumption; lia).
      cbn [subscriptionsRef trace heap timers awaiting emit set_trace set_subscriptionsRef
             client_reconnectDelay set_client_reconnectDelay clientReconnectionTries
             set_isClientConnectionBroken set_connected reg_lookup].
      rewrite Hh, !count_app, Hc, Hdi, Ht, Hheap, Hquiet.
      repeat split; try reflexivity; unfold count; simpl; lia.
  - intros st Hf Hd Hge.
    destruct (close_exhausted_any_client config st Hf Hd Hge) as (Hr & Hc & _).
    split; assumption.
Qed.

Lemma C2_witness :
  (clientReconnectionTries one_connected <= 3)%Z /\
  subscriptionsRef (closes defaultConfig 3 one_connected) = subscriptionsRef one_connected /\
  subscriptionsRef (closes defaultConfig 4 one_connected) = [] /\
  count unsubscribe_event (trace (closes defaultConfig 4 one_connected)) =
    count unsubscribe_event (trace one_connected) /\
  heap (closes defaultConfig 4 one_connected) = heap one_connected /\
  count is_call (trace (closes defaultConfig 4 one_connected)) =
    count is_call (trace one_connected) + 1.
Proof.
  assert (Hmax : (0 <= clientMaxReconnectionTries defaultConfig)%Z)
    by (vm_compute; discriminate).
  destruct (C2_bounded_retries_then_teardown defaultConfig Hmax) as (Hinv & Htear & _).
  split.
  - apply (Hinv one_connected).
    apply reachable_run, reachable_mount.
  - destruct (Htear one_connected 3 eq_refl eq_refl eq_refl eq_refl)
      as (Hbelow & Hempty & _ & _ & Hquiet & Hheap & _ & _ & Hcalls & _).
    destruct (Hbelow 3) as (_ & Hreg & _); [lia|].
    split; [exact Hreg|]. split; [exact Hempty|]. split; [exact Hquiet|].
    split; [exact Hheap|exact Hcalls].
Defined.

(** C2, as stated, fails.  A callback is registered, one subscription is
    made and bound, and the connection then closes four times with the
    default maximum of three.  The fourth close finds the entry in the
    registry and leaves the registry empty, but nothing has been
    unsubscribed: no [unsubscribe()] of the subscription ran and no
    transport unsubscribe was issued, the object is still bound and holds
    its handle, its timers are still pending and the first of them still
    polls.  The one call made is not a call of the registered callback. *)
Lemma C2_entries_dropped_without_unsubscribe :
  reg_lookup "s1"%string (subscriptionsRef (closes defaultConfig 3 one_notified)) = Some 0 /\
  subscriptionsRef (closes defaultConfig 4 one_notified) = [] /\
  count unsubscribe_event (trace (closes defaultConfig 4 one_notified)) = 0 /\
  (exists s, heap (closes defaultConfig 4 one_notified) !! 0 = Some s /\
             s_client s = true /\ s_subscription s = Some 0) /\
  timers (closes defaultConfig 4 one_notified) =
    [(PrimaryLoop, 0); (FallbackLoop, 0); (PrimaryLoop, 0)] /\
  trace (timer_fires 0 (closes defaultConfig 4 one_notified)) =
    trace (closes defaultConfig 4 one_notified) ++ [EvPoll 0] /\
  disconnectCallback (closes defaultConfig 4 one_notified) = userCallback 7 /\
  List.filter is_call (trace (closes defaultConfig 4 one_notified)) = [EvCall noOp].
Proof.
  split; [vm_compute; reflexivity|]. split; [vm_compute; reflexivity|].
  split; [vm_compute; reflexivity|]. split.
  - eexists. split; [vm_compute; reflexivity|]. split; vm_compute; reflexivity.
  - split; [vm_compute; reflexivity|]. split; [vm_compute; reflexivity|].
    split; vm_compute; reflexivity.
Qed.

(** ** Degraded polling is started once per break *)

Lemma startAllPollings_active st :
  isPollingActive st = true -> startAllPollings st = st.
Proof. intros H. unfold startAllPollings. rewrite H. reflexivity. Qed.

Lemma startAllPollings_inactive st :
  isPollingActive st = false ->
  isPollingActive (startAllPollings st) = true /\
  count is_startAllPollings (trace (startAllPollings st)) =
    count is_startAllPollings (trace st) + 1.
Proof.
  intros H. unfold startAllPollings. rewrite H. cbn [negb]. cbn zeta. split.
  - rewrite (forEach_frame isPollingActive); [reflexivity|].
    intros subId s. destruct (reg_lookup subId (subscriptionsRef s)); [|reflexivity].
    apply startPolling_frame; typeclasses eauto.
  - rewrite (forEach_frame (fun s => count is_startAllPollings (trace s))).
    + cbn [trace emit set_trace set_isPollingActive]. rewrite count_app. reflexivity.
    + intros subId s. destruct (reg_lookup subId (subscriptionsRef s)); [|reflexivity].
      apply (startPolling_frame (fun s => count is_startAllPollings (trace s))).
Qed.

Lemma polling_step_framed (f : State -> State) st :
  isPollingActive (f st) = isPollingActive st ->
  count is_startAllPollings (trace (f st)) = count is_startAllPollings (trace st) ->
  polling_step st (f st).
Proof. intros H1 H2. left. split; assumption. Qed.

Lemma polling_step_closed config st : polling_step st (transport_closed config st).
Proof.
  unfold transport_closed, connectCloseCallback.
  cbn [isFirstConnection isClientDisconnectedForced set_connected clientReconnectionTries
         set_isClientConnectionBroken].
  destruct (isFirstConnection st), (isClientDisconnectedForced st); cbn [negb];
    destruct (clientReconnectionTries st <? clientMaxReconnectionTries config)%Z;
    try (left; split; reflexivity); cbn zeta.
  - set (st1 := set_isClientConnectionBroken true (set_connected false st)).
    destruct (isPollingActive st) eqn:Hp.
    + rewrite (startAllPollings_active st1) by exact Hp.
      left. split; reflexivity.
    + destruct (startAllPollings_inactive st1 Hp) as [Ha Hc].
      right. split; [exact Hp|]. split; [exact Ha|exact Hc].
  - left. cbn [isPollingActive trace emit set_trace]. split.
    + rewrite (unsubscribeAll_frame isPollingActive). reflexivity.
    + rewrite count_low by reflexivity.
      rewrite (unsubscribeAll_frame (fun s => count is_startAllPollings (trace s))).
      reflexivity.
Qed.

Lemma polling_step_event config l st :
  is_connected_label l = false -> polling_step st (step config l st).
Proof.
  intros Hl. destruct l; try discriminate; cbn [step];
    try (left; split; reflexivity).
  - apply polling_step_framed;
      [apply (subscribe_frame isPollingActive)
      |apply (subscribe_frame (fun s => count is_startAllPollings (trace s)))].
  - apply polling_step_framed;
      [apply (unsubscribe_frame isPollingActive)
      |apply (unsubscribe_frame (fun s => count is_startAllPollings (trace s)))].
  - apply polling_step_framed;
      [apply (unsubscribeAll_frame isPollingActive)
      |apply (unsubscribeAll_frame (fun s => count is_startAllPollings (trace s)))].
  - apply polling_step_closed.
  - apply polling_step_framed;
      [apply (timer_fires_frame isPollingActive)
      |apply (timer_fires_frame (fun s => count is_startAllPollings (trace s)))].
  - apply (polling_step_framed (fun s => fst (poll_settles n r s)));
      [apply (poll_settles_frame isPollingActive)
      |apply (poll_settles_frame (fun s => count is_startAllPollings (trace s)))].
Qed.

Lemma polling_step_run config ls st :
  forallb (fun l => negb (is_connected_label l)) ls = true ->
  polling_step st (run config ls st).
Proof.
  revert st. induction ls as [|l ls IH]; intros st Hls.
  - left. split; reflexivity.
  - simpl in Hls. apply andb_true_iff in Hls. destruct Hls as [Hl Hls].
    apply negb_true_iff in Hl.
    change (run config (l :: ls) st) with (run config ls (step config l st)).
    pose proof (polling_step_event config l st Hl) as H1.
    pose proof (IH (step config l st) Hls) as H2.
    unfold polling_step in *.
    destruct H1 as [[Ha Hc]|(Ha & Hb & Hc)], H2 as [[Ha' Hc']|(Ha' & Hb' & Hc')].
    + left. split; congruence.
    + right. repeat split; congruence.
    + right. repeat split; congruence.
    + congruence.
Qed.

(** C9. Over any run of events that contains no successful connect, the
    body of [startAllPollings] runs at most once, however many closes
    occur; once [isPollingActive] is set it stays set over such a run, and
    then the body does not run at all. *)
Theorem C9_polling_activated_at_most_once (config : Config) (ls : list label) (st : State) :
  forallb (fun l => negb (is_connected_label l)) ls = true ->
  count is_startAllPollings (trace (run config ls st))
    <= count is_startAllPollings (trace st) + 1 /\
  (isPollingActive st = true ->
     isPollingActive (run config ls st) = true /\
     count is_startAllPollings (trace (run config ls st)) =
       count is_startAllPollings (trace st)).
Proof.
  intros Hls. destruct (polling_step_run config ls st Hls) as [[Ha Hc]|(Ha & Hb & Hc)].
  - split; [lia|]. intros Hp. split; congruence.
  - split; [lia|]. intros Hp. congruence.
Qed.

Lemma C9_witness :
  count is_startAllPollings
    (trace (run defaultConfig [LClosed; LClosed; LClosed] one_connected)) <= 0 + 1.
Proof.
  apply (C9_polling_activated_at_most_once defaultConfig [LClosed; LClosed; LClosed]
           one_connected).
  reflexivity.
Defined.

(** ** The memoised disconnect handler *)

Lemma memo_after_success config st :
  onDisconnectHandler_memo (connectSuccessCallback config st) = onDisconnectHandler_memo st.
Proof.
  unfold connectSuccessCallback. cbn zeta.
  cbn [onDisconnectHandler_memo set_isFirstConnection set_client_reconnectDelay
         set_clientReconnectionTries set_isPollingActive].
  destruct (isClientConnectionBroken st).
  - apply (resubscribe_loop_frame onDisconnectHandler_memo).
  - rewrite (setClientAndSubscribeAll_frame onDisconnectHandler_memo). reflexivity.
Qed.

Lemma memo_after_close config st :
  onDisconnectHandler_memo (connectCloseCallback config st) = onDisconnectHandler_memo st.
Proof.
  unfold connectCloseCallback.
  destruct (isFirstConnection st), (isClientDisconnectedForced st); cbn [negb];
    cbn [clientReconnectionTries set_isClientConnectionBroken];
    destruct (clientReconnectionTries st <? clientMaxReconnectionTries config)%Z;
    try reflexivity; cbn zeta.
  - cbn [onDisconnectHandler_memo set_clientReconnectionTries].
    rewrite (startAllPollings_frame onDisconnectHandler_memo) by reflexivity. reflexivity.
  - cbn [onDisconnectHandler_memo emit set_trace].
    rewrite (unsubscribeAll_frame onDisconnectHandler_memo). reflexivity.
Qed.

Lemma memo_step config l st :
  onDisconnectHandler_memo st = Some noOp ->
  onDisconnectHandler_memo (step config l st) = Some noOp.
Proof.
  intros Hm. destruct l; cbn [step].
  - rewrite (subscribe_frame onDisconnectHandler_memo). exact Hm.
  - rewrite (unsubscribe_frame onDisconnectHandler_memo). exact Hm.
  - rewrite (unsubscribeAll_frame onDisconnectHandler_memo). exact Hm.
  - exact Hm.
  - exact Hm.
  - unfold render. cbn [onDisconnectHandler_memo set_onDisconnectHandler_memo].
    rewrite Hm. reflexivity.
  - unfold transport_connected. rewrite memo_after_success. exact Hm.
  - exact Hm.
  - unfold transport_closed. rewrite memo_after_close. exact Hm.
  - rewrite (timer_fires_frame onDisconnectHandler_memo). exact Hm.
  - rewrite (poll_settles_frame onDisconnectHandler_memo). exact Hm.
Qed.

Lemma memo_reachable config st :
  reachable config st -> onDisconnectHandler_memo st = Some noOp.
Proof.
  intros Hr. induction Hr as [delay0|l st Hr IH]; [reflexivity|].
  apply memo_step. exact IH.
Qed.

Lemma checkAndDisconnectClient_trace config topicId st :
  registry_empty st = true ->
  connected st = true ->
  exists pre,
    trace (checkAndDisconnectClient config topicId st) =
      trace st ++ pre ++ [EvDisconnect (onDisconnectHandler st)] /\
    count is_disconnect pre = 0 /\
    pre =
      match beforeDisconnectCallback st, sendMessageUrl config with
      | Some hook, Some url =>
          if truthy_str (Some url)
          then [EvBeforeDisconnect topicId; EvSend url (hook topicId)]
          else []
      | _, _ => []
      end.
Proof.
  intros He Hc. unfold checkAndDisconnectClient.
  unfold registry_empty in He. rewrite He, Hc. cbn [andb]. cbn zeta.
  cbn [beforeDisconnectCallback set_isClientDisconnectedForced].
  eexists. split; [|split; [|reflexivity]].
  - destruct (beforeDisconnectCallback st) as [hook|];
      [destruct (sendMessageUrl config) as [url|];
       [destruct (truthy_str (Some url))|]|];
      cbn; rewrite <- ?app_assoc; reflexivity.
  - destruct (beforeDisconnectCallback st) as [hook|];
      [destruct (sendMessageUrl config) as [url|];
       [destruct (truthy_str (Some url))|]|]; reflexivity.
Qed.

(** C5 (what the code does instead). In every reachable state the handler
    the disconnect paths use is the initial [noOp], also right after
    [onDisconnect(cb)] has stored [cb]: the close that finds the retries
    exhausted calls [noOp], and the empty-registry teardown hands [noOp] to
    the transport's disconnect; [cb] is only stored. *)
Theorem C5_disconnect_paths_use_initial_noOp (config : Config) (st : State) (cb : callback) :
  reachable config st ->
  disconnectCallback (onDisconnect cb st) = cb /\
  onDisconnectHandler (onDisconnect cb st) = noOp /\
  (isFirstConnection st = false ->
   isClientDisconnectedForced st = false ->
   (clientMaxReconnectionTries config <= clientReconnectionTries st)%Z ->
   trace (transport_closed config (onDisconnect cb st)) = trace st ++ [EvCall noOp]) /\
  (forall topicId,
     registry_empty st = true ->
     connected st = true ->
     exists pre,
       trace (checkAndDisconnectClient config topicId (onDisconnect cb st)) =
         trace st ++ pre ++ [EvDisconnect noOp] /\
       count is_disconnect pre = 0).
Proof.
  intros Hr. pose proof (memo_reachable config st Hr) as Hm.
  assert (Hh : onDisconnectHandler (onDisconnect cb st) = noOp).
  { unfold onDisconnectHandler, onDisconnect.
    cbn [onDisconnectHandler_memo set_disconnectCallback]. rewrite Hm. reflexivity. }
  split; [reflexivity|]. split; [exact Hh|]. split.
  - intros Hf Hd Hge.
    rewrite later_close_exhausted by assumption. rewrite Hh. reflexivity.
  - intros topicId He Hc.
    destruct (checkAndDisconnectClient_trace config topicId (onDisconnect cb st) He Hc)
      as (pre & Ht & Hp & _).
    exists pre. rewrite Hh in Ht. split; [exact Ht|exact Hp].
Qed.

Lemma C5_witness :
  disconnectCallback (onDisconnect (userCallback 7) one_exhausted) = userCallback 7 /\
  trace (transport_closed defaultConfig (onDisconnect (userCallback 7) one_exhausted)) =
    trace one_exhausted ++ [EvCall noOp].
Proof.
  destruct (C5_disconnect_paths_use_initial_noOp defaultConfig one_exhausted (userCallback 7))
    as (Hcb & _ & Hclose & _).
  - apply reachable_run, reachable_mount.
  - split; [exact Hcb|]. apply Hclose; [reflexivity|reflexivity|vm_compute; discriminate].
Defined.

(** ** The poll loops *)

Lemma startPolling_absent this s st :
  heap st !! this = Some s -> s_pollingCallback s = None -> startPolling this st = st.
Proof. intros Hs Hp. unfold startPolling. rewrite Hs, Hp. reflexivity. Qed.

Lemma fallbackPolling_absent this s st :
  heap st !! this = Some s -> s_pollingCallback s = None -> fallbackPolling this st = st.
Proof. intros Hs Hp. unfold fallbackPolling. rewrite Hs, Hp. reflexivity. Qed.

Lemma primary_timer_fires n this s cb st :
  timers st !! n = Some (PrimaryLoop, this) ->
  heap st !! this = Some s ->
  s_pollingCallback s = Some cb ->
  s_client s && connected st = false ->
  timer_fires n st =
  set_awaiting (awaiting st ++ [(PrimaryLoop, this)])
    (emit (EvPoll this) (set_timers (delete n (timers st)) st)).
Proof.
  intros Hn Hs Hp Hc. unfold timer_fires. rewrite Hn. cbn zeta.
  unfold startPolling_timer. cbn [heap connected set_timers]. rewrite Hs, Hc, Hp.
  reflexivity.
Qed.

Lemma delete_last_appended {A} (l : list A) x : delete (length l) (l ++ [x]) = l.
Proof.
  induction l as [|y l IH]; [reflexivity|]. simpl. f_equal. exact IH.
Qed.

Lemma reg_set_lookup_eq id a r : reg_lookup id (reg_set id a r) = Some a.
Proof.
  induction r as [|[k b] r IH]; simpl; [rewrite String.eqb_refl; reflexivity|].
  destruct (String.eqb k id) eqn:E; simpl; rewrite E; [reflexivity|exact IH].
Qed.

Lemma holdPromise_fields topicId st :
  subscriptionsRef (holdPromise topicId st) = subscriptionsRef st /\
  timers (holdPromise topicId st) = timers st /\
  awaiting (holdPromise topicId st) = awaiting st /\
  heap (holdPromise topicId st) = heap st /\
  connected (holdPromise topicId st) = connected st /\
  count is_disconnect (trace (holdPromise topicId st)) = count is_disconnect (trace st).
Proof.
  unfold holdPromise, createClient, client_connect. cbn [active set_promiseArr].
  destruct (negb (active st)); repeat split; try reflexivity.
  cbn. apply count_low. reflexivity.
Qed.

Lemma subscribe_registry topicId options newId st :
  subscriptionsRef (subscribe topicId options newId st) =
  reg_set newId (length (heap st)) (subscriptionsRef st).
Proof.
  unfold subscribe, new_Subscription. cbn zeta.
  set (st2 := Subscription_subscribe _ _).
  set (st3 := set_subscriptionsRef _ st2).
  set (st4 := if negb (connected st3) then _ else _).
  assert (H4 : subscriptionsRef st4 = subscriptionsRef st3).
  { subst st4. destruct (negb (connected st3)); [|reflexivity].
    apply (startPolling_frame subscriptionsRef). }
  assert (H3 : subscriptionsRef st3 =
               reg_set newId (length (heap st)) (subscriptionsRef st)).
  { subst st3 st2. cbn [subscriptionsRef set_subscriptionsRef].
    rewrite (Subscription_subscribe_frame subscriptionsRef). reflexivity. }
  destruct (isFirstConnection st4).
  - destruct (holdPromise_fields topicId st4) as (-> & _). congruence.
  - congruence.
Qed.

Lemma Subscription_subscribe_timers_absent this s st :
  heap st !! this = Some s ->
  s_pollingCallback s = None ->
  timers (Subscription_subscribe this st) = timers st.
Proof.
  intros Hs Hp. unfold Subscription_subscribe. rewrite Hs.
  destruct (s_client s && connected st); [|reflexivity]. cbn zeta.
  erewrite fallbackPolling_absent; [reflexivity| |].
  - cbn [heap set_heap]. apply list_lookup_insert_eq.
    cbn [heap emit set_trace set_nextHandle]. apply lookup_lt_Some in Hs. exact Hs.
  - exact Hp.
Qed.

Lemma subscribe_timers_absent topicId options newId st :
  opt_pollingCallback options = None ->
  timers (subscribe topicId options newId st) = timers st.
Proof.
  intros Hp. unfold subscribe.
  destruct (new_Subscription_object (connected st) topicId options newId st)
    as (s & Hs & _ & _ & _ & Hcb & _).
  assert (Ht : timers (snd (new_Subscription (connected st) topicId options newId st))
               = timers st).
  { unfold new_Subscription. cbn [snd].
    erewrite Subscription_subscribe_timers_absent; [reflexivity| |].
    - cbn [heap set_heap]. apply list_lookup_middle. reflexivity.
    - exact Hp. }
  destruct (new_Subscription (connected st) topicId options newId st) as [this st2].
  cbn [fst snd] in *. cbn zeta.
  set (st3 := set_subscriptionsRef _ st2).
  assert (H3 : heap st3 !! this = Some s) by exact Hs.
  set (st4 := if negb (connected st3) then _ else _).
  assert (H4 : st4 = st3).
  { subst st4. destruct (negb (connected st3)); [|reflexivity].
    apply (startPolling_absent this s); [exact H3|]. rewrite Hcb. exact Hp. }
  rewrite H4.
  destruct (isFirstConnection st3).
  - destruct (holdPromise_fields topicId st3) as (_ & -> & _). exact Ht.
  - exact Ht.
Qed.

(** C6 (as amended). For a [Subscription] whose [pollingCallback] is absent,
    [startPolling] schedules no tick and does nothing else, so this loop
    never calls [unsubscribe()]: subscribing without a callback leaves the
    pending timers as they were and the new entry registered.  When the
    callback is present, the tick fires while the connection is not
    connected and the callback returns false, [unsubscribe()] is called (the
    entry leaves the registry) and no timer is scheduled afterwards. *)
Theorem C6_primary_loop_absent_or_false (st : State) :
  (forall this s,
     heap st !! this = Some s -> s_pollingCallback s = None ->
     startPolling this st = st) /\
  (forall topicId options newId,
     opt_pollingCallback options = None ->
     timers (subscribe topicId options newId st) = timers st /\
     reg_lookup newId (subscriptionsRef (subscribe topicId options newId st)) =
       Some (length (heap st))) /\
  (forall n this s cb,
     timers st !! n = Some (PrimaryLoop, this) ->
     heap st !! this = Some s ->
     s_pollingCallback s = Some cb ->
     s_client s && connected st = false ->
     let st' := fst (poll_settles (length (awaiting st)) (Returned false)
                       (timer_fires n st)) in
     trace st' = trace st ++ [EvPoll this; EvOnUnsubscribe (s_id s)] /\
     reg_lookup (s_id s) (subscriptionsRef st') = None /\
     timers st' = delete n (timers st) /\
     awaiting st' = awaiting st).
Proof.
  split; [|split].
  - intros this s Hs Hp. apply (startPolling_absent this s); assumption.
  - intros topicId options newId Hp. split.
    + apply subscribe_timers_absent. exact Hp.
    + rewrite subscribe_registry. apply reg_set_lookup_eq.
  - intros n this s cb Hn Hs Hp Hc. cbn zeta.
    rewrite (primary_timer_fires n this s cb) by assumption.
    unfold poll_settles. cbn [awaiting set_awaiting].
    rewrite list_lookup_middle by reflexivity. cbn zeta.
    rewrite delete_last_appended. cbn [startPolling_resume fst].
    set (st1 := set_awaiting _ _).
    assert (Hs1 : heap st1 !! this = Some s) by exact Hs.
    destruct (Subscription_unsubscribe_effects this s st1 Hs1) as (Ht & Hr & Hti & Ha & _).
    rewrite Ht, Hr, Hti, Ha. unfold unsubscribe_frames.
    replace (connected st1) with (connected st) by reflexivity. rewrite Hc.
    subst st1. cbn. rewrite <- app_assoc. repeat split; try reflexivity.
    apply reg_delete_lookup_eq.
Qed.

Lemma C6_witness :
  timers (subscribe "orders"%string no_options "s1"%string (mount 0)) = [] /\
  trace (run defaultConfig [LTimer 0; LSettle 0 (Returned false)] one_waiting) =
    trace one_waiting ++ [EvPoll 0; EvOnUnsubscribe "s1"%string].
Proof.
  destruct (C6_primary_loop_absent_or_false (mount 0)) as (_ & Habsent & _).
  destruct (C6_primary_loop_absent_or_false one_waiting) as (_ & _ & Hfalse).
  split.
  - apply (Habsent "orders"%string no_options "s1"%string). reflexivity.
  - apply (Hfalse 0 0 (Subscription_fields false "orders"%string polling_options "s1"%string)
             0); reflexivity.
Defined.

(** C6, the claim as stated fails: for a subscription without a
    [pollingCallback], made while the connection is not connected, no tick
    is scheduled and no [unsubscribe()] follows; the entry stays
    registered. *)
Lemma C6_no_tick_without_callback :
  let st := run defaultConfig [LSubscribe "orders"%string no_options "s1"%string]
              (mount 0) in
  connected st = false /\
  timers st = [] /\
  count is_setTimeout (trace st) = 0 /\
  count is_onUnsubscribe (trace st) = 0 /\
  subscriptionsRef st = [("s1"%string, 0)].
Proof. vm_compute. repeat split; reflexivity. Qed.

Lemma unsubscribe_frames_quiet s st : count is_onUnsubscribe (unsubscribe_frames s st) = 0.
Proof.
  unfold unsubscribe_frames.
  destruct (s_client s && connected st); [destruct (s_subscription s)|]; reflexivity.
Qed.

Lemma poll_settles_false n l this s st :
  awaiting st !! n = Some (l, this) ->
  heap st !! this = Some s ->
  reg_lookup (s_id s) (subscriptionsRef (fst (poll_settles n (Returned false) st))) = None /\
  count is_onUnsubscribe (trace (fst (poll_settles n (Returned false) st))) =
    count is_onUnsubscribe (trace st) + 1.
Proof.
  intros Hn Hs. unfold poll_settles. rewrite Hn. cbn zeta.
  set (st1 := set_awaiting _ st).
  assert (Hs1 : heap st1 !! this = Some s) by exact Hs.
  destruct (Subscription_unsubscribe_effects this s st1 Hs1) as (Ht & Hr & _).
  destruct l; cbn [startPolling_resume fallbackPolling_resume fst];
    rewrite Ht, Hr, !count_app, unsubscribe_frames_quiet;
    (split; [apply reg_delete_lookup_eq|reflexivity]).
Qed.

(** C7 (as amended). In both poll loops, when the awaited [pollingCallback]
    throws or rejects, the suspended timer body ends there: no timer is
    scheduled (the loop stops), but [unsubscribe()] is not called, the
    registry and the trace are as they were, and the body settles as a
    rejection that nothing handles.  A false result, by contrast, calls
    [unsubscribe()], which takes the entry out of the registry. *)
Theorem C7_throwing_callback_stops_without_unsubscribe
    (n : nat) (l : loop) (this : nat) (st : State) :
  awaiting st !! n = Some (l, this) ->
  snd (poll_settles n Threw st) = Rejected /\
  subscriptionsRef (fst (poll_settles n Threw st)) = subscriptionsRef st /\
  trace (fst (poll_settles n Threw st)) = trace st /\
  timers (fst (poll_settles n Threw st)) = timers st /\
  heap (fst (poll_settles n Threw st)) = heap st /\
  awaiting (fst (poll_settles n Threw st)) = delete n (awaiting st) /\
  (forall s,
     heap st !! this = Some s ->
     reg_lookup (s_id s)
       (subscriptionsRef (fst (poll_settles n (Returned false) st))) = None /\
     count is_onUnsubscribe (trace (fst (poll_settles n (Returned false) st))) =
       count is_onUnsubscribe (trace st) + 1).
Proof.
  intros Hn. split; [|split; [|split; [|split; [|split; [|split]]]]];
    try (unfold poll_settles; rewrite Hn; destruct l; reflexivity).
  intros s Hs. apply (poll_settles_false n l this s st Hn Hs).
Qed.

Lemma C7_witness :
  let st := run defaultConfig [LTimer 0] one_waiting in
  snd (poll_settles 0 Threw st) = Rejected /\
  subscriptionsRef (fst (poll_settles 0 Threw st)) = [("s1"%string, 0)].
Proof.
  cbn zeta.
  destruct (C7_throwing_callback_stops_without_unsubscribe 0 PrimaryLoop 0
              (run defaultConfig [LTimer 0] one_waiting))
    as (Hout & Hreg & _); [reflexivity|].
  split; [exact Hout|]. rewrite Hreg. reflexivity.
Defined.

(** C7, the claim as stated fails: a throwing callback is not treated like
    one returning false.  In the primary loop (not connected) and in the
    fallback loop (connected), after a throw the timer body is rejected, no
    [unsubscribe()] has been called and the entry is still registered,
    whereas a false result removes it. *)
Lemma C7_throw_is_not_false :
  let primary := run defaultConfig [LTimer 0] one_waiting in
  let fallback := run defaultConfig [LTimer 1] one_connected in
  awaiting primary = [(PrimaryLoop, 0)] /\
  awaiting fallback = [(FallbackLoop, 0)] /\
  snd (poll_settles 0 Threw primary) = Rejected /\
  snd (poll_settles 0 Threw fallback) = Rejected /\
  count is_onUnsubscribe (trace (fst (poll_settles 0 Threw primary))) = 0 /\
  count is_onUnsubscribe (trace (fst (poll_settles 0 Threw fallback))) = 0 /\
  subscriptionsRef (fst (poll_settles 0 Threw primary)) = [("s1"%string, 0)] /\
  subscriptionsRef (fst (poll_settles 0 Threw fallback)) = [("s1"%string, 0)] /\
  subscriptionsRef (fst (poll_settles 0 (Returned false) primary)) = [] /\
  subscriptionsRef (fst (poll_settles 0 (Returned false) fallback)) = [].
Proof. vm_compute. repeat split; reflexivity. Qed.

(** ** Bound subscriptions hold a handle *)

Lemma Subscription_subscribe_bound this st :
  (forall a s, a <> this -> heap st !! a = Some s -> s_client s = true ->
     is_Some (s_subscription s)) ->
  (forall s, heap st !! this = Some s -> s_client s = true ->
     connected st = true \/ is_Some (s_subscription s)) ->
  bound_has_handle (Subscription_subscribe this st).
Proof.
  intros Ho Ht a s Ha Hc. rewrite Subscription_subscribe_heap in Ha.
  destruct (decide (a = this)) as [->|Hne].
  - destruct (heap st !! this) as [s0|] eqn:H0; cbn in Ha.
    + destruct (s_client s0) eqn:Hc0.
      * destruct (connected st) eqn:Hcon.
        -- inversion Ha; subst. cbn. eauto.
        -- inversion Ha; subst. destruct (Ht s eq_refl Hc0) as [?|?]; [congruence|assumption].
      * inversion Ha; subst. congruence.
    + discriminate.
  - apply (Ho a s Hne); [|exact Hc].
    destruct (s_client <$> heap st !! this) as [[|]|]; [|exact Ha|exact Ha].
    destruct (connected st); exact Ha.
Qed.

Lemma bound_has_handle_heap st st' :
  heap st' = heap st -> bound_has_handle st -> bound_has_handle st'.
Proof. intros Hh Hb a s Ha. rewrite Hh in Ha. apply (Hb a s Ha). Qed.

Lemma bound_has_handle_subscribe this st :
  bound_has_handle st -> bound_has_handle (Subscription_subscribe this st).
Proof.
  intros Hb. apply Subscription_subscribe_bound.
  - intros a s _ Ha Hc. apply (Hb a s Ha Hc).
  - intros s Ha Hc. right. apply (Hb this s Ha Hc).
Qed.

Lemma bound_has_handle_setClientAndSubscribe this st :
  connected st = true ->
  bound_has_handle st -> bound_has_handle (setClientAndSubscribe this st).
Proof.
  intros Hcon Hb. unfold setClientAndSubscribe.
  destruct (heap st !! this) as [s0|] eqn:H0; [|exact Hb].
  apply Subscription_subscribe_bound.
  - intros a s Hne Ha Hc. cbn [heap set_heap] in Ha.
    rewrite list_lookup_insert_ne in Ha by congruence. apply (Hb a s Ha Hc).
  - intros s _ _. left. exact Hcon.
Qed.

Lemma bound_has_handle_new client topicId options newId st :
  (client = true -> connected st = true) ->
  bound_has_handle st ->
  bound_has_handle (snd (new_Subscription client topicId options newId st)).
Proof.
  intros Hcl Hb. unfold new_Subscription. cbn [snd].
  apply Subscription_subscribe_bound.
  - intros a s Hne Ha Hc. cbn [heap set_heap] in Ha.
    destruct (decide (a < length (heap st))) as [Hlt|Hge].
    + rewrite lookup_app_l in Ha by exact Hlt. apply (Hb a s Ha Hc).
    + rewrite lookup_app_r in Ha by lia.
      destruct (a - length (heap st)) as [|k] eqn:Hk; [lia|]. discriminate.
  - intros s Ha Hc. left. cbn [heap set_heap connected] in *.
    rewrite list_lookup_middle in Ha by reflexivity. inversion Ha; subst.
    apply Hcl. exact Hc.
Qed.

Lemma subscribe_heap topicId options newId st :
  heap (subscribe topicId options newId st) =
  heap (snd (new_Subscription (connected st) topicId options newId st)).
Proof.
  unfold subscribe.
  destruct (new_Subscription (connected st) topicId options newId st) as [this st2].
  cbn [snd]. cbn zeta.
  set (st3 := set_subscriptionsRef _ st2).
  set (st4 := if negb (connected st3) then _ else _).
  assert (H4 : heap st4 = heap st2).
  { subst st4. destruct (negb (connected st3)); [|reflexivity].
    rewrite startPolling_heap. reflexivity. }
  destruct (isFirstConnection st4); [|exact H4].
  destruct (holdPromise_fields topicId st4) as (_ & _ & _ & -> & _). exact H4.
Qed.

Lemma bound_has_handle_success config st :
  bound_has_handle st -> bound_has_handle (connectSuccessCallback config st).
Proof.
  intros Hb. unfold connectSuccessCallback. cbn zeta.
  match goal with
  | |- bound_has_handle (set_isFirstConnection _ (set_client_reconnectDelay _
         (set_clientReconnectionTries _ (set_isPollingActive _ ?s)))) =>
      apply (bound_has_handle_heap s); [reflexivity|]
  end.
  destruct (isClientConnectionBroken st).
  - apply (forEach_inv bound_has_handle); [|exact Hb].
    intros subId s Hs. destruct (reg_lookup subId (subscriptionsRef s)); [|exact Hs].
    destruct (connected s); [|exact Hs]. apply bound_has_handle_subscribe. exact Hs.
  - unfold setClientAndSubscribeAll.
    apply (forEach_inv bound_has_handle); [|exact Hb].
    intros subId s Hs. destruct (reg_lookup subId (subscriptionsRef s)); [|exact Hs].
    destruct (connected s) eqn:Hcon; [|exact Hs].
    apply bound_has_handle_setClientAndSubscribe; assumption.
Qed.

Lemma heap_after_close config st : heap (connectCloseCallback config st) = heap st.
Proof.
  unfold connectCloseCallback.
  destruct (isFirstConnection st), (isClientDisconnectedForced st); cbn [negb];
    cbn [clientReconnectionTries set_isClientConnectionBroken];
    destruct (clientReconnectionTries st <? clientMaxReconnectionTries config)%Z;
    try reflexivity; cbn zeta.
  - cbn [heap set_clientReconnectionTries].
    rewrite (startAllPollings_frame heap) by reflexivity. reflexivity.
  - cbn [heap emit set_trace]. rewrite (unsubscribeAll_frame heap). reflexivity.
Qed.

Lemma bound_has_handle_step config l st :
  bound_has_handle st -> bound_has_handle (step config l st).
Proof.
  intros Hb. destruct l; cbn [step].
  - apply (bound_has_handle_heap
             (snd (new_Subscription (connected st) topicId options newId st)));
      [apply subscribe_heap|].
    apply bound_has_handle_new; [tauto|exact Hb].
  - apply (bound_has_handle_heap st); [apply (unsubscribe_frame heap)|exact Hb].
  - apply (bound_has_handle_heap st); [apply (unsubscribeAll_frame heap)|exact Hb].
  - exact Hb.
  - exact Hb.
  - exact Hb.
  - unfold transport_connected. apply bound_has_handle_success. exact Hb.
  - exact Hb.
  - apply (bound_has_handle_heap st); [|exact Hb].
    unfold transport_closed. rewrite heap_after_close. reflexivity.
  - apply (bound_has_handle_heap st); [apply (timer_fires_frame heap)|exact Hb].
  - apply (bound_has_handle_heap st); [apply (poll_settles_frame heap)|exact Hb].
Qed.

Lemma bound_has_handle_reachable config st :
  reachable config st -> bound_has_handle st.
Proof.
  intros Hr. induction Hr as [delay0|l st Hr IH].
  - intros a s Ha. discriminate.
  - apply bound_has_handle_step. exact IH.
Qed.

(** C8. For every [Subscription] object, in every reachable state,
    [unsubscribe()] calls [onUnsubscribedCallback(id)] once, as its last
    effect, after which the registry has no entry for that id; and it calls
    the transport's unsubscribe primitive, on the handle the object holds,
    exactly when the object is bound to the client and the client is
    connected. *)
Theorem C8_unsubscribe_notifies_registry
    (config : Config) (st : State) (this : nat) (s : Subscription) :
  reachable config st ->
  heap st !! this = Some s ->
  reg_lookup (s_id s) (subscriptionsRef (Subscription_unsubscribe this st)) = None /\
  (s_client s && connected st = true ->
   exists h, s_subscription s = Some h /\
     trace (Subscription_unsubscribe this st) =
       trace st ++ [EvTransportUnsubscribe h; EvOnUnsubscribe (s_id s)]) /\
  (s_client s && connected st = false ->
   trace (Subscription_unsubscribe this st) = trace st ++ [EvOnUnsubscribe (s_id s)]).
Proof.
  intros Hr Hs.
  destruct (Subscription_unsubscribe_effects this s st Hs) as (Ht & Hreg & _).
  rewrite Ht, Hreg. unfold unsubscribe_frames. split; [apply reg_delete_lookup_eq|].
  split; intros Hc; rewrite Hc.
  - apply andb_true_iff in Hc. destruct Hc as [Hcl _].
    destruct (bound_has_handle_reachable config st Hr this s Hs Hcl) as [h Hh].
    exists h. rewrite Hh. split; reflexivity.
  - reflexivity.
Qed.

Lemma C8_witness :
  exists h,
    trace (Subscription_unsubscribe 0 one_connected) =
      trace one_connected ++ [EvTransportUnsubscribe h; EvOnUnsubscribe "s1"%string].
Proof.
  destruct (C8_unsubscribe_notifies_registry defaultConfig one_connected 0
              (mkSubscription "s1"%string true "orders"%string (Some 0) (Some 0) 3000 20000))
    as (_ & Hcon & _).
  - apply reachable_run, reachable_mount.
  - reflexivity.
  - destruct Hcon as (h & _ & Ht); [reflexivity|]. exists h. exact Ht.
Defined.

(** ** Disconnecting when the registry empties *)

Lemma checkAndDisconnectClient_effects config topicId st :
  checkAndDisconnectClient config topicId st =
  if registry_empty st && connected st then
    client_disconnect (onDisconnectHandler st)
      (fold_left (fun s e => emit e s) (before_disconnect_frames config st topicId)
         (set_isClientDisconnectedForced true st))
  else st.
Proof.
  unfold checkAndDisconnectClient, registry_empty, before_disconnect_frames.
  destruct ((length (reg_keys (subscriptionsRef st)) =? 0) && connected st); [|reflexivity].
  cbn zeta. cbn [beforeDisconnectCallback set_isClientDisconnectedForced].
  destruct (beforeDisconnectCallback st) as [hook|];
    [destruct (sendMessageUrl config) as [url|]; [destruct (truthy_str (Some url))|]|];
    reflexivity.
Qed.

Lemma emits_trace es st :
  trace (fold_left (fun s e => emit e s) es st) = trace st ++ es.
Proof.
  revert st. induction es as [|e es IH]; intros st; simpl.
  - rewrite app_nil_r. reflexivity.
  - rewrite IH. cbn. rewrite <- app_assoc. reflexivity.
Qed.

Lemma emits_fields es st :
  subscriptionsRef (fold_left (fun s e => emit e s) es st) = subscriptionsRef st /\
  isClientDisconnectedForced (fold_left (fun s e => emit e s) es st) =
    isClientDisconnectedForced st.
Proof.
  revert st. induction es as [|e es IH]; intros st; simpl; [tauto|].
  destruct (IH (emit e st)) as [-> ->]. split; reflexivity.
Qed.

Lemma before_disconnect_frames_quiet config st topicId :
  count is_disconnect (before_disconnect_frames config st topicId) = 0.
Proof.
  unfold before_disconnect_frames.
  destruct (beforeDisconnectCallback st) as [hook|];
    [destruct (sendMessageUrl config) as [url|]; [destruct (truthy_str (Some url))|]|];
    reflexivity.
Qed.

Lemma checkAndDisconnectClient_disconnects config topicId st :
  count is_disconnect (trace (checkAndDisconnectClient config topicId st)) =
  count is_disconnect (trace st) + (if registry_empty st && connected st then 1 else 0).
Proof.
  rewrite checkAndDisconnectClient_effects.
  destruct (registry_empty st && connected st); [|lia].
  unfold client_disconnect. cbn [trace set_active emit set_trace].
  rewrite emits_trace. cbn [trace set_isClientDisconnectedForced].
  rewrite !count_app, before_disconnect_frames_quiet. unfold count at 2. simpl. lia.
Qed.

Lemma reg_lookup_nonempty id a st :
  reg_lookup id (subscriptionsRef st) = Some a -> registry_empty st = false.
Proof.
  unfold registry_empty. destruct (subscriptionsRef st); [discriminate|reflexivity].
Qed.

Lemma reg_set_nonempty id a r : (length (reg_keys (reg_set id a r)) =? 0) = false.
Proof.
  destruct r as [|[k b] r]; simpl; [reflexivity|].
  destruct (String.eqb k id); reflexivity.
Qed.

Lemma unsubscribe_disconnects config id st :
  count is_disconnect (trace (unsubscribe config id st)) =
  count is_disconnect (trace st)
  + (if negb (registry_empty st) && registry_empty (unsubscribe config id st) && connected st
     then 1 else 0).
Proof.
  unfold unsubscribe. destruct (reg_lookup id (subscriptionsRef st)) as [a|] eqn:Hl.
  - cbn zeta. rewrite (reg_lookup_nonempty id a st Hl). cbn [negb andb].
    set (st1 := if connected st then _ else st).
    set (st2 := set_subscriptionsRef _ st1).
    assert (H1 : count is_disconnect (trace st1) = count is_disconnect (trace st)).
    { subst st1. destruct (connected st); [|reflexivity].
      apply (Subscription_unsubscribe_frame (fun s => count is_disconnect (trace s))). }
    assert (Hc : connected st2 = connected st).
    { subst st2 st1. cbn [connected set_subscriptionsRef].
      destruct (connected st) eqn:E; [|exact E].
      rewrite (Subscription_unsubscribe_frame connected). exact E. }
    rewrite checkAndDisconnectClient_disconnects.
    assert (He : registry_empty (checkAndDisconnectClient config
                   (if connected st then s_topicId <$> heap st !! a else None) st2)
                 = registry_empty st2).
    { unfold registry_empty.
      rewrite (checkAndDisconnectClient_frame subscriptionsRef). reflexivity. }
    rewrite He, Hc. change (trace st2) with (trace st1). rewrite H1. reflexivity.
  - destruct (registry_empty st); cbn [negb andb]; lia.
Qed.

Lemma subscribe_disconnects topicId options newId st :
  count is_disconnect (trace (subscribe topicId options newId st)) =
  count is_disconnect (trace st).
Proof.
  unfold subscribe, new_Subscription. cbn zeta.
  set (st2 := Subscription_subscribe _ _).
  set (st3 := set_subscriptionsRef _ st2).
  set (st4 := if negb (connected st3) then _ else _).
  assert (H4 : count is_disconnect (trace st4) = count is_disconnect (trace st)).
  { transitivity (count is_disconnect (trace st3)).
    - subst st4. destruct (negb (connected st3)); [|reflexivity].
      apply (startPolling_frame (fun s => count is_disconnect (trace s))).
    - subst st3 st2. cbn [trace set_subscriptionsRef].
      rewrite (Subscription_subscribe_frame (fun s => count is_disconnect (trace s))).
      reflexivity. }
  destruct (isFirstConnection st4); [|exact H4].
  destruct (holdPromise_fields topicId st4) as (_ & _ & _ & _ & _ & ->). exact H4.
Qed.

Lemma call_step_disconnects config l st :
  is_subscribe_or_unsubscribe l = true ->
  connected (step config l st) = connected st /\
  count is_disconnect (trace (step config l st)) =
  count is_disconnect (trace st)
  + (if negb (registry_empty st) && registry_empty (step config l st) && connected st
     then 1 else 0).
Proof.
  intros Hl. destruct l; try discriminate; cbn [step].
  - split; [apply (subscribe_frame connected)|].
    rewrite subscribe_disconnects. unfold registry_empty at 2.
    rewrite subscribe_registry, reg_set_nonempty, andb_false_r. cbn [andb]. lia.
  - split; [apply (unsubscribe_frame connected)|]. apply unsubscribe_disconnects.
Qed.

Lemma calls_disconnects config ls st :
  forallb is_subscribe_or_unsubscribe ls = true ->
  connected (run config ls st) = connected st /\
  count is_disconnect (trace (run config ls st)) =
  count is_disconnect (trace st) + (if connected st then emptyings config ls st else 0).
Proof.
  revert st. induction ls as [|l ls IH]; intros st Hls.
  - simpl. split; [reflexivity|]. destruct (connected st); lia.
  - simpl in Hls. apply andb_true_iff in Hls. destruct Hls as [Hl Hls].
    change (run config (l :: ls) st) with (run config ls (step config l st)).
    destruct (call_step_disconnects config l st Hl) as [Hc Hd].
    destruct (IH (step config l st) Hls) as [Hc' Hd'].
    split; [congruence|]. rewrite Hd', Hd, Hc. cbn [emptyings].
    destruct (connected st); [|rewrite andb_false_r; lia].
    rewrite andb_true_r. lia.
Qed.

Lemma unsubscribe_last config id a s st :
  subscriptionsRef st = [(id, a)] ->
  heap st !! a = Some s ->
  connected st = true ->
  trace (unsubscribe config id st) =
    trace st ++ unsubscribe_frames s st ++ [EvOnUnsubscribe (s_id s)]
      ++ before_disconnect_frames config st (Some (s_topicId s))
      ++ [EvDisconnect (onDisconnectHandler st)] /\
  isClientDisconnectedForced (unsubscribe config id st) = true /\
  subscriptionsRef (unsubscribe config id st) = [].
Proof.
  intros Hr Hs Hc. unfold unsubscribe. rewrite Hr. cbn [reg_lookup].
  rewrite String.eqb_refl, Hc, Hs. cbn zeta. cbn [fmap option_fmap option_map].
  destruct (Subscription_unsubscribe_effects a s st Hs) as (Ht & Hreg & _).
  set (st1 := Subscription_unsubscribe a st) in *.
  set (st2 := set_subscriptionsRef _ st1).
  assert (Hr2 : subscriptionsRef st2 = []).
  { subst st2. cbn [subscriptionsRef set_subscriptionsRef]. rewrite Hreg, Hr.
    cbn [reg_delete]. destruct (String.eqb id (s_id s)); cbn [reg_delete];
      rewrite ?String.eqb_refl; reflexivity. }
  assert (Hc2 : connected st2 = true).
  { subst st2 st1. cbn [connected set_subscriptionsRef].
    rewrite (Subscription_unsubscribe_frame connected). exact Hc. }
  assert (Hh2 : onDisconnectHandler st2 = onDisconnectHandler st).
  { subst st2 st1. change (onDisconnectHandler (set_subscriptionsRef ?v ?x))
      with (onDisconnectHandler x).
    apply (Subscription_unsubscribe_frame onDisconnectHandler). }
  assert (Hb2 : before_disconnect_frames config st2 (Some (s_topicId s)) =
                before_disconnect_frames config st (Some (s_topicId s))).
  { unfold before_disconnect_frames. subst st2 st1.
    cbn [beforeDisconnectCallback set_subscriptionsRef].
    rewrite (Subscription_unsubscribe_frame beforeDisconnectCallback). reflexivity. }
  rewrite checkAndDisconnectClient_effects. unfold registry_empty.
  rewrite Hr2, Hc2. cbn [reg_keys map length Nat.eqb andb].
  unfold client_disconnect.
  cbn [trace isClientDisconnectedForced subscriptionsRef set_active emit set_trace].
  rewrite emits_trace.
  destruct (emits_fields (before_disconnect_frames config st2 (Some (s_topicId s)))
              (set_isClientDisconnectedForced true st2)) as [-> ->].
  cbn [trace isClientDisconnectedForced subscriptionsRef set_isClientDisconnectedForced].
  rewrite Hh2, Hb2, Hr2. change (trace st2) with (trace st1). rewrite Ht.
  rewrite <- !app_assoc. repeat split; reflexivity.
Qed.

(** C3 (as amended). Over every sequence of subscribe and unsubscribe
    calls, the transport disconnect is issued once at each step at which the
    registry goes from non-empty to empty while the client is connected, and
    at no other step; while the client is not connected no disconnect is
    issued, however the registry changes.  When [unsubscribe] removes the
    last entry of a connected client and a before-disconnect hook is
    registered and a send target configured, the hook is called with the
    topic of that last entry, its result is sent, and only then is the
    disconnect issued; the forced-disconnect flag is set and the registry is
    empty. *)
Theorem C3_disconnect_when_registry_empties (config : Config) (st : State) :
  (forall ls,
     forallb is_subscribe_or_unsubscribe ls = true ->
     count is_disconnect (trace (run config ls st)) =
     count is_disconnect (trace st)
     + (if connected st then emptyings config ls st else 0)) /\
  (forall l,
     is_subscribe_or_unsubscribe l = true ->
     registry_empty (step config l st) = false ->
     count is_disconnect (trace (step config l st)) = count is_disconnect (trace st)) /\
  (forall id a s hook url,
     subscriptionsRef st = [(id, a)] ->
     heap st !! a = Some s ->
     connected st = true ->
     beforeDisconnectCallback st = Some hook ->
     sendMessageUrl config = Some url ->
     truthy_str (Some url) = true ->
     trace (unsubscribe config id st) =
       trace st ++ unsubscribe_frames s st
         ++ [EvOnUnsubscribe (s_id s);
             EvBeforeDisconnect (Some (s_topicId s));
             EvSend url (hook (Some (s_topicId s)));
             EvDisconnect (onDisconnectHandler st)] /\
     isClientDisconnectedForced (unsubscribe config id st) = true /\
     subscriptionsRef (unsubscribe config id st) = []).
Proof.
  split; [|split].
  - intros ls Hls. apply (calls_disconnects config ls st Hls).
  - intros l Hl He. destruct (call_step_disconnects config l st Hl) as [_ Hd].
    rewrite Hd, He, andb_false_r. cbn [andb]. lia.
  - intros id a s hook url Hr Hs Hc Hh Hu Ht.
    destruct (unsubscribe_last config id a s st Hr Hs Hc) as (Htr & Hf & He).
    split; [|split; assumption].
    rewrite Htr. unfold before_disconnect_frames. rewrite Hh, Hu, Ht. reflexivity.
Qed.

Lemma C3_witness :
  count is_disconnect
    (trace (run defaultConfig
              [LSubscribe "b"%string no_options "s2"%string;
               LSubscribe "c"%string no_options "s3"%string;
               LUnsubscribe "s1"%string; LUnsubscribe "s2"%string;
               LUnsubscribe "s3"%string] one_connected)) = 0 + 1 /\
  trace (unsubscribe hookConfig "s1"%string one_hooked) =
    trace one_hooked
      ++ [EvTransportUnsubscribe 0; EvOnUnsubscribe "s1"%string;
          EvBeforeDisconnect (Some "orders"%string);
          EvSend "/app/bye"%string "orders"%string; EvDisconnect noOp].
Proof.
  destruct (C3_disconnect_when_registry_empties defaultConfig one_connected)
    as (Hcount & _ & _).
  destruct (C3_disconnect_when_registry_empties hookConfig one_hooked)
    as (_ & _ & Hlast).
  split.
  - apply (Hcount [LSubscribe "b"%string no_options "s2"%string;
                   LSubscribe "c"%string no_options "s3"%string;
                   LUnsubscribe "s1"%string; LUnsubscribe "s2"%string;
                   LUnsubscribe "s3"%string]).
    reflexivity.
  - destruct (Hlast "s1"%string 0
                (mkSubscription "s1"%string true "orders"%string (Some 0) (Some 0)
                   3000 20000)
                report_topic "/app/bye"%string
                eq_refl eq_refl eq_refl eq_refl eq_refl eq_refl) as (Ht & _).
    exact Ht.
Defined.

(** C3, the claim as stated fails: a subscription made and removed before
    the first connection succeeds empties the registry while the client is
    not connected; no disconnect is issued, and when the pending connection
    then succeeds the client is connected with an empty registry, still
    without a disconnect. *)
Lemma C3_emptied_registry_without_disconnect :
  let calls := [LSubscribe "orders"%string no_options "s1"%string;
                LUnsubscribe "s1"%string] in
  let st := run defaultConfig calls (mount 0) in
  emptyings defaultConfig calls (mount 0) = 1 /\
  subscriptionsRef st = [] /\
  active st = true /\
  count is_disconnect (trace st) = 0 /\
  connected (step defaultConfig LConnected st) = true /\
  subscriptionsRef (step defaultConfig LConnected st) = [] /\
  count is_disconnect (trace (step defaultConfig LConnected st)) = 0.
Proof. vm_compute. repeat split; reflexivity. Qed.

(** * Further properties of the code *)

(** ** The configured retry policy *)

(** X1. The maximum number of reconnection tries and the reconnect delay
    are never 0: an absent, 0 or NaN setting gives the default (3 tries,
    5000 ms), any other number is taken as it is.  A configured 0 therefore
    cannot switch retries off. *)
Theorem X1_retry_policy_never_zero (config : Config) :
  clientMaxReconnectionTries config <> 0%Z /\
  reconnectDelay config <> 0%Z /\
  (truthy_num (reconnectionTries config) = false ->
   clientMaxReconnectionTries config = 3%Z) /\
  (truthy_num (reconnectionDelay config) = false -> reconnectDelay config = 5000%Z) /\
  (forall z, reconnectionTries config = Some (JNum z) -> z <> 0%Z ->
     clientMaxReconnectionTries config = z) /\
  (forall z, reconnectionDelay config = Some (JNum z) -> z <> 0%Z ->
     reconnectDelay config = z).
Proof.
  unfold clientMaxReconnectionTries, reconnectDelay, DEFAULT_RECONNECTION_TRIES,
    DEFAULT_RECONNECTION_DELAY.
  repeat split.
  - destruct (reconnectionTries config) as [[z|]|]; simpl; try lia.
    destruct (Z.eqb_spec z 0); lia.
  - destruct (reconnectionDelay config) as [[z|]|]; simpl; try lia.
    destruct (Z.eqb_spec z 0); lia.
  - destruct (reconnectionTries config) as [[z|]|]; simpl; try reflexivity.
    destruct (z =? 0)%Z; [reflexivity|discriminate].
  - destruct (reconnectionDelay config) as [[z|]|]; simpl; try reflexivity.
    destruct (z =? 0)%Z; [reflexivity|discriminate].
  - intros z -> Hz. simpl. destruct (Z.eqb_spec z 0); [contradiction|reflexivity].
  - intros z -> Hz. simpl. destruct (Z.eqb_spec z 0); [contradiction|reflexivity].
Qed.

Lemma X1_witness :
  clientMaxReconnectionTries (mkConfig None (Some (JNum 0)) None) = 3%Z /\
  clientMaxReconnectionTries (mkConfig None (Some (JNum 7)) None) = 7%Z.
Proof.
  destruct (X1_retry_policy_never_zero (mkConfig None (Some (JNum 0)) None))
    as (_ & _ & Hdefault & _).
  destruct (X1_retry_policy_never_zero (mkConfig None (Some (JNum 7)) None))
    as (_ & _ & _ & _ & Hkept & _).
  split.
  - apply Hdefault. reflexivity.
  - apply (Hkept 7%Z); [reflexivity|lia].
Defined.

(** ** What [subscribe] does *)

#[export] Instance Framed_active : Framed active.
Proof. split; intros; reflexivity. Qed.
#[export] Instance FramedReg_active : FramedReg active.
Proof. intros v st. reflexivity. Qed.
#[export] Instance FramedHeap_active : FramedHeap active.
Proof. intros v st. reflexivity. Qed.
#[export] Instance FramedCalls_broken : FramedCalls isClientConnectionBroken.
Proof. split; intros; reflexivity. Qed.
#[export] Instance Framed_connects : Framed (fun st => count is_connect (trace st)).
Proof.
  split; intros; try reflexivity.
  unfold emit; simpl; apply count_low; destruct e; simpl in *; congruence.
Qed.
#[export] Instance FramedReg_connects : FramedReg (fun st => count is_connect (trace st)).
Proof. intros v st. reflexivity. Qed.
#[export] Instance FramedHeap_connects : FramedHeap (fun st => count is_connect (trace st)).
Proof. intros v st. reflexivity. Qed.

Lemma subscribe_trace topicId options newId st :
  trace (subscribe topicId options newId st) =
  trace st ++ subscribe_frames topicId options st.
Proof.
  unfold subscribe, new_Subscription, subscribe_frames, holdPromise, createClient,
    client_connect.
  cbn zeta.
  set (s0 := Subscription_fields (connected st) topicId options newId).
  assert (H0 : (heap st ++ [s0]) !! length (heap st) = Some s0)
    by (apply list_lookup_middle; reflexivity).
  unfold Subscription_subscribe. cbn [heap connected set_heap]. rewrite H0.
  cbn [s_client s0 Subscription_fields].
  destruct (connected st) eqn:Hc; cbn [andb negb].
  - cbn zeta. unfold fallbackPolling.
    cbn [heap set_heap emit set_trace set_nextHandle nextHandle].
    rewrite list_lookup_insert_eq by (rewrite length_app; simpl; lia).
    clear H0. subst s0.
    destruct (opt_pollingCallback options) as [cb|] eqn:Hcb;
      cbn; rewrite ?Hcb; cbn; rewrite ?Hc; cbn;
      destruct (isFirstConnection st); cbn;
      destruct (active st); cbn; rewrite <- ?app_assoc, ?app_nil_r; reflexivity.
  - cbn [connected set_subscriptionsRef set_heap]. rewrite Hc. cbn [negb].
    unfold startPolling. cbn [heap set_subscriptionsRef set_heap]. rewrite H0.
    clear H0. subst s0.
    destruct (opt_pollingCallback options) as [cb|] eqn:Hcb;
      cbn; rewrite ?Hcb; cbn;
      destruct (isFirstConnection st); cbn;
      destruct (active st); cbn; rewrite <- ?app_assoc, ?app_nil_r; reflexivity.
Qed.

(** X2. [subscribe(topicId, options)] registers a new object under the new
    id, whatever the state.  Called while the client is connected it issues
    one transport subscribe for [/topic/topicId] and starts only the
    fallback loop; called while it is not, it issues no transport subscribe
    and starts only the primary loop; either loop is started only when a
    [pollingCallback] was given.  It calls [client.connect] exactly when the
    first-connection phase is on and the client is not active yet. *)
Theorem X2_subscribe_effects
    (topicId : string) (options : ISubscribeOptions) (newId : string) (st : State) :
  trace (subscribe topicId options newId st) =
    trace st ++ subscribe_frames topicId options st /\
  reg_lookup newId (subscriptionsRef (subscribe topicId options newId st)) =
    Some (length (heap st)) /\
  exists s,
    heap (subscribe topicId options newId st) !! length (heap st) = Some s /\
    s_id s = newId /\ s_topicId s = topicId /\ s_client s = connected st /\
    s_pollingCallback s = opt_pollingCallback options.
Proof.
  split; [apply subscribe_trace|]. split.
  - rewrite subscribe_registry. apply reg_set_lookup_eq.
  - destruct (new_Subscription_object (connected st) topicId options newId st)
      as (s & Hs & Hid & Ht & Hc & Hp & _).
    exists s. rewrite subscribe_heap. repeat split; assumption.
Qed.

(** ** The life cycle of the connection *)

Lemma checkAndDisconnectClient_disconnected config topicId st :
  connected st = false -> checkAndDisconnectClient config topicId st = st.
Proof.
  intros Hc. unfold checkAndDisconnectClient. rewrite Hc, andb_false_r. reflexivity.
Qed.

Lemma unsubscribe_disconnected config id st :
  connected st = false ->
  unsubscribe config id st =
  match reg_lookup id (subscriptionsRef st) with
  | Some _ => set_subscriptionsRef (reg_delete id (subscriptionsRef st)) st
  | None => st
  end.
Proof.
  intros Hc. unfold unsubscribe.
  destruct (reg_lookup id (subscriptionsRef st)); [|reflexivity].
  cbn zeta. rewrite Hc. apply checkAndDisconnectClient_disconnected. exact Hc.
Qed.

Lemma transport_closed_cases config st :
  transport_closed config st =
  if isFirstConnection st then
    if (clientReconnectionTries st <? clientMaxReconnectionTries config)%Z then
      set_clientReconnectionTries (clientReconnectionTries st + 1)%Z (set_connected false st)
    else
      set_isFirstConnection false
        (resolveAllPromises (set_client_reconnectDelay 0 (set_connected false st)))
  else if isClientDisconnectedForced st then
    set_isClientDisconnectedForced false (set_connected false st)
  else if (clientReconnectionTries st <? clientMaxReconnectionTries config)%Z then
    set_clientReconnectionTries (clientReconnectionTries st + 1)%Z
      (startAllPollings (set_isClientConnectionBroken true (set_connected false st)))
  else
    emit (EvCall (onDisconnectHandler st))
      (set_subscriptionsRef []
         (set_client_reconnectDelay 0
            (set_isClientConnectionBroken true (set_connected false st)))).
Proof.
  destruct (isFirstConnection st) eqn:Hf.
  - destruct (clientReconnectionTries st <? clientMaxReconnectionTries config)%Z eqn:Hlt.
    + apply first_close_below; [exact Hf|]. apply Z.ltb_lt. exact Hlt.
    + apply first_close_at_max; [exact Hf|]. apply Z.ltb_ge. exact Hlt.
  - destruct (isClientDisconnectedForced st) eqn:Hd.
    + unfold transport_closed, connectCloseCallback.
      cbn [isFirstConnection isClientDisconnectedForced set_connected].
      rewrite Hf, Hd. reflexivity.
    + destruct (clientReconnectionTries st <? clientMaxReconnectionTries config)%Z eqn:Hlt.
      * apply later_close_below; [exact Hf|exact Hd|]. apply Z.ltb_lt. exact Hlt.
      * apply later_close_exhausted; [exact Hf|exact Hd|]. apply Z.ltb_ge. exact Hlt.
Qed.

Section SubscribeFrame.

Context {A : Type} (obs : State -> A) `{!Framed obs} `{!FramedReg obs} `{!FramedHeap obs}.

Lemma subscribe_before_waiting topicId options newId st :
  exists st4,
    subscribe topicId options newId st =
      (if isFirstConnection st then holdPromise topicId st4 else st4) /\
    obs st4 = obs st.
Proof.
  unfold subscribe, new_Subscription. cbn zeta.
  set (st2 := Subscription_subscribe _ _).
  set (st3 := set_subscriptionsRef _ st2).
  set (st4 := if negb (connected st3) then _ else _).
  assert (H4 : forall B (f : State -> B),
             Framed f -> FramedReg f -> FramedHeap f -> f st4 = f st).
  { intros B f Hf1 Hf2 Hf3. transitivity (f st3).
    - subst st4. destruct (negb (connected st3)); [|reflexivity].
      apply startPolling_frame; assumption.
    - subst st3 st2. rewrite framed_reg, Subscription_subscribe_frame by assumption.
      apply framed_heap. }
  exists st4. split.
  - rewrite (H4 _ isFirstConnection) by typeclasses eauto. reflexivity.
  - apply H4; assumption.
Qed.

End SubscribeFrame.

Lemma subscribe_first topicId options newId st :
  isFirstConnection (subscribe topicId options newId st) = isFirstConnection st.
Proof. apply (subscribe_frame isFirstConnection). Qed.

Lemma subscribe_connected topicId options newId st :
  connected (subscribe topicId options newId st) = connected st.
Proof. apply (subscribe_frame connected). Qed.

Lemma subscribe_broken topicId options newId st :
  isClientConnectionBroken (subscribe topicId options newId st) =
  isClientConnectionBroken st.
Proof. apply (subscribe_frame isClientConnectionBroken). Qed.

Lemma subscribe_forced topicId options newId st :
  isClientDisconnectedForced (subscribe topicId options newId st) =
  isClientDisconnectedForced st.
Proof.
  destruct (subscribe_before_waiting isClientDisconnectedForced topicId options newId st)
    as (st4 & -> & H4).
  destruct (isFirstConnection st); [|exact H4].
  unfold holdPromise, createClient, client_connect. cbn [active set_promiseArr].
  destruct (negb (active st4)); exact H4.
Qed.

Lemma subscribe_promiseArr topicId options newId st :
  promiseArr (subscribe topicId options newId st) =
  if isFirstConnection st then promiseArr st ++ [false] else promiseArr st.
Proof.
  destruct (subscribe_before_waiting promiseArr topicId options newId st)
    as (st4 & -> & H4).
  destruct (isFirstConnection st); [|exact H4].
  unfold holdPromise, createClient, client_connect. cbn [active set_promiseArr].
  destruct (negb (active st4)); cbn; rewrite H4; reflexivity.
Qed.

Lemma subscribe_active topicId options newId st :
  active (subscribe topicId options newId st) =
  if isFirstConnection st then true else active st.
Proof.
  destruct (subscribe_before_waiting active topicId options newId st)
    as (st4 & -> & H4).
  destruct (isFirstConnection st); [|exact H4].
  unfold holdPromise, createClient, client_connect. cbn [active set_promiseArr].
  destruct (active st4) eqn:Ha; cbn; [exact Ha|reflexivity].
Qed.

Lemma subscribe_connects topicId options newId st :
  count is_connect (trace (subscribe topicId options newId st)) =
  count is_connect (trace st)
  + (if isFirstConnection st && negb (active st) then 1 else 0).
Proof.
  rewrite subscribe_trace, count_app. f_equal. unfold subscribe_frames.
  rewrite count_app.
  replace (count is_connect (if connected st then _ else _)) with 0.
  - destruct (isFirstConnection st && negb (active st)); reflexivity.
  - destruct (connected st), (opt_pollingCallback options); reflexivity.
Qed.

Section TeardownFrame.

Context {A : Type} (obs : State -> A) `{!Framed obs} `{!FramedReg obs}.
Variable config : Config.
Hypothesis obs_check :
  forall topicId st, obs (checkAndDisconnectClient config topicId st) = obs st.

Lemma unsubscribe_frame_check id st : obs (unsubscribe config id st) = obs st.
Proof.
  unfold unsubscribe. destruct (reg_lookup id (subscriptionsRef st)); [|reflexivity].
  cbn zeta. rewrite obs_check, framed_reg.
  destruct (connected st); [apply Subscription_unsubscribe_frame; assumption|reflexivity].
Qed.

Lemma unsubscribeAll_frame_check st : obs (unsubscribeAll config st) = obs st.
Proof.
  unfold unsubscribeAll. cbn zeta. rewrite obs_check.
  apply unsubscribe_loop_frame; assumption.
Qed.

End TeardownFrame.

Lemma emits_promiseArr es st :
  promiseArr (fold_left (fun s e => emit e s) es st) = promiseArr st.
Proof.
  revert st. induction es as [|e es IH]; intros st; simpl; [reflexivity|].
  rewrite IH. reflexivity.
Qed.

Lemma checkAndDisconnectClient_promiseArr config topicId st :
  promiseArr (checkAndDisconnectClient config topicId st) = promiseArr st.
Proof.
  rewrite checkAndDisconnectClient_effects.
  destruct (registry_empty st && connected st); [|reflexivity].
  unfold client_disconnect. cbn [promiseArr set_active emit set_trace].
  rewrite emits_promiseArr. reflexivity.
Qed.

Lemma before_disconnect_frames_no_connect config st topicId :
  count is_connect (before_disconnect_frames config st topicId) = 0.
Proof.
  unfold before_disconnect_frames.
  destruct (beforeDisconnectCallback st) as [hook|];
    [destruct (sendMessageUrl config) as [url|]; [destruct (truthy_str (Some url))|]|];
    reflexivity.
Qed.

Lemma checkAndDisconnectClient_connects config topicId st :
  count is_connect (trace (checkAndDisconnectClient config topicId st)) =
  count is_connect (trace st).
Proof.
  rewrite checkAndDisconnectClient_effects.
  destruct (registry_empty st && connected st); [|reflexivity].
  unfold client_disconnect. cbn [trace set_active emit set_trace].
  rewrite emits_trace. cbn [trace set_isClientDisconnectedForced].
  rewrite !count_app, before_disconnect_frames_no_connect. unfold count at 2. simpl. lia.
Qed.

Lemma promiseArr_after_success config st :
  promiseArr (connectSuccessCallback config st) =
  if isClientConnectionBroken st then promiseArr st
  else map (fun _ => true) (promiseArr st).
Proof.
  unfold connectSuccessCallback. cbn zeta.
  cbn [promiseArr set_isFirstConnection set_client_reconnectDelay
         set_clientReconnectionTries set_isPollingActive].
  destruct (isClientConnectionBroken st).
  - apply (resubscribe_loop_frame promiseArr).
  - rewrite (setClientAndSubscribeAll_frame promiseArr). reflexivity.
Qed.

Lemma connects_after_success config st :
  count is_connect (trace (connectSuccessCallback config st)) =
  count is_connect (trace st).
Proof.
  unfold connectSuccessCallback. cbn zeta.
  cbn [trace set_isFirstConnection set_client_reconnectDelay
         set_clientReconnectionTries set_isPollingActive].
  destruct (isClientConnectionBroken st).
  - apply (resubscribe_loop_frame (fun s => count is_connect (trace s))).
  - rewrite (setClientAndSubscribeAll_frame (fun s => count is_connect (trace s))).
    reflexivity.
Qed.

Lemma lifecycle_later st :
  isFirstConnection st = false ->
  drained st = true ->
  count is_connect (trace st) <= 1 ->
  lifecycle st.
Proof.
  intros Hf Hd Hc. repeat split; try congruence; try assumption.
Qed.

Lemma lifecycle_same st st' :
  connected st' = connected st ->
  isFirstConnection st' = isFirstConnection st ->
  isClientConnectionBroken st' = isClientConnectionBroken st ->
  isClientDisconnectedForced st' = isClientDisconnectedForced st ->
  promiseArr st' = promiseArr st ->
  active st' = active st ->
  count is_connect (trace st') = count is_connect (trace st) ->
  lifecycle st -> lifecycle st'.
Proof.
  unfold lifecycle, first_phase_clean, waiters_released, connected_at_most_once, drained.
  intros -> -> -> -> -> -> ->. tauto.
Qed.

Lemma lifecycle_mount delay0 : lifecycle (mount delay0).
Proof.
  unfold lifecycle, first_phase_clean, waiters_released, connected_at_most_once.
  cbn. repeat split; try discriminate; try reflexivity. unfold count. simpl. lia.
Qed.

Lemma lifecycle_subscribe topicId options newId st :
  lifecycle st -> lifecycle (subscribe topicId options newId st).
Proof.
  intros (HP & HW & HC1 & HC2).
  destruct (isFirstConnection st) eqn:Hf.
  - unfold lifecycle, first_phase_clean, waiters_released, connected_at_most_once.
    rewrite subscribe_first, subscribe_connected, subscribe_broken, subscribe_forced,
      subscribe_active, subscribe_connects, Hf. cbn [andb].
    specialize (HC2 eq_refl). destruct HP as [HP1 HP2].
    destruct (HP2 Hf) as [Hb Hd].
    split; [split; [|intros _; split; assumption]|split; [|split]].
    + intros Hc. rewrite <- Hf. apply HP1. exact Hc.
    + discriminate.
    + destruct (active st); cbn; lia.
    + intros _. destruct (active st); cbn; lia.
  - apply lifecycle_later.
    + rewrite subscribe_first. exact Hf.
    + unfold drained. rewrite subscribe_promiseArr, Hf. apply HW. exact Hf.
    + rewrite subscribe_connects, Hf. cbn [andb]. lia.
Qed.

Lemma lifecycle_unsubscribe config id st :
  lifecycle st -> lifecycle (unsubscribe config id st).
Proof.
  intros H. pose proof H as (HP & HW & HC1 & HC2).
  destruct (isFirstConnection st) eqn:Hf.
  - assert (Hc : connected st = false).
    { destruct HP as [HP1 _]. destruct (connected st); [|reflexivity].
      specialize (HP1 eq_refl). congruence. }
    rewrite unsubscribe_disconnected by exact Hc.
    destruct (reg_lookup id (subscriptionsRef st)); [|exact H].
    apply (lifecycle_same st); try reflexivity. exact H.
  - apply lifecycle_later.
    + rewrite (unsubscribe_frame isFirstConnection). exact Hf.
    + unfold drained.
      rewrite (unsubscribe_frame_check promiseArr config
                 (checkAndDisconnectClient_promiseArr config)).
      apply HW. exact Hf.
    + rewrite (unsubscribe_frame_check (fun s => count is_connect (trace s)) config
                 (checkAndDisconnectClient_connects config)).
      exact HC1.
Qed.

Lemma lifecycle_unsubscribeAll config st :
  lifecycle st -> lifecycle (unsubscribeAll config st).
Proof.
  intros H. pose proof H as (HP & HW & HC1 & HC2).
  destruct (isFirstConnection st) eqn:Hf.
  - assert (Hc : connected st = false).
    { destruct HP as [HP1 _]. destruct (connected st); [|reflexivity].
      specialize (HP1 eq_refl). congruence. }
    rewrite unsubscribeAll_disconnected by exact Hc.
    apply (lifecycle_same st); try reflexivity. exact H.
  - apply lifecycle_later.
    + rewrite (unsubscribeAll_frame isFirstConnection). exact Hf.
    + unfold drained.
      rewrite (unsubscribeAll_frame_check promiseArr config
                 (checkAndDisconnectClient_promiseArr config)).
      apply HW. exact Hf.
    + rewrite (unsubscribeAll_frame_check (fun s => count is_connect (trace s)) config
                 (checkAndDisconnectClient_connects config)).
      exact HC1.
Qed.

Lemma drained_map_true (l : list bool) : forallb (fun b => b) (map (fun _ => true) l) = true.
Proof. induction l as [|b l IH]; [reflexivity|exact IH]. Qed.

Lemma lifecycle_connected config st :
  lifecycle st -> lifecycle (transport_connected config st).
Proof.
  intros (HP & HW & HC1 & HC2). unfold transport_connected.
  destruct (connectSuccessCallback_fields config (set_connected true st))
    as (_ & Hf & _).
  apply lifecycle_later.
  - exact Hf.
  - unfold drained. rewrite promiseArr_after_success.
    cbn [isClientConnectionBroken promiseArr set_connected].
    destruct (isClientConnectionBroken st) eqn:Hb; [|apply drained_map_true].
    apply HW. destruct (isFirstConnection st) eqn:Hfirst; [|reflexivity].
    destruct HP as [_ HP2]. destruct (HP2 Hfirst). congruence.
  - rewrite connects_after_success. exact HC1.
Qed.

Lemma lifecycle_closed config st :
  lifecycle st -> lifecycle (transport_closed config st).
Proof.
  intros H. pose proof H as (HP & HW & HC1 & HC2).
  rewrite transport_closed_cases.
  destruct (isFirstConnection st) eqn:Hf.
  - destruct (clientReconnectionTries st <? clientMaxReconnectionTries config)%Z.
    + assert (Hc : connected st = false).
      { destruct HP as [HP1 _]. destruct (connected st); [|reflexivity].
        specialize (HP1 eq_refl). congruence. }
      apply (lifecycle_same st); try reflexivity; [|exact H].
      cbn. symmetry. exact Hc.
    + apply lifecycle_later; [reflexivity| |exact HC1].
      apply drained_resolveAllPromises.
  - specialize (HW Hf).
    destruct (isClientDisconnectedForced st).
    + apply lifecycle_later; [exact Hf|exact HW|exact HC1].
    + destruct (clientReconnectionTries st <? clientMaxReconnectionTries config)%Z.
      * apply lifecycle_later.
        -- cbn [isFirstConnection set_clientReconnectionTries].
           rewrite (startAllPollings_frame isFirstConnection) by reflexivity. exact Hf.
        -- unfold drained. cbn [promiseArr set_clientReconnectionTries].
           rewrite (startAllPollings_frame promiseArr) by reflexivity. exact HW.
        -- cbn [trace set_clientReconnectionTries].
           rewrite (startAllPollings_frame (fun s => count is_connect (trace s)));
             [exact HC1|reflexivity|].
           intros s. unfold emit. cbn. apply count_low. reflexivity.
      * apply lifecycle_later; [exact Hf|exact HW|].
        unfold emit.
        cbn [trace set_trace set_subscriptionsRef set_client_reconnectDelay
               set_isClientConnectionBroken set_connected].
        rewrite count_low by reflexivity. exact HC1.
Qed.

Lemma lifecycle_step config l st : lifecycle st -> lifecycle (step config l st).
Proof.
  intros H. destruct l; cbn [step].
  - apply lifecycle_subscribe. exact H.
  - apply lifecycle_unsubscribe. exact H.
  - apply lifecycle_unsubscribeAll. exact H.
  - apply (lifecycle_same st); try reflexivity. exact H.
  - apply (lifecycle_same st); try reflexivity. exact H.
  - apply (lifecycle_same st); try reflexivity. exact H.
  - apply lifecycle_connected. exact H.
  - destruct H as (HP & HW & HC1 & HC2).
    apply lifecycle_later; [reflexivity|apply drained_resolveAllPromises|exact HC1].
  - apply lifecycle_closed. exact H.
  - apply (lifecycle_same st); [apply (timer_fires_frame connected)
      |apply (timer_fires_frame isFirstConnection)
      |apply (timer_fires_frame isClientConnectionBroken)
      |apply (timer_fires_frame isClientDisconnectedForced)
      |apply (timer_fires_frame promiseArr)
      |apply (timer_fires_frame active)
      |apply (timer_fires_frame (fun s => count is_connect (trace s)))
      |exact H].
  - apply (lifecycle_same st); [apply (poll_settles_frame connected)
      |apply (poll_settles_frame isFirstConnection)
      |apply (poll_settles_frame isClientConnectionBroken)
      |apply (poll_settles_frame isClientDisconnectedForced)
      |apply (poll_settles_frame promiseArr)
      |apply (poll_settles_frame active)
      |apply (poll_settles_frame (fun s => count is_connect (trace s)))
      |exact H].
Qed.

Lemma lifecycle_reachable config st : reachable config st -> lifecycle st.
Proof.
  intros Hr. induction Hr as [delay0|l st Hr IH].
  - apply lifecycle_mount.
  - apply lifecycle_step. exact IH.
Qed.

Lemma first_connection_over_step config l st :
  isFirstConnection st = false -> isFirstConnection (step config l st) = false.
Proof.
  intros Hf. destruct l; cbn [step]; try exact Hf.
  - rewrite subscribe_first. exact Hf.
  - rewrite (unsubscribe_frame isFirstConnection). exact Hf.
  - rewrite (unsubscribeAll_frame isFirstConnection). exact Hf.
  - unfold transport_connected.
    destruct (connectSuccessCallback_fields config (set_connected true st)) as (_ & H & _).
    exact H.
  - reflexivity.
  - rewrite transport_closed_cases, Hf.
    destruct (isClientDisconnectedForced st); [exact Hf|].
    destruct (clientReconnectionTries st <? clientMaxReconnectionTries config)%Z;
      [|exact Hf].
    cbn [isFirstConnection set_clientReconnectionTries].
    rewrite (startAllPollings_frame isFirstConnection) by reflexivity. exact Hf.
  - rewrite (timer_fires_frame isFirstConnection). exact Hf.
  - rewrite (poll_settles_frame isFirstConnection). exact Hf.
Qed.

Lemma first_connection_over_run config ls st :
  isFirstConnection st = false -> isFirstConnection (run config ls st) = false.
Proof.
  revert st. induction ls as [|l ls IH]; intros st Hf; [exact Hf|].
  apply IH. apply first_connection_over_step. exact Hf.
Qed.

Lemma connects_closed config st :
  count is_connect (trace (transport_closed config st)) = count is_connect (trace st).
Proof.
  rewrite transport_closed_cases.
  destruct (isFirstConnection st);
    [destruct (clientReconnectionTries st <? clientMaxReconnectionTries config)%Z;
     reflexivity|].
  destruct (isClientDisconnectedForced st); [reflexivity|].
  destruct (clientReconnectionTries st <? clientMaxReconnectionTries config)%Z.
  - cbn [trace set_clientReconnectionTries].
    rewrite (startAllPollings_frame (fun s => count is_connect (trace s)));
      [reflexivity|reflexivity|].
    intros s. unfold emit. cbn. apply count_low. reflexivity.
  - unfold emit.
    cbn [trace set_trace set_subscriptionsRef set_client_reconnectDelay
           set_isClientConnectionBroken set_connected].
    apply count_low. reflexivity.
Qed.

Lemma connects_step config l st :
  isFirstConnection st = false ->
  count is_connect (trace (step config l st)) = count is_connect (trace st).
Proof.
  intros Hf. destruct l; cbn [step]; try reflexivity.
  - rewrite subscribe_connects, Hf. cbn [andb]. lia.
  - apply (unsubscribe_frame_check (fun s => count is_connect (trace s)) config
             (checkAndDisconnectClient_connects config)).
  - apply (unsubscribeAll_frame_check (fun s => count is_connect (trace s)) config
             (checkAndDisconnectClient_connects config)).
  - unfold transport_connected. rewrite connects_after_success. reflexivity.
  - apply connects_closed.
  - apply (timer_fires_frame (fun s => count is_connect (trace s))).
  - apply (poll_settles_frame (fun s => count is_connect (trace s))).
Qed.

Lemma connects_run config ls st :
  isFirstConnection st = false ->
  count is_connect (trace (run config ls st)) = count is_connect (trace st).
Proof.
  revert st. induction ls as [|l ls IH]; intros st Hf; [reflexivity|].
  change (run config (l :: ls) st) with (run config ls (step config l st)).
  rewrite IH by (apply first_connection_over_step; exact Hf).
  apply connects_step. exact Hf.
Qed.

(** X3. In every reachable state, while the first-connection phase lasts
    ([isFirstConnection]) the client is not connected and neither the
    connection-broken flag nor the forced-disconnect flag is set; and once
    the phase is over, no sequence of events brings it back. *)
Theorem X3_first_connection_phase (config : Config) (st : State) :
  reachable config st ->
  (isFirstConnection st = true ->
   connected st = false /\
   isClientConnectionBroken st = false /\
   isClientDisconnectedForced st = false) /\
  (isFirstConnection st = false ->
   forall ls, isFirstConnection (run config ls st) = false).
Proof.
  intros Hr. destruct (lifecycle_reachable config st Hr) as ((HP1 & HP2) & _).
  split.
  - intros Hf. destruct (HP2 Hf) as [Hb Hd]. repeat split; try assumption.
    destruct (connected st); [|reflexivity]. specialize (HP1 eq_refl). congruence.
  - intros Hf ls. apply first_connection_over_run. exact Hf.
Qed.

Lemma X3_witness :
  connected one_waiting = false /\
  isFirstConnection (run defaultConfig [LUnsubscribe "s1"%string; LClosed] one_connected)
    = false.
Proof.
  destruct (X3_first_connection_phase defaultConfig one_waiting) as [Hphase _];
    [apply reachable_run, reachable_mount|].
  destruct (X3_first_connection_phase defaultConfig one_connected) as [_ Hover];
    [apply reachable_run, reachable_mount|].
  split.
  - apply Hphase. reflexivity.
  - apply Hover. reflexivity.
Defined.

Lemma first_phase_clean_later st : isFirstConnection st = false -> first_phase_clean st.
Proof. intros Hf. split; [intros _; exact Hf|congruence]. Qed.

Lemma first_phase_clean_same st st' :
  connected st' = connected st ->
  isFirstConnection st' = isFirstConnection st ->
  isClientConnectionBroken st' = isClientConnectionBroken st ->
  isClientDisconnectedForced st' = isClientDisconnectedForced st ->
  first_phase_clean st -> first_phase_clean st'.
Proof. unfold first_phase_clean. intros -> -> -> ->. tauto. Qed.

Lemma first_phase_not_connected st :
  first_phase_clean st -> isFirstConnection st = true -> connected st = false.
Proof.
  intros [H _] Hf. destruct (connected st); [|reflexivity].
  specialize (H eq_refl). congruence.
Qed.

Lemma first_phase_clean_step config l st :
  first_phase_clean st -> first_phase_clean (step config l st).
Proof.
  intros H. destruct (isFirstConnection st) eqn:Hf.
  2: { apply first_phase_clean_later, first_connection_over_step. exact Hf. }
  pose proof (first_phase_not_connected st H Hf) as Hc.
  destruct l; cbn [step].
  - apply (first_phase_clean_same st);
      [apply subscribe_connected|apply subscribe_first|apply subscribe_broken
      |apply subscribe_forced|exact H].
  - rewrite unsubscribe_disconnected by exact Hc.
    destruct (reg_lookup id (subscriptionsRef st)); [|exact H].
    apply (first_phase_clean_same st); try reflexivity. exact H.
  - rewrite unsubscribeAll_disconnected by exact Hc.
    apply (first_phase_clean_same st); try reflexivity. exact H.
  - apply (first_phase_clean_same st); try reflexivity. exact H.
  - apply (first_phase_clean_same st); try reflexivity. exact H.
  - apply (first_phase_clean_same st); try reflexivity. exact H.
  - apply first_phase_clean_later. unfold transport_connected.
    destruct (connectSuccessCallback_fields config (set_connected true st)) as (_ & E & _).
    exact E.
  - apply first_phase_clean_later. reflexivity.
  - rewrite transport_closed_cases, Hf.
    destruct (clientReconnectionTries st <? clientMaxReconnectionTries config)%Z.
    + apply (first_phase_clean_same st); try reflexivity; [|exact H].
      cbn. symmetry. exact Hc.
    + apply first_phase_clean_later. reflexivity.
  - apply (first_phase_clean_same st);
      [apply (timer_fires_frame connected)|apply (timer_fires_frame isFirstConnection)
      |apply (timer_fires_frame isClientConnectionBroken)
      |apply (timer_fires_frame isClientDisconnectedForced)|exact H].
  - apply (first_phase_clean_same st);
      [apply (poll_settles_frame connected)|apply (poll_settles_frame isFirstConnection)
      |apply (poll_settles_frame isClientConnectionBroken)
      |apply (poll_settles_frame isClientDisconnectedForced)|exact H].
Qed.

Lemma lookup_map_true (l : list bool) (i : nat) :
  i < length l -> map (fun _ => true) l !! i = Some true.
Proof.
  revert i. induction l as [|b l IH]; intros [|i] Hi; simpl in Hi; try lia.
  - reflexivity.
  - apply IH. lia.
Qed.

Lemma waiters_step_same st st' :
  promiseArr st' = promiseArr st ->
  isFirstConnection st' = isFirstConnection st ->
  waiters_step st st' [].
Proof.
  intros Ha Hf. unfold waiters_step. rewrite Ha, Hf.
  split; [lia|]. split; [tauto|]. split; [tauto|]. split; [congruence|].
  intros i [].
Qed.

Lemma waiters_step_released st st' :
  promiseArr st' = map (fun _ => true) (promiseArr st) ->
  (isFirstConnection st = false -> isFirstConnection st' = false) ->
  waiters_step st st' [].
Proof.
  intros Ha Hf. unfold waiters_step. rewrite Ha, length_map.
  split; [lia|]. split; [|split; [exact Hf|split]].
  - intros i Hi. apply lookup_map_true. apply lookup_lt_Some in Hi. exact Hi.
  - intros _ _ i Hi. apply lookup_map_true. exact Hi.
  - intros i [].
Qed.

Lemma waiters_step_pushed st st' new :
  promiseArr st' = promiseArr st ++ [false] ->
  isFirstConnection st' = isFirstConnection st ->
  (forall i, In i new -> i = length (promiseArr st) /\ isFirstConnection st = true) ->
  waiters_step st st' new.
Proof.
  intros Ha Hf Hnew. unfold waiters_step. rewrite Ha, Hf, length_app. cbn [length].
  split; [lia|]. split; [|split; [tauto|split; [congruence|]]].
  - intros i Hi. rewrite lookup_app_l by (apply lookup_lt_Some in Hi; exact Hi). exact Hi.
  - intros i Hi. destruct (Hnew i Hi) as [-> Hfirst]. split; [lia|exact Hfirst].
Qed.

Lemma waiters_step_own config l st :
  first_phase_clean st ->
  waiters_step st (step config l st) (own_waiter (Own l) st).
Proof.
  intros HP. destruct l; cbn [step own_waiter].
  - destruct (isFirstConnection st) eqn:Hf.
    + apply waiters_step_pushed.
      * rewrite subscribe_promiseArr, Hf. reflexivity.
      * apply subscribe_first.
      * intros i [<-|[]]. split; [reflexivity|exact Hf].
    + apply waiters_step_same; [|apply subscribe_first].
      rewrite subscribe_promiseArr, Hf. reflexivity.
  - apply waiters_step_same; [|apply (unsubscribe_frame isFirstConnection)].
    apply (unsubscribe_frame_check promiseArr config
             (checkAndDisconnectClient_promiseArr config)).
  - apply waiters_step_same; [|apply (unsubscribeAll_frame isFirstConnection)].
    apply (unsubscribeAll_frame_check promiseArr config
             (checkAndDisconnectClient_promiseArr config)).
  - apply waiters_step_same; reflexivity.
  - apply waiters_step_same; reflexivity.
  - apply waiters_step_same; reflexivity.
  - unfold transport_connected.
    destruct (connectSuccessCallback_fields config (set_connected true st)) as (_ & E & _).
    destruct (isClientConnectionBroken st) eqn:Hb.
    + apply waiters_step_same.
      * rewrite promiseArr_after_success.
        cbn [isClientConnectionBroken promiseArr set_connected]. rewrite Hb. reflexivity.
      * rewrite E. destruct (isFirstConnection st) eqn:Hf; [|reflexivity].
        destruct HP as [_ HP2]. destruct (HP2 Hf). congruence.
    + apply waiters_step_released; [|intros _; exact E].
      rewrite promiseArr_after_success.
      cbn [isClientConnectionBroken promiseArr set_connected]. rewrite Hb. reflexivity.
  - apply waiters_step_released; [reflexivity|]. intros _. reflexivity.
  - rewrite transport_closed_cases.
    destruct (isFirstConnection st) eqn:Hf.
    + destruct (clientReconnectionTries st <? clientMaxReconnectionTries config)%Z.
      * apply waiters_step_same; reflexivity.
      * apply waiters_step_released; [reflexivity|]. intros _. reflexivity.
    + destruct (isClientDisconnectedForced st).
      * apply waiters_step_same; reflexivity.
      * destruct (clientReconnectionTries st <? clientMaxReconnectionTries config)%Z.
        -- apply waiters_step_same; cbn [promiseArr isFirstConnection set_clientReconnectionTries].
           ++ rewrite (startAllPollings_frame promiseArr) by reflexivity. reflexivity.
           ++ rewrite (startAllPollings_frame isFirstConnection) by reflexivity.
              reflexivity.
        -- apply waiters_step_same; reflexivity.
  - apply waiters_step_same;
      [apply (timer_fires_frame promiseArr)|apply (timer_fires_frame isFirstConnection)].
  - apply waiters_step_same;
      [apply (poll_settles_frame promiseArr)|apply (poll_settles_frame isFirstConnection)].
Qed.

Lemma own_waiters_released_step st st' own new :
  own_waiters_released st own ->
  waiters_step st st' new ->
  own_waiters_released st' (own ++ new).
Proof.
  intros [Hin Hrel] (Hlen & Hkeep & Hover & Hend & Hnew). split.
  - intros i Hi. apply in_app_or in Hi. destruct Hi as [Hi|Hi].
    + specialize (Hin i Hi). lia.
    + apply Hnew. exact Hi.
  - intros Hf' i Hi. apply in_app_or in Hi. destruct Hi as [Hi|Hi].
    + destruct (isFirstConnection st) eqn:Hf.
      * apply Hend; [reflexivity|exact Hf'|]. apply Hin. exact Hi.
      * apply Hkeep, Hrel; [reflexivity|exact Hi].
    + destruct (Hnew i Hi). congruence.
Qed.

Lemma shared_step_waiters config sl st own :
  first_phase_clean st ->
  own_waiters_released st own ->
  first_phase_clean (shared_step config sl st) /\
  own_waiters_released (shared_step config sl st) (own ++ own_waiter sl st).
Proof.
  intros HP HR. destruct sl as [l| |]; cbn [shared_step].
  - split; [apply first_phase_clean_step; exact HP|].
    apply (own_waiters_released_step st); [exact HR|].
    apply waiters_step_own. exact HP.
  - split; [apply (first_phase_clean_same st); try reflexivity; exact HP|].
    apply (own_waiters_released_step st); [exact HR|].
    apply waiters_step_pushed; [reflexivity|reflexivity|intros i []].
  - split; [apply (first_phase_clean_same st); try reflexivity; exact HP|].
    apply (own_waiters_released_step st); [exact HR|].
    apply waiters_step_released; [reflexivity|]. intros Hf. exact Hf.
Qed.

Lemma shared_run_waiters config sls : forall st own st' own',
  first_phase_clean st ->
  own_waiters_released st own ->
  shared_run config sls st own = (st', own') ->
  own_waiters_released st' own'.
Proof.
  induction sls as [|sl sls IH]; intros st own st' own' HP HR Hrun.
  - cbn in Hrun. injection Hrun as <- <-. exact HR.
  - cbn [shared_run] in Hrun.
    destruct (shared_step_waiters config sl st own HP HR) as [HP' HR'].
    exact (IH _ _ _ _ HP' HR' Hrun).
Qed.

(** X4. [promiseArr] is shared by every provider mounted from the module:
    at any time another provider may push a waiter of its own or release
    the whole array.  In every run of the module, the waiters this provider
    pushed are in the array, and once its first-connection phase is over
    every one of them has been released, whatever waiters of other
    providers are still suspended; a subscribe made then pushes no waiter
    (it does not wait).  During the phase each subscribe pushes exactly one
    suspended waiter at the end of the array. *)
Theorem X4_waiters_released_after_first_phase (config : Config)
    (sls : list shared_label) (delay0 : Z) (st : State) (own : list nat) :
  shared_run config sls (mount delay0) [] = (st, own) ->
  (forall i, In i own -> i < length (promiseArr st)) /\
  (isFirstConnection st = false ->
   (forall i, In i own -> promiseArr st !! i = Some true) /\
   forall topicId options newId,
     promiseArr (subscribe topicId options newId st) = promiseArr st /\
     own_waiter (Own (LSubscribe topicId options newId)) st = []) /\
  (isFirstConnection st = true ->
   forall topicId options newId,
     promiseArr (subscribe topicId options newId st) = promiseArr st ++ [false] /\
     own_waiter (Own (LSubscribe topicId options newId)) st = [length (promiseArr st)]).
Proof.
  intros Hrun.
  assert (HP : first_phase_clean (mount delay0)) by (split; cbn; intros; [discriminate|tauto]).
  assert (HR : own_waiters_released (mount delay0) []) by (split; [|intros _]; intros i []).
  destruct (shared_run_waiters config sls _ _ _ _ HP HR Hrun) as [Hin Hrel].
  split; [exact Hin|]. split; intros Hf.
  - split; [apply Hrel; exact Hf|].
    intros topicId options newId. cbn [own_waiter].
    rewrite subscribe_promiseArr, Hf. split; reflexivity.
  - intros topicId options newId. cbn [own_waiter].
    rewrite subscribe_promiseArr, Hf. split; reflexivity.
Qed.

Lemma X4_witness :
  promiseArr (shared_step defaultConfig OtherHoldPromise one_connected) !! 0 = Some true /\
  drained (shared_step defaultConfig OtherHoldPromise one_connected) = false.
Proof.
  assert (Hrun : shared_run defaultConfig
                   [Own (LSubscribe "orders"%string polling_options "s1"%string);
                    Own LConnected; OtherHoldPromise] (mount 0) [] =
                 (shared_step defaultConfig OtherHoldPromise one_connected, [0]))
    by (vm_compute; reflexivity).
  destruct (X4_waiters_released_after_first_phase defaultConfig _ 0 _ _ Hrun)
    as (_ & Hover & _).
  destruct (Hover eq_refl) as [Hrel _].
  split; [apply Hrel; left; reflexivity|].
  vm_compute. reflexivity.
Defined.

(** X5. [client.connect] is called at most once in the life of the
    provider: in every reachable state the trace holds at most one connect,
    and once the first-connection phase is over no sequence of events adds
    one; in particular a subscribe made after the empty-registry disconnect
    does not reconnect. *)
Theorem X5_connect_at_most_once (config : Config) (st : State) :
  reachable config st ->
  count is_connect (trace st) <= 1 /\
  (isFirstConnection st = false ->
   forall ls, count is_connect (trace (run config ls st)) = count is_connect (trace st)).
Proof.
  intros Hr. destruct (lifecycle_reachable config st Hr) as (_ & _ & HC1 & _).
  split; [exact HC1|]. intros Hf ls. apply connects_run. exact Hf.
Qed.

Lemma X5_witness :
  count is_connect
    (trace (run defaultConfig
              [LUnsubscribe "s1"%string; LClosed;
               LSubscribe "prices"%string polling_options "s2"%string]
              one_connected)) = count is_connect (trace one_connected).
Proof.
  destruct (X5_connect_at_most_once defaultConfig one_connected) as [_ Hover];
    [apply reachable_run, reachable_mount|].
  apply Hover. reflexivity.
Defined.

(** ** Objects persist *)

Lemma later_object_refl s : later_object s s.
Proof. unfold later_object. tauto. Qed.

Lemma later_object_trans s1 s2 s3 :
  later_object s1 s2 -> later_object s2 s3 -> later_object s1 s3.
Proof.
  unfold later_object.
  intros (H1 & H2 & H3 & H4 & H5 & H6 & H7) (K1 & K2 & K3 & K4 & K5 & K6 & K7).
  repeat split; try congruence; tauto.
Qed.

Lemma heap_grows_refl st : heap_grows st st.
Proof. intros a s Ha. exists s. split; [exact Ha|apply later_object_refl]. Qed.

Lemma heap_grows_trans st1 st2 st3 :
  heap_grows st1 st2 -> heap_grows st2 st3 -> heap_grows st1 st3.
Proof.
  intros H12 H23 a s Ha. destruct (H12 a s Ha) as (s2 & Ha2 & L12).
  destruct (H23 a s2 Ha2) as (s3 & Ha3 & L23).
  exists s3. split; [exact Ha3|]. apply (later_object_trans s s2 s3); assumption.
Qed.

Lemma heap_grows_same st st' : heap st' = heap st -> heap_grows st st'.
Proof. intros Hh a s Ha. exists s. rewrite Hh. split; [exact Ha|apply later_object_refl]. Qed.

Lemma heap_grows_subscribe this st : heap_grows st (Subscription_subscribe this st).
Proof.
  intros a s Ha. rewrite Subscription_subscribe_heap.
  destruct (heap st !! this) as [s0|] eqn:H0; cbn;
    [|exists s; split; [exact Ha|apply later_object_refl]].
  destruct (s_client s0); [|exists s; split; [exact Ha|apply later_object_refl]].
  destruct (connected st); [|exists s; split; [exact Ha|apply later_object_refl]].
  destruct (decide (a = this)) as [->|Hne];
    [|exists s; split; [exact Ha|apply later_object_refl]].
  rewrite H0 in Ha. inversion Ha; subst. eexists. split; [reflexivity|].
  unfold later_object. cbn. repeat split; eauto.
Qed.

Lemma heap_grows_setClientAndSubscribe this st :
  heap_grows st (setClientAndSubscribe this st).
Proof.
  unfold setClientAndSubscribe.
  destruct (heap st !! this) as [s0|] eqn:H0; [|apply heap_grows_refl].
  eapply heap_grows_trans; [|apply heap_grows_subscribe].
  intros a s Ha. cbn [heap set_heap].
  destruct (decide (a = this)) as [->|Hne].
  - rewrite list_lookup_insert_eq by (apply lookup_lt_Some in H0; exact H0).
    rewrite H0 in Ha. inversion Ha; subst. eexists. split; [reflexivity|].
    unfold later_object. cbn. repeat split; eauto.
  - rewrite list_lookup_insert_ne by congruence.
    exists s. split; [exact Ha|apply later_object_refl].
Qed.

Lemma heap_grows_new client topicId options newId st :
  heap_grows st (snd (new_Subscription client topicId options newId st)).
Proof.
  unfold new_Subscription. cbn [snd].
  eapply heap_grows_trans; [|apply heap_grows_subscribe].
  intros a s Ha. cbn [heap set_heap]. exists s.
  split; [|apply later_object_refl].
  rewrite lookup_app_l by (apply lookup_lt_Some in Ha; exact Ha). exact Ha.
Qed.

Lemma heap_grows_success config st : heap_grows st (connectSuccessCallback config st).
Proof.
  unfold connectSuccessCallback. cbn zeta.
  match goal with
  | |- heap_grows _ (set_isFirstConnection _ (set_client_reconnectDelay _
         (set_clientReconnectionTries _ (set_isPollingActive _ ?s)))) =>
      apply (heap_grows_trans st s); [|apply heap_grows_same; reflexivity]
  end.
  destruct (isClientConnectionBroken st).
  - apply (forEach_inv (heap_grows st)); [|apply heap_grows_refl].
    intros subId s Hs. destruct (reg_lookup subId (subscriptionsRef s)); [|exact Hs].
    destruct (connected s); [|exact Hs].
    eapply heap_grows_trans; [exact Hs|apply heap_grows_subscribe].
  - unfold setClientAndSubscribeAll.
    apply (forEach_inv (heap_grows st));
      [|apply heap_grows_same; reflexivity].
    intros subId s Hs. destruct (reg_lookup subId (subscriptionsRef s)); [|exact Hs].
    destruct (connected s); [|exact Hs].
    eapply heap_grows_trans; [exact Hs|apply heap_grows_setClientAndSubscribe].
Qed.

Lemma heap_grows_step config l st : heap_grows st (step config l st).
Proof.
  destruct l; cbn [step]; try (apply heap_grows_same; reflexivity).
  - eapply heap_grows_trans; [apply heap_grows_new|].
    apply heap_grows_same. apply subscribe_heap.
  - apply heap_grows_same. apply (unsubscribe_frame heap).
  - apply heap_grows_same. apply (unsubscribeAll_frame heap).
  - unfold transport_connected.
    eapply heap_grows_trans; [|apply heap_grows_success].
    apply heap_grows_same. reflexivity.
  - apply heap_grows_same. unfold transport_closed. rewrite heap_after_close. reflexivity.
  - apply heap_grows_same. apply (timer_fires_frame heap).
  - apply heap_grows_same. apply (poll_settles_frame heap).
Qed.

Lemma heap_grows_run config ls st : heap_grows st (run config ls st).
Proof.
  revert st. induction ls as [|l ls IH]; intros st; [apply heap_grows_refl|].
  change (run config (l :: ls) st) with (run config ls (step config l st)).
  eapply heap_grows_trans; [apply heap_grows_step|apply IH].
Qed.

(** X6. A [Subscription] object is never dropped or replaced: over any
    sequence of events it stays at its place, its id, topic, polling
    callback and delays never change, and once it is bound to the client
    or holds a handle it remains so (nothing resets [this.client] or
    [this.subscription] to [null]). *)
Theorem X6_objects_persist (config : Config) (ls : list label) (st : State)
    (a : nat) (s : Subscription) :
  heap st !! a = Some s ->
  exists s',
    heap (run config ls st) !! a = Some s' /\
    s_id s' = s_id s /\
    s_topicId s' = s_topicId s /\
    s_pollingCallback s' = s_pollingCallback s /\
    s_pollingDelay s' = s_pollingDelay s /\
    s_fallbackPollingDelay s' = s_fallbackPollingDelay s /\
    (s_client s = true -> s_client s' = true) /\
    (is_Some (s_subscription s) -> is_Some (s_subscription s')).
Proof.
  intros Ha. destruct (heap_grows_run config ls st a s Ha) as (s' & Ha' & HL).
  exists s'. split; [exact Ha'|exact HL].
Qed.

Lemma X6_witness :
  exists s',
    heap (run defaultConfig [LClosed; LUnsubscribe "s1"%string; LConnected] one_connected)
      !! 0 = Some s' /\
    s_id s' = "s1"%string /\ s_client s' = true.
Proof.
  destruct (X6_objects_persist defaultConfig
              [LClosed; LUnsubscribe "s1"%string; LConnected] one_connected 0
              (mkSubscription "s1"%string true "orders"%string (Some 0) (Some 0) 3000 20000)
              eq_refl)
    as (s' & Hs & Hid & _ & _ & _ & _ & Hc & _).
  exists s'. split; [exact Hs|]. split; [exact Hid|]. apply Hc. reflexivity.
Defined.

(** ** The registry and the objects it names *)

Lemma reg_lookup_delete id k r :
  reg_lookup k (reg_delete id r) = if String.eqb id k then None else reg_lookup k r.
Proof.
  induction r as [|[k' a] r IH]; simpl; [destruct (String.eqb id k); reflexivity|].
  destruct (String.eqb_spec k' id) as [->|Hne]; simpl.
  - rewrite IH. destruct (String.eqb_spec id k) as [->|Hne']; [reflexivity|].
    destruct (String.eqb_spec id k); [contradiction|reflexivity].
  - rewrite IH. destruct (String.eqb_spec k' k) as [->|Hne'].
    + destruct (String.eqb_spec id k); [congruence|reflexivity].
    + reflexivity.
Qed.

Lemma reg_lookup_set id a k r :
  reg_lookup k (reg_set id a r) = if String.eqb id k then Some a else reg_lookup k r.
Proof.
  induction r as [|[k' b] r IH]; simpl.
  - destruct (String.eqb id k); reflexivity.
  - destruct (String.eqb_spec k' id) as [->|Hne]; simpl.
    + destruct (String.eqb id k); reflexivity.
    + rewrite IH. destruct (String.eqb_spec k' k) as [->|Hne'].
      * destruct (String.eqb_spec id k); [congruence|reflexivity].
      * reflexivity.
Qed.

Lemma registry_shrinks_refl st : registry_shrinks st st.
Proof. intros k a H. exact H. Qed.

Lemma registry_shrinks_trans st1 st2 st3 :
  registry_shrinks st1 st2 -> registry_shrinks st2 st3 -> registry_shrinks st1 st3.
Proof. intros H12 H23 k a H. apply H12, H23, H. Qed.

Lemma registry_shrinks_same st st' :
  subscriptionsRef st' = subscriptionsRef st -> registry_shrinks st st'.
Proof. intros Hr k a H. rewrite Hr in H. exact H. Qed.

Lemma registry_shrinks_delete id st st' :
  subscriptionsRef st' = reg_delete id (subscriptionsRef st) -> registry_shrinks st st'.
Proof.
  intros Hr k a H. rewrite Hr, reg_lookup_delete in H.
  destruct (String.eqb id k); [discriminate|exact H].
Qed.

Lemma registry_shrinks_Subscription_unsubscribe this st :
  registry_shrinks st (Subscription_unsubscribe this st).
Proof.
  destruct (heap st !! this) as [s|] eqn:Hs.
  - destruct (Subscription_unsubscribe_effects this s st Hs) as (_ & Hr & _).
    apply (registry_shrinks_delete (s_id s)). exact Hr.
  - unfold Subscription_unsubscribe. rewrite Hs. apply registry_shrinks_refl.
Qed.

Lemma registry_shrinks_unsubscribe config id st :
  registry_shrinks st (unsubscribe config id st).
Proof.
  unfold unsubscribe. destruct (reg_lookup id (subscriptionsRef st));
    [|apply registry_shrinks_refl].
  cbn zeta.
  set (st1 := if connected st then _ else st).
  apply (registry_shrinks_trans st st1).
  - subst st1. destruct (connected st);
      [apply registry_shrinks_Subscription_unsubscribe|apply registry_shrinks_refl].
  - apply (registry_shrinks_delete id).
    rewrite (checkAndDisconnectClient_frame subscriptionsRef). reflexivity.
Qed.

Lemma registry_shrinks_empty st st' :
  subscriptionsRef st' = [] -> registry_shrinks st st'.
Proof. intros Hr k a H. rewrite Hr in H. discriminate. Qed.

Lemma registry_after_success config st :
  subscriptionsRef (connectSuccessCallback config st) = subscriptionsRef st.
Proof.
  unfold connectSuccessCallback. cbn zeta.
  cbn [subscriptionsRef set_isFirstConnection set_client_reconnectDelay
         set_clientReconnectionTries set_isPollingActive].
  destruct (isClientConnectionBroken st).
  - apply (resubscribe_loop_frame subscriptionsRef).
  - rewrite (setClientAndSubscribeAll_frame subscriptionsRef). reflexivity.
Qed.

Lemma registry_shrinks_closed config st :
  registry_shrinks st (transport_closed config st).
Proof.
  rewrite transport_closed_cases.
  destruct (isFirstConnection st);
    [destruct (clientReconnectionTries st <? clientMaxReconnectionTries config)%Z;
     apply registry_shrinks_same; reflexivity|].
  destruct (isClientDisconnectedForced st); [apply registry_shrinks_same; reflexivity|].
  destruct (clientReconnectionTries st <? clientMaxReconnectionTries config)%Z.
  - apply registry_shrinks_same. cbn [subscriptionsRef set_clientReconnectionTries].
    rewrite (startAllPollings_frame subscriptionsRef) by reflexivity. reflexivity.
  - apply registry_shrinks_empty. reflexivity.
Qed.

Lemma registry_shrinks_settles n r st :
  registry_shrinks st (fst (poll_settles n r st)).
Proof.
  unfold poll_settles. destruct (awaiting st !! n) as [[l a]|];
    [|apply registry_shrinks_refl].
  cbn zeta. set (st1 := set_awaiting _ st).
  apply (registry_shrinks_trans st st1); [apply registry_shrinks_same; reflexivity|].
  destruct l, r as [[|]|]; cbn [startPolling_resume fallbackPolling_resume fst];
    try apply registry_shrinks_refl;
    try apply registry_shrinks_Subscription_unsubscribe;
    apply registry_shrinks_same;
    [apply (startPolling_frame subscriptionsRef)
    |apply (fallbackPolling_frame subscriptionsRef)].
Qed.

Lemma registry_consistent_later st st' :
  registry_consistent st ->
  registry_shrinks st st' ->
  heap_grows st st' ->
  registry_consistent st'.
Proof.
  intros Hc Hs Hg id a Hl. destruct (Hc id a (Hs id a Hl)) as (s & Ha & Hid).
  destruct (Hg a s Ha) as (s' & Ha' & HL). exists s'.
  split; [exact Ha'|]. destruct HL as (-> & _). exact Hid.
Qed.

Lemma registry_consistent_subscribe topicId options newId st :
  registry_consistent st -> registry_consistent (subscribe topicId options newId st).
Proof.
  intros Hc id a Hl. rewrite subscribe_registry, reg_lookup_set in Hl.
  destruct (String.eqb_spec newId id) as [->|Hne].
  - inversion Hl; subst.
    destruct (new_Subscription_object (connected st) topicId options id st)
      as (s & Hs & Hid & _).
    exists s. rewrite subscribe_heap. split; assumption.
  - destruct (Hc id a Hl) as (s & Ha & Hid).
    destruct (heap_grows_step defaultConfig (LSubscribe topicId options newId) st a s Ha)
      as (s' & Ha' & HL).
    exists s'. split; [exact Ha'|]. destruct HL as (-> & _). exact Hid.
Qed.

Lemma registry_consistent_step config l st :
  registry_consistent st -> registry_consistent (step config l st).
Proof.
  intros Hc.
  assert (Hshrink : registry_shrinks st (step config l st) ->
                    registry_consistent (step config l st)).
  { intros Hs. apply (registry_consistent_later st); [exact Hc|exact Hs|].
    apply heap_grows_step. }
  destruct l; cbn [step] in *.
  - apply registry_consistent_subscribe. exact Hc.
  - apply Hshrink, registry_shrinks_unsubscribe.
  - apply Hshrink, registry_shrinks_empty, unsubscribeAll_clears.
  - apply Hshrink, registry_shrinks_same. reflexivity.
  - apply Hshrink, registry_shrinks_same. reflexivity.
  - apply Hshrink, registry_shrinks_same. reflexivity.
  - apply Hshrink, registry_shrinks_same. unfold transport_connected.
    rewrite registry_after_success. reflexivity.
  - apply Hshrink, registry_shrinks_same. reflexivity.
  - apply Hshrink, registry_shrinks_closed.
  - apply Hshrink, registry_shrinks_same. apply (timer_fires_frame subscriptionsRef).
  - apply Hshrink, registry_shrinks_settles.
Qed.

Lemma registry_consistent_reachable config st :
  reachable config st -> registry_consistent st.
Proof.
  intros Hr. induction Hr as [delay0|l st Hr IH].
  - intros id a H. discriminate.
  - apply registry_consistent_step. exact IH.
Qed.

(** X7. In every reachable state, every key of the registry leads to a
    [Subscription] object whose id is that key: [registry[id].getId()] is
    [id]. *)
Theorem X7_registry_keys_are_object_ids (config : Config) (st : State)
    (id : string) (a : nat) :
  reachable config st ->
  reg_lookup id (subscriptionsRef st) = Some a ->
  exists s, heap st !! a = Some s /\ s_id s = id.
Proof.
  intros Hr Hl. apply (registry_consistent_reachable config st Hr id a Hl).
Qed.

Lemma X7_witness :
  exists s, heap two_connected !! 1 = Some s /\ s_id s = "s2"%string.
Proof.
  apply (X7_registry_keys_are_object_ids defaultConfig two_connected "s2"%string 1).
  - apply reachable_run, reachable_mount.
  - reflexivity.
Defined.

Lemma unsubscribe_registry config id st :
  registry_consistent st ->
  forall k,
    reg_lookup k (subscriptionsRef (unsubscribe config id st)) =
    if String.eqb id k then None else reg_lookup k (subscriptionsRef st).
Proof.
  intros Hc k. unfold unsubscribe.
  destruct (reg_lookup id (subscriptionsRef st)) as [a|] eqn:Hl.
  - cbn zeta. rewrite (checkAndDisconnectClient_frame subscriptionsRef).
    cbn [subscriptionsRef set_subscriptionsRef]. rewrite reg_lookup_delete.
    destruct (String.eqb_spec id k) as [->|Hne]; [reflexivity|].
    destruct (connected st); [|reflexivity].
    destruct (Hc id a Hl) as (s & Hs & Hid).
    destruct (Subscription_unsubscribe_effects a s st Hs) as (_ & -> & _).
    rewrite reg_lookup_delete, Hid.
    destruct (String.eqb_spec id k); [contradiction|reflexivity].
  - destruct (String.eqb_spec id k) as [<-|Hne]; [exact Hl|reflexivity].
Qed.

Lemma unsubscribe_plain_object_own config id a st :
  reg_lookup id (subscriptionsRef st) = Some a ->
  unsubscribe_plain_object config id st = Some (unsubscribe config id st).
Proof.
  intros Hl. unfold unsubscribe_plain_object, registry_get, unsubscribe.
  rewrite Hl. reflexivity.
Qed.

Lemma unsubscribe_plain_object_unknown config id st :
  reg_lookup id (subscriptionsRef st) = None ->
  unsubscribe_plain_object config id st =
  if Object_prototype_member id && connected st then None else Some st.
Proof.
  intros Hl. unfold unsubscribe_plain_object, registry_get. rewrite Hl.
  destruct (Object_prototype_member id); [|reflexivity].
  destruct (connected st) eqn:Hc; [reflexivity|]. cbn [andb]. cbn zeta.
  rewrite checkAndDisconnectClient_disconnected by exact Hc.
  rewrite (reg_delete_absent _ _ Hl), set_subscriptionsRef_same. reflexivity.
Qed.

(** X8. In every reachable state, [unsubscribe(id)] on a registered id
    takes the entry [id] out of the registry and leaves every other entry
    as it was.  On an id that is not registered it changes nothing, unless
    the id names a member the registry object inherits from
    [Object.prototype] (such as [toString]) and the client is connected:
    the call then throws a [TypeError], having changed nothing.  A second
    call is a call on an id that is not registered: for an id that names no
    inherited member it changes nothing, removal is idempotent. *)
Theorem X8_unsubscribe_removes_only_that_entry (config : Config) (st : State)
    (id : string) :
  reachable config st ->
  (forall a, reg_lookup id (subscriptionsRef st) = Some a ->
     exists st',
       unsubscribe_plain_object config id st = Some st' /\
       st' = unsubscribe config id st /\
       reg_lookup id (subscriptionsRef st') = None /\
       (forall k, k <> id ->
          reg_lookup k (subscriptionsRef st') = reg_lookup k (subscriptionsRef st)) /\
       unsubscribe_plain_object config id st' =
         if Object_prototype_member id && connected st' then None else Some st') /\
  (reg_lookup id (subscriptionsRef st) = None ->
   unsubscribe_plain_object config id st =
     if Object_prototype_member id && connected st then None else Some st).
Proof.
  intros Hr. pose proof (registry_consistent_reachable config st Hr) as Hc.
  split; [|apply unsubscribe_plain_object_unknown].
  intros a Hl. exists (unsubscribe config id st).
  assert (Hgone : reg_lookup id (subscriptionsRef (unsubscribe config id st)) = None).
  { rewrite (unsubscribe_registry config id st Hc), String.eqb_refl. reflexivity. }
  split; [apply (unsubscribe_plain_object_own config id a); exact Hl|].
  split; [reflexivity|]. split; [exact Hgone|]. split.
  - intros k Hk. rewrite (unsubscribe_registry config id st Hc).
    destruct (String.eqb_spec id k); [congruence|reflexivity].
  - apply unsubscribe_plain_object_unknown. exact Hgone.
Qed.

Lemma X8_witness :
  (exists st',
     unsubscribe_plain_object defaultConfig "s1"%string two_connected = Some st' /\
     reg_lookup "s1"%string (subscriptionsRef st') = None /\
     reg_lookup "s2"%string (subscriptionsRef st') = Some 1 /\
     unsubscribe_plain_object defaultConfig "s1"%string st' = Some st') /\
  unsubscribe_plain_object defaultConfig "toString"%string two_connected = None.
Proof.
  destruct (X8_unsubscribe_removes_only_that_entry defaultConfig two_connected
              "s1"%string) as [Hown _]; [apply reachable_run, reachable_mount|].
  destruct (X8_unsubscribe_removes_only_that_entry defaultConfig two_connected
              "toString"%string) as [_ Hunknown]; [apply reachable_run, reachable_mount|].
  split.
  - destruct (Hown 0 eq_refl) as (st' & Hres & _ & Hgone & Hothers & Hagain).
    exists st'. split; [exact Hres|]. split; [exact Hgone|]. split.
    + rewrite (Hothers "s2"%string); [reflexivity|discriminate].
    + exact Hagain.
  - exact (Hunknown eq_refl).
Defined.

(** ** [unsubscribeAll] *)

Lemma low_extension_refl st : low_extension st st.
Proof. exists []. rewrite app_nil_r. split; reflexivity. Qed.

Lemma low_extension_trans st1 st2 st3 :
  low_extension st1 st2 -> low_extension st2 st3 -> low_extension st1 st3.
Proof.
  intros (p1 & H1 & L1) (p2 & H2 & L2). exists (p1 ++ p2).
  rewrite H2, H1, <- app_assoc, forallb_app, L1, L2. split; reflexivity.
Qed.

Lemma low_extension_same st st' : trace st' = trace st -> low_extension st st'.
Proof. intros H. exists []. rewrite app_nil_r. split; [exact H|reflexivity]. Qed.

Lemma low_extension_Subscription_unsubscribe this st :
  low_extension st (Subscription_unsubscribe this st).
Proof.
  destruct (heap st !! this) as [s|] eqn:Hs.
  - destruct (Subscription_unsubscribe_effects this s st Hs) as (Ht & _).
    exists (unsubscribe_frames s st ++ [EvOnUnsubscribe (s_id s)]).
    split; [exact Ht|]. unfold unsubscribe_frames.
    destruct (s_client s && connected st); [destruct (s_subscription s)|]; reflexivity.
  - unfold Subscription_unsubscribe. rewrite Hs. apply low_extension_refl.
Qed.

Lemma low_extension_unsubscribe_loop keys st :
  low_extension st
    (forEach
       (fun subId s =>
          match reg_lookup subId (subscriptionsRef s) with
          | Some a =>
              let s1 := if connected s then Subscription_unsubscribe a s else s in
              set_subscriptionsRef (reg_delete subId (subscriptionsRef s1)) s1
          | None => s
          end) keys st).
Proof.
  apply (forEach_inv (low_extension st)); [|apply low_extension_refl].
  intros subId s Hs. destruct (reg_lookup subId (subscriptionsRef s)); [|exact Hs].
  cbn zeta. apply (low_extension_trans st s); [exact Hs|].
  destruct (connected s).
  - apply (low_extension_trans s (Subscription_unsubscribe n s));
      [apply low_extension_Subscription_unsubscribe|].
    apply low_extension_same. reflexivity.
  - apply low_extension_same. reflexivity.
Qed.

Lemma checkAndDisconnectClient_empty_connected config topicId st :
  subscriptionsRef st = [] ->
  connected st = true ->
  trace (checkAndDisconnectClient config topicId st) =
    trace st ++ before_disconnect_frames config st topicId
      ++ [EvDisconnect (onDisconnectHandler st)] /\
  isClientDisconnectedForced (checkAndDisconnectClient config topicId st) = true /\
  subscriptionsRef (checkAndDisconnectClient config topicId st) = [].
Proof.
  intros Hr Hc. rewrite checkAndDisconnectClient_effects. unfold registry_empty.
  rewrite Hr, Hc. cbn [reg_keys map length Nat.eqb andb]. unfold client_disconnect.
  cbn [trace isClientDisconnectedForced subscriptionsRef set_active emit set_trace].
  rewrite emits_trace.
  destruct (emits_fields (before_disconnect_frames config st topicId)
              (set_isClientDisconnectedForced true st)) as [-> ->].
  cbn [trace isClientDisconnectedForced subscriptionsRef set_isClientDisconnectedForced].
  rewrite <- app_assoc. split; [reflexivity|]. split; [reflexivity|exact Hr].
Qed.

Lemma unsubscribeAll_connected config st :
  connected st = true ->
  exists pre topicId,
    trace (unsubscribeAll config st) =
      trace st ++ pre ++ before_disconnect_frames config st (Some topicId)
        ++ [EvDisconnect (onDisconnectHandler st)] /\
    forallb low_event pre = true /\
    isClientDisconnectedForced (unsubscribeAll config st) = true /\
    topicId =
      default EmptyString
        match reg_keys (subscriptionsRef st) with
        | [k] =>
            match reg_lookup k (subscriptionsRef st) with
            | Some a => s_topicId <$> heap st !! a
            | None => None
            end
        | _ => None
        end.
Proof.
  intros Hc. unfold unsubscribeAll. cbn zeta.
  set (topic := default EmptyString _).
  set (st1 := forEach _ _ st).
  assert (Hr1 : subscriptionsRef st1 = [])
    by (subst st1; apply unsubscribe_loop_clears; tauto).
  assert (Hc1 : connected st1 = true)
    by (subst st1; rewrite (unsubscribe_loop_frame connected); exact Hc).
  assert (Hh1 : onDisconnectHandler st1 = onDisconnectHandler st)
    by (subst st1; apply (unsubscribe_loop_frame onDisconnectHandler)).
  assert (Hb1 : before_disconnect_frames config st1 (Some topic) =
                before_disconnect_frames config st (Some topic)).
  { unfold before_disconnect_frames. subst st1.
    rewrite (unsubscribe_loop_frame beforeDisconnectCallback). reflexivity. }
  assert (Hext : low_extension st st1)
    by (subst st1; apply low_extension_unsubscribe_loop).
  destruct Hext as (pre & Hpre & Hlow).
  destruct (checkAndDisconnectClient_empty_connected config (Some topic) st1 Hr1 Hc1)
    as (Ht & Hf & _).
  exists pre, topic. rewrite Ht, Hf, Hpre, Hh1, Hb1, <- app_assoc.
  split; [reflexivity|]. split; [exact Hlow|]. split; reflexivity.
Qed.

(** X9. [unsubscribeAll()] always leaves the registry empty.  While the
    client is not connected it does nothing else: no transport call, no
    disconnect, every other part of the state as before.  While the client
    is connected it issues exactly one transport disconnect and sets the
    forced-disconnect flag, also when the registry was already empty. *)
Theorem X9_unsubscribeAll_clears_and_disconnects (config : Config) (st : State) :
  subscriptionsRef (unsubscribeAll config st) = [] /\
  (connected st = false -> unsubscribeAll config st = set_subscriptionsRef [] st) /\
  (connected st = true ->
   count is_disconnect (trace (unsubscribeAll config st)) =
     count is_disconnect (trace st) + 1 /\
   isClientDisconnectedForced (unsubscribeAll config st) = true).
Proof.
  split; [apply unsubscribeAll_clears|]. split.
  - apply unsubscribeAll_disconnected.
  - intros Hc.
    destruct (unsubscribeAll_connected config st Hc) as (pre & topic & Ht & Hlow & Hf & _).
    split; [|exact Hf]. rewrite Ht, !count_app, before_disconnect_frames_quiet.
    assert (Hpre : count is_disconnect pre = 0).
    { clear Ht. induction pre as [|e pre IH]; [reflexivity|].
      simpl in Hlow. apply andb_true_iff in Hlow. destruct Hlow as [He Hlow].
      unfold count in *. simpl. destruct e; try discriminate; simpl; apply IH; exact Hlow. }
    rewrite Hpre. unfold count at 2. simpl. lia.
Qed.

Lemma X9_witness :
  count is_disconnect
    (trace (unsubscribeAll defaultConfig (unsubscribeAll defaultConfig two_connected))) =
  count is_disconnect (trace (unsubscribeAll defaultConfig two_connected)) + 1.
Proof.
  destruct (X9_unsubscribeAll_clears_and_disconnects defaultConfig
              (unsubscribeAll defaultConfig two_connected)) as (_ & _ & Hcon).
  destruct Hcon as [Hcount _]; [vm_compute; reflexivity|]. exact Hcount.
Defined.

Lemma unsubscribe_extension_refl st : unsubscribe_extension st st.
Proof. exists []. rewrite app_nil_r. split; reflexivity. Qed.

Lemma unsubscribe_extension_trans st1 st2 st3 :
  unsubscribe_extension st1 st2 -> unsubscribe_extension st2 st3 ->
  unsubscribe_extension st1 st3.
Proof.
  intros (p1 & H1 & L1) (p2 & H2 & L2). exists (p1 ++ p2).
  rewrite H2, H1, <- app_assoc, forallb_app, L1, L2. split; reflexivity.
Qed.

Lemma unsubscribe_extension_same st st' :
  trace st' = trace st -> unsubscribe_extension st st'.
Proof. intros H. exists []. rewrite app_nil_r. split; [exact H|reflexivity]. Qed.

Lemma unsubscribe_extension_Subscription_unsubscribe this st :
  unsubscribe_extension st (Subscription_unsubscribe this st).
Proof.
  destruct (heap st !! this) as [s|] eqn:Hs.
  - destruct (Subscription_unsubscribe_effects this s st Hs) as (Ht & _).
    exists (unsubscribe_frames s st ++ [EvOnUnsubscribe (s_id s)]).
    split; [exact Ht|]. unfold unsubscribe_frames.
    destruct (s_client s && connected st); [destruct (s_subscription s)|]; reflexivity.
  - unfold Subscription_unsubscribe. rewrite Hs. apply unsubscribe_extension_refl.
Qed.

Lemma unsubscribe_extension_loop keys st :
  unsubscribe_extension st
    (forEach
       (fun subId s =>
          match reg_lookup subId (subscriptionsRef s) with
          | Some a =>
              let s1 := if connected s then Subscription_unsubscribe a s else s in
              set_subscriptionsRef (reg_delete subId (subscriptionsRef s1)) s1
          | None => s
          end) keys st).
Proof.
  apply (forEach_inv (unsubscribe_extension st)); [|apply unsubscribe_extension_refl].
  intros subId s Hs. destruct (reg_lookup subId (subscriptionsRef s)) as [a|]; [|exact Hs].
  cbn zeta. apply (unsubscribe_extension_trans st s); [exact Hs|].
  destruct (connected s).
  - apply (unsubscribe_extension_trans s (Subscription_unsubscribe a s));
      [apply unsubscribe_extension_Subscription_unsubscribe|].
    apply unsubscribe_extension_same. reflexivity.
  - apply unsubscribe_extension_same. reflexivity.
Qed.

Lemma unsubscribeAll_connected_trace config st :
  connected st = true ->
  exists pre,
    trace (unsubscribeAll config st) =
      trace st ++ pre
        ++ before_disconnect_frames config st
             (Some (default EmptyString
                      match reg_keys (subscriptionsRef st) with
                      | [k] =>
                          match reg_lookup k (subscriptionsRef st) with
                          | Some a => s_topicId <$> heap st !! a
                          | None => None
                          end
                      | _ => None
                      end))
        ++ [EvDisconnect (onDisconnectHandler st)] /\
    forallb unsubscribe_event pre = true.
Proof.
  intros Hc. unfold unsubscribeAll. cbn zeta.
  set (topic := default EmptyString _).
  set (st1 := forEach _ _ st).
  assert (Hr1 : subscriptionsRef st1 = [])
    by (subst st1; apply unsubscribe_loop_clears; tauto).
  assert (Hc1 : connected st1 = true)
    by (subst st1; rewrite (unsubscribe_loop_frame connected); exact Hc).
  assert (Hh1 : onDisconnectHandler st1 = onDisconnectHandler st)
    by (subst st1; apply (unsubscribe_loop_frame onDisconnectHandler)).
  assert (Hb1 : before_disconnect_frames config st1 (Some topic) =
                before_disconnect_frames config st (Some topic)).
  { unfold before_disconnect_frames. subst st1.
    rewrite (unsubscribe_loop_frame beforeDisconnectCallback). reflexivity. }
  assert (Hext : unsubscribe_extension st st1)
    by (subst st1; apply unsubscribe_extension_loop).
  destruct Hext as (pre & Hpre & Hlow).
  destruct (checkAndDisconnectClient_empty_connected config (Some topic) st1 Hr1 Hc1)
    as (Ht & _).
  exists pre. rewrite Ht, Hpre, Hh1, Hb1, <- app_assoc.
  split; [reflexivity|exact Hlow].
Qed.

(** X10. When [unsubscribeAll()] tears a connected client down, the
    before-disconnect hook is called with the topic of the registered
    subscription only if exactly one subscription is registered; with none
    or with two or more it is called with the empty string.  In both cases
    the hook's result is sent before the disconnect is issued, and nothing
    but transport unsubscribes and registry removals comes before. *)
Theorem X10_unsubscribeAll_reports_last_topic (config : Config) (st : State)
    (hook : option string -> string) (url : string) :
  connected st = true ->
  beforeDisconnectCallback st = Some hook ->
  sendMessageUrl config = Some url ->
  truthy_str (Some url) = true ->
  (forall id a s,
     subscriptionsRef st = [(id, a)] ->
     heap st !! a = Some s ->
     exists pre,
       trace (unsubscribeAll config st) =
         trace st ++ pre
           ++ [EvBeforeDisconnect (Some (s_topicId s));
               EvSend url (hook (Some (s_topicId s)));
               EvDisconnect (onDisconnectHandler st)] /\
       forallb unsubscribe_event pre = true) /\
  (length (subscriptionsRef st) <> 1 ->
   exists pre,
     trace (unsubscribeAll config st) =
       trace st ++ pre
         ++ [EvBeforeDisconnect (Some EmptyString);
             EvSend url (hook (Some EmptyString));
             EvDisconnect (onDisconnectHandler st)] /\
     forallb unsubscribe_event pre = true).
Proof.
  intros Hc Hh Hu Ht.
  destruct (unsubscribeAll_connected_trace config st Hc) as (pre & Htr & Hlow).
  unfold before_disconnect_frames in Htr. rewrite Hh, Hu, Ht in Htr.
  split.
  - intros id a s Hr Hs. exists pre. split; [|exact Hlow].
    rewrite Htr, Hr. cbn [reg_keys map fst reg_lookup].
    rewrite String.eqb_refl, Hs. reflexivity.
  - intros Hlen. exists pre. split; [|exact Hlow].
    rewrite Htr. unfold reg_keys.
    destruct (subscriptionsRef st) as [|[k a] [|q r]]; try reflexivity.
    simpl in Hlen. congruence.
Qed.

Lemma X10_witness :
  exists pre,
    trace (unsubscribeAll hookConfig
             (subscribe "prices"%string no_options "s2"%string one_hooked)) =
      trace (subscribe "prices"%string no_options "s2"%string one_hooked) ++ pre
        ++ [EvBeforeDisconnect (Some EmptyString);
            EvSend "/app/bye"%string EmptyString; EvDisconnect noOp] /\
    forallb unsubscribe_event pre = true.
Proof.
  destruct (X10_unsubscribeAll_reports_last_topic hookConfig
              (subscribe "prices"%string no_options "s2"%string one_hooked)
              report_topic "/app/bye"%string eq_refl eq_refl eq_refl eq_refl)
    as [_ Hmany].
  destruct Hmany as (pre & Ht & Hlow); [vm_compute; discriminate|].
  exists pre. split; [exact Ht|exact Hlow].
Defined.

(** ** Binding on a successful connection *)

Lemma bound_at_grows a st st' : heap_grows st st' -> bound_at a st -> bound_at a st'.
Proof.
  intros Hg (s & Ha & Hc & Hh). destruct (Hg a s Ha) as (s' & Ha' & HL).
  destruct HL as (_ & _ & _ & _ & _ & Hc' & Hh'). exists s'. auto.
Qed.

Lemma bound_at_setClientAndSubscribe a st :
  connected st = true ->
  is_Some (heap st !! a) ->
  bound_at a (setClientAndSubscribe a st).
Proof.
  intros Hc [s0 H0]. unfold setClientAndSubscribe, bound_at. rewrite H0.
  rewrite Subscription_subscribe_heap. cbn [heap connected set_heap nextHandle].
  rewrite list_lookup_insert_eq by (apply lookup_lt_Some in H0; exact H0).
  cbn [fmap option_fmap option_map s_client set_s_client]. rewrite Hc.
  rewrite decide_True by reflexivity. cbn.
  eexists. split; [reflexivity|]. cbn. split; eauto.
Qed.

Lemma heap_grows_bind_loop keys st :
  heap_grows st
    (forEach
       (fun subId s =>
          match reg_lookup subId (subscriptionsRef s) with
          | Some a => if connected s then setClientAndSubscribe a s else s
          | None => s
          end) keys st).
Proof.
  apply (forEach_inv (heap_grows st)); [|apply heap_grows_refl].
  intros subId s Hs. destruct (reg_lookup subId (subscriptionsRef s)); [|exact Hs].
  destruct (connected s); [|exact Hs].
  eapply heap_grows_trans; [exact Hs|apply heap_grows_setClientAndSubscribe].
Qed.

Lemma bind_loop_binds keys : forall st id a,
  connected st = true ->
  reg_lookup id (subscriptionsRef st) = Some a ->
  is_Some (heap st !! a) ->
  In id keys ->
  bound_at a
    (forEach
       (fun subId s =>
          match reg_lookup subId (subscriptionsRef s) with
          | Some a => if connected s then setClientAndSubscribe a s else s
          | None => s
          end) keys st).
Proof.
  induction keys as [|k keys IH]; intros st id a Hc Hl Ha Hin; [destruct Hin|].
  rewrite forEach_cons.
  destruct (String.eqb_spec k id) as [->|Hne].
  - rewrite Hl, Hc. apply (bound_at_grows a (setClientAndSubscribe a st));
      [apply heap_grows_bind_loop|].
    apply bound_at_setClientAndSubscribe; assumption.
  - destruct Hin as [Heq|Hin]; [congruence|].
    set (st' := match reg_lookup k (subscriptionsRef st) with
                | Some b => if connected st then setClientAndSubscribe b st else st
                | None => st
                end).
    assert (Hst' : connected st' = true /\ subscriptionsRef st' = subscriptionsRef st /\
                   heap_grows st st').
    { subst st'. destruct (reg_lookup k (subscriptionsRef st)) as [b|];
        [|split; [exact Hc|split; [reflexivity|apply heap_grows_refl]]].
      rewrite Hc. split; [|split].
      - rewrite (setClientAndSubscribe_frame connected). exact Hc.
      - apply (setClientAndSubscribe_frame subscriptionsRef).
      - apply heap_grows_setClientAndSubscribe. }
    destruct Hst' as (Hc' & Hr' & Hg').
    apply (IH st' id a); [exact Hc'|rewrite Hr'; exact Hl| |exact Hin].
    destruct Ha as [s Hs]. destruct (Hg' a s Hs) as (s' & Hs' & _). eauto.
Qed.

Lemma reg_lookup_in_keys id a r : reg_lookup id r = Some a -> In id (reg_keys r).
Proof.
  induction r as [|[k b] r IH]; simpl; [discriminate|].
  destruct (String.eqb_spec k id) as [->|Hne]; [tauto|]. intros H. right. apply IH, H.
Qed.

(** X11. When the first connection succeeds (the connection has not been
    broken before), every subscription of the registry ends up bound to the
    client and holding a handle, and the registry is as it was. *)
Theorem X11_first_success_binds_every_entry (config : Config) (st : State)
    (id : string) (a : nat) :
  isClientConnectionBroken st = false ->
  reg_lookup id (subscriptionsRef st) = Some a ->
  is_Some (heap st !! a) ->
  bound_at a (transport_connected config st) /\
  subscriptionsRef (transport_connected config st) = subscriptionsRef st.
Proof.
  intros Hb Hl Ha. unfold transport_connected. split.
  - unfold connectSuccessCallback.
    cbn [isClientConnectionBroken set_connected]. rewrite Hb. cbn zeta.
    match goal with
    | |- bound_at _ (set_isFirstConnection _ (set_client_reconnectDelay _
           (set_clientReconnectionTries _ (set_isPollingActive _ ?s)))) =>
        apply (bound_at_grows a s); [apply heap_grows_same; reflexivity|]
    end.
    unfold setClientAndSubscribeAll.
    apply (bind_loop_binds _ _ id a); try assumption; try reflexivity.
    apply (reg_lookup_in_keys id a). exact Hl.
  - rewrite registry_after_success. reflexivity.
Qed.

Lemma X11_witness : bound_at 0 (transport_connected defaultConfig one_waiting).
Proof.
  apply (X11_first_success_binds_every_entry defaultConfig one_waiting "s1"%string 0).
  - reflexivity.
  - reflexivity.
  - eexists. reflexivity.
Defined.

Lemma unbound_survives_subscribe a s b st :
  heap st !! a = Some s -> s_client s = false ->
  heap (Subscription_subscribe b st) !! a = Some s.
Proof.
  intros Ha Hc. rewrite Subscription_subscribe_heap.
  destruct (heap st !! b) as [s0|] eqn:H0; cbn; [|exact Ha].
  destruct (s_client s0) eqn:Hc0; [|exact Ha].
  destruct (connected st); [|exact Ha].
  destruct (decide (a = b)) as [->|Hne]; [congruence|exact Ha].
Qed.

(** X12. When a broken connection is re-established, a subscription that
    is not bound to the client (one made while the connection was down) is
    left exactly as it was: the recovery re-subscribes only what was bound
    before, so such a subscription stays unbound and without a handle. *)
Theorem X12_recovery_leaves_unbound_unbound (config : Config) (st : State)
    (a : nat) (s : Subscription) :
  isClientConnectionBroken st = true ->
  heap st !! a = Some s ->
  s_client s = false ->
  heap (transport_connected config st) !! a = Some s.
Proof.
  intros Hb Ha Hc. unfold transport_connected, connectSuccessCallback.
  cbn [isClientConnectionBroken set_connected]. rewrite Hb. cbn zeta.
  cbn [heap set_isFirstConnection set_client_reconnectDelay set_clientReconnectionTries
         set_isPollingActive].
  apply (forEach_inv (fun s' => heap s' !! a = Some s)); [|exact Ha].
  intros subId s' Hs'. destruct (reg_lookup subId (subscriptionsRef s')); [|exact Hs'].
  destruct (connected s'); [|exact Hs'].
  apply unbound_survives_subscribe; assumption.
Qed.

Lemma X12_witness :
  reg_lookup "s2"%string (subscriptionsRef one_broken_one_new) = Some 1 /\
  heap (transport_connected defaultConfig one_broken_one_new) !! 1 =
    Some (Subscription_fields false "prices"%string no_options "s2"%string).
Proof.
  split; [reflexivity|].
  apply (X12_recovery_leaves_unbound_unbound defaultConfig one_broken_one_new 1);
    reflexivity.
Defined.

(** ** Ticks of the poll loops *)

Lemma pending_timer this st :
  pending (startPolling_timer this st) <= pending st + 1 /\
  pending (fallbackPolling_timer this st) <= pending st + 1.
Proof.
  unfold startPolling_timer, fallbackPolling_timer, pending. split.
  - destruct (heap st !! this) as [s|]; [|lia].
    destruct (negb (s_client s && connected st)); [|lia].
    destruct (s_pollingCallback s); [|lia]. cbn. rewrite length_app. simpl. lia.
  - destruct (heap st !! this) as [s|]; [|lia].
    destruct (s_client s && connected st && _); [|lia].
    destruct (s_pollingCallback s); [|lia]. cbn. rewrite length_app. simpl. lia.
Qed.

Lemma pending_startPolling this st :
  pending (startPolling this st) <= pending st + 1 /\
  pending (fallbackPolling this st) <= pending st + 1.
Proof.
  unfold startPolling, fallbackPolling, pending. split.
  - destruct (heap st !! this) as [s|]; [|lia].
    destruct (s_pollingCallback s); [|lia]. cbn. rewrite length_app. simpl. lia.
  - destruct (heap st !! this) as [s|]; [|lia].
    destruct (s_pollingCallback s); [|lia]. cbn. rewrite length_app. simpl. lia.
Qed.

Lemma pending_Subscription_unsubscribe this st :
  pending (Subscription_unsubscribe this st) = pending st.
Proof.
  unfold pending. destruct (heap st !! this) as [s|] eqn:Hs.
  - destruct (Subscription_unsubscribe_effects this s st Hs) as (_ & _ & -> & -> & _).
    reflexivity.
  - unfold Subscription_unsubscribe. rewrite Hs. reflexivity.
Qed.

(** X13. A tick never multiplies.  Firing a pending timer, or resuming a
    tick suspended at its [await] with any result, never increases the
    number of pending timers plus suspended ticks: each tick schedules at
    most one successor, and a tick that unsubscribes or whose callback
    throws schedules none. *)
Theorem X13_ticks_do_not_multiply (n : nat) (r : pollResult) (st : State) :
  pending (timer_fires n st) <= pending st /\
  pending (fst (poll_settles n r st)) <= pending st /\
  (r <> Returned true -> is_Some (awaiting st !! n) ->
   pending (fst (poll_settles n r st)) = pending st - 1).
Proof.
  split; [|split].
  - unfold timer_fires. destruct (timers st !! n) as [[l a]|] eqn:Hn; [|lia].
    cbn zeta. set (st1 := set_timers _ st).
    assert (H1 : pending st1 + 1 = pending st).
    { subst st1. unfold pending. cbn [timers awaiting set_timers].
      rewrite length_delete by eauto. apply lookup_lt_Some in Hn. lia. }
    destruct (pending_timer a st1) as [Hp Hf]. destruct l; lia.
  - unfold poll_settles. destruct (awaiting st !! n) as [[l a]|] eqn:Hn; [|cbn; lia].
    cbn zeta. set (st1 := set_awaiting _ st).
    assert (H1 : pending st1 + 1 = pending st).
    { subst st1. unfold pending. cbn [timers awaiting set_awaiting].
      rewrite length_delete by eauto. apply lookup_lt_Some in Hn. lia. }
    destruct (pending_startPolling a st1) as [Hp Hf].
    pose proof (pending_Subscription_unsubscribe a st1) as Hu.
    destruct l, r as [[|]|]; cbn [startPolling_resume fallbackPolling_resume fst]; lia.
  - intros Hr [[l a] Hn]. unfold poll_settles. rewrite Hn. cbn zeta.
    set (st1 := set_awaiting _ st).
    assert (H1 : pending st1 + 1 = pending st).
    { subst st1. unfold pending. cbn [timers awaiting set_awaiting].
      rewrite length_delete by eauto. apply lookup_lt_Some in Hn. lia. }
    pose proof (pending_Subscription_unsubscribe a st1) as Hu.
    destruct l, r as [[|]|]; try congruence;
      cbn [startPolling_resume fallbackPolling_resume fst]; lia.
Qed.

Lemma X13_witness :
  pending (fst (poll_settles 0 Threw (timer_fires 0 one_waiting))) = 0.
Proof.
  destruct (X13_ticks_do_not_multiply 0 Threw (timer_fires 0 one_waiting))
    as (_ & _ & Hstop).
  rewrite Hstop; [reflexivity|discriminate|eexists; reflexivity].
Defined.

(** X14. A subscription removed by its own poll loop never triggers the
    empty-registry teardown: resuming a tick, with any result, issues no
    transport disconnect and leaves the forced-disconnect flag and the
    client's [connected] property alone, even when the tick removes the
    last entry of the registry. *)
Theorem X14_poll_removal_does_not_disconnect
    (n : nat) (l : loop) (this : nat) (s : Subscription) (st : State) :
  awaiting st !! n = Some (l, this) ->
  heap st !! this = Some s ->
  subscriptionsRef st = [(s_id s, this)] ->
  subscriptionsRef (fst (poll_settles n (Returned false) st)) = [] /\
  (forall r,
     count is_disconnect (trace (fst (poll_settles n r st))) =
       count is_disconnect (trace st) /\
     isClientDisconnectedForced (fst (poll_settles n r st)) =
       isClientDisconnectedForced st /\
     connected (fst (poll_settles n r st)) = connected st).
Proof.
  intros Hn Hs Hr. split.
  - unfold poll_settles. rewrite Hn. cbn zeta. set (st1 := set_awaiting _ st).
    assert (Hs1 : heap st1 !! this = Some s) by exact Hs.
    destruct (Subscription_unsubscribe_effects this s st1 Hs1) as (_ & Hreg & _).
    destruct l; cbn [startPolling_resume fallbackPolling_resume fst];
      rewrite Hreg; subst st1; cbn [subscriptionsRef set_awaiting]; rewrite Hr;
      cbn [reg_delete]; rewrite String.eqb_refl; reflexivity.
  - intros r. split; [|split].
    + apply (poll_settles_frame (fun s => count is_disconnect (trace s))).
    + apply (poll_settles_frame isClientDisconnectedForced).
    + apply (poll_settles_frame connected).
Qed.

Lemma X14_witness :
  let st := run defaultConfig [LTimer 1] one_connected in
  connected st = true /\
  subscriptionsRef (fst (poll_settles 0 (Returned false) st)) = [] /\
  count is_disconnect (trace (fst (poll_settles 0 (Returned false) st))) =
    count is_disconnect (trace st).
Proof.
  cbn zeta.
  destruct (X14_poll_removal_does_not_disconnect 0 FallbackLoop 0
              (mkSubscription "s1"%string true "orders"%string (Some 0) (Some 0) 3000 20000)
              (run defaultConfig [LTimer 1] one_connected) eq_refl eq_refl eq_refl)
    as (Hempty & Hquiet).
  split; [reflexivity|]. split; [exact Hempty|].
  apply (Hquiet (Returned false)).
Defined.

(** ** A clean shutdown *)

(** X15. A clean shutdown is not counted as a failure.  In a reachable
    state with the client connected, after [unsubscribe] has removed the
    last entry (and so issued the disconnect), the close event that follows
    only clears the forced-disconnect flag: the retry counter and the
    connection-broken flag are as before the unsubscribe, degraded polling
    is not started and the disconnect handler is not called. *)
Theorem X15_clean_shutdown_is_not_a_failure (config : Config) (st : State)
    (id : string) (a : nat) :
  reachable config st ->
  connected st = true ->
  subscriptionsRef st = [(id, a)] ->
  isClientDisconnectedForced (unsubscribe config id st) = true /\
  transport_closed config (unsubscribe config id st) =
    set_isClientDisconnectedForced false (set_connected false (unsubscribe config id st)) /\
  clientReconnectionTries (transport_closed config (unsubscribe config id st)) =
    clientReconnectionTries st /\
  isClientConnectionBroken (transport_closed config (unsubscribe config id st)) =
    isClientConnectionBroken st /\
  count is_startAllPollings (trace (transport_closed config (unsubscribe config id st))) =
    count is_startAllPollings (trace st) /\
  count is_call (trace (transport_closed config (unsubscribe config id st))) =
    count is_call (trace st).
Proof.
  intros Hr Hc Hreg.
  assert (Hl : reg_lookup id (subscriptionsRef st) = Some a)
    by (rewrite Hreg; cbn; rewrite String.eqb_refl; reflexivity).
  destruct (registry_consistent_reachable config st Hr id a Hl) as (s & Hs & _).
  destruct (unsubscribe_last config id a s st Hreg Hs Hc) as (_ & Hf & _).
  destruct (lifecycle_reachable config st Hr) as ((HP1 & _) & _).
  assert (Hfirst : isFirstConnection (unsubscribe config id st) = false)
    by (rewrite (unsubscribe_frame isFirstConnection); apply HP1; exact Hc).
  assert (Hclose : transport_closed config (unsubscribe config id st) =
            set_isClientDisconnectedForced false
              (set_connected false (unsubscribe config id st)))
    by (rewrite transport_closed_cases, Hfirst, Hf; reflexivity).
  split; [exact Hf|]. split; [exact Hclose|]. rewrite Hclose.
  cbn [clientReconnectionTries isClientConnectionBroken trace
         set_isClientDisconnectedForced set_connected].
  split; [apply (unsubscribe_frame clientReconnectionTries)|].
  split; [apply (unsubscribe_frame isClientConnectionBroken)|].
  split; [apply (unsubscribe_frame (fun s => count is_startAllPollings (trace s)))|].
  apply (unsubscribe_frame (fun s => count is_call (trace s))).
Qed.

Lemma X15_witness :
  clientReconnectionTries
    (transport_closed defaultConfig (unsubscribe defaultConfig "s1"%string one_connected))
  = 0%Z /\
  isClientConnectionBroken
    (transport_closed defaultConfig (unsubscribe defaultConfig "s1"%string one_connected))
  = false.
Proof.
  destruct (X15_clean_shutdown_is_not_a_failure defaultConfig one_connected
              "s1"%string 0) as (_ & _ & Ht & Hb & _).
  - apply reachable_run, reachable_mount.
  - reflexivity.
  - reflexivity.
  - split; [rewrite Ht|rewrite Hb]; reflexivity.
Defined.

(** ** Timers are never cancelled *)

Lemma timers_kept_refl st : timers_kept st st.
Proof. exists []. rewrite app_nil_r. reflexivity. Qed.

Lemma timers_kept_trans st1 st2 st3 :
  timers_kept st1 st2 -> timers_kept st2 st3 -> timers_kept st1 st3.
Proof.
  intros (m1 & H1) (m2 & H2). exists (m1 ++ m2). rewrite H2, H1, app_assoc. reflexivity.
Qed.

Lemma timers_kept_same st st' : timers st' = timers st -> timers_kept st st'.
Proof. intros H. exists []. rewrite app_nil_r. exact H. Qed.

Lemma timers_startPolling this st :
  timers (startPolling this st) =
  timers st ++
  match heap st !! this with
  | Some s =>
      match s_pollingCallback s with
      | Some _ => [(PrimaryLoop, this)]
      | None => []
      end
  | None => []
  end.
Proof.
  unfold startPolling. destruct (heap st !! this) as [s|];
    [destruct (s_pollingCallback s)|]; cbn; rewrite ?app_nil_r; reflexivity.
Qed.

Lemma timers_kept_startPolling this st : timers_kept st (startPolling this st).
Proof. eexists. apply timers_startPolling. Qed.

Lemma timers_kept_fallbackPolling this st : timers_kept st (fallbackPolling this st).
Proof.
  unfold fallbackPolling. destruct (heap st !! this) as [s|];
    [destruct (s_pollingCallback s)|]; try apply timers_kept_refl.
  eexists. reflexivity.
Qed.

Lemma timers_kept_Subscription_subscribe this st :
  timers_kept st (Subscription_subscribe this st).
Proof.
  unfold Subscription_subscribe. destruct (heap st !! this) as [s|];
    [|apply timers_kept_refl].
  destruct (s_client s && connected st); [|apply timers_kept_refl]. cbn zeta.
  eapply timers_kept_trans; [|apply timers_kept_fallbackPolling].
  apply timers_kept_same. reflexivity.
Qed.

Lemma timers_kept_setClientAndSubscribe this st :
  timers_kept st (setClientAndSubscribe this st).
Proof.
  unfold setClientAndSubscribe. destruct (heap st !! this) as [s|];
    [|apply timers_kept_refl].
  eapply timers_kept_trans; [|apply timers_kept_Subscription_subscribe].
  apply timers_kept_same. reflexivity.
Qed.

Lemma timers_Subscription_unsubscribe this st :
  timers (Subscription_unsubscribe this st) = timers st.
Proof.
  destruct (heap st !! this) as [s|] eqn:Hs.
  - destruct (Subscription_unsubscribe_effects this s st Hs) as (_ & _ & -> & _).
    reflexivity.
  - unfold Subscription_unsubscribe. rewrite Hs. reflexivity.
Qed.

Lemma emits_timers es st :
  timers (fold_left (fun s e => emit e s) es st) = timers st.
Proof.
  revert st. induction es as [|e es IH]; intros st; simpl; [reflexivity|].
  rewrite IH. reflexivity.
Qed.

Lemma timers_checkAndDisconnectClient config topicId st :
  timers (checkAndDisconnectClient config topicId st) = timers st.
Proof.
  rewrite checkAndDisconnectClient_effects.
  destruct (registry_empty st && connected st); [|reflexivity].
  unfold client_disconnect. cbn [timers set_active emit set_trace].
  rewrite emits_timers. reflexivity.
Qed.

Lemma timers_unsubscribe config id st : timers (unsubscribe config id st) = timers st.
Proof.
  unfold unsubscribe. destruct (reg_lookup id (subscriptionsRef st)); [|reflexivity].
  cbn zeta. rewrite timers_checkAndDisconnectClient. cbn [timers set_subscriptionsRef].
  destruct (connected st); [apply timers_Subscription_unsubscribe|reflexivity].
Qed.

Lemma timers_unsubscribeAll config st : timers (unsubscribeAll config st) = timers st.
Proof.
  unfold unsubscribeAll. cbn zeta. rewrite timers_checkAndDisconnectClient.
  apply forEach_frame. intros subId s.
  destruct (reg_lookup subId (subscriptionsRef s)); [|reflexivity].
  cbn zeta. cbn [timers set_subscriptionsRef].
  destruct (connected s); [apply timers_Subscription_unsubscribe|reflexivity].
Qed.

Lemma timers_kept_subscribe topicId options newId st :
  timers_kept st (subscribe topicId options newId st).
Proof.
  unfold subscribe, new_Subscription. cbn zeta.
  set (st2 := Subscription_subscribe _ _).
  set (st3 := set_subscriptionsRef _ st2).
  set (st4 := if negb (connected st3) then _ else _).
  assert (H4 : timers_kept st st4).
  { apply (timers_kept_trans st st2).
    - subst st2. eapply timers_kept_trans; [|apply timers_kept_Subscription_subscribe].
      apply timers_kept_same. reflexivity.
    - apply (timers_kept_trans st2 st3); [apply timers_kept_same; reflexivity|].
      subst st4. destruct (negb (connected st3));
        [apply timers_kept_startPolling|apply timers_kept_refl]. }
  destruct (isFirstConnection st4); [|exact H4].
  eapply timers_kept_trans; [exact H4|]. apply timers_kept_same.
  destruct (holdPromise_fields topicId st4) as (_ & H & _). exact H.
Qed.

Lemma timers_kept_success config st : timers_kept st (connectSuccessCallback config st).
Proof.
  unfold connectSuccessCallback. cbn zeta.
  match goal with
  | |- timers_kept _ (set_isFirstConnection _ (set_client_reconnectDelay _
         (set_clientReconnectionTries _ (set_isPollingActive _ ?s)))) =>
      apply (timers_kept_trans st s); [|apply timers_kept_same; reflexivity]
  end.
  destruct (isClientConnectionBroken st).
  - apply (forEach_inv (timers_kept st)); [|apply timers_kept_refl].
    intros subId s Hs. destruct (reg_lookup subId (subscriptionsRef s)); [|exact Hs].
    destruct (connected s); [|exact Hs].
    eapply timers_kept_trans; [exact Hs|apply timers_kept_Subscription_subscribe].
  - unfold setClientAndSubscribeAll.
    apply (forEach_inv (timers_kept st)); [|apply timers_kept_same; reflexivity].
    intros subId s Hs. destruct (reg_lookup subId (subscriptionsRef s)); [|exact Hs].
    destruct (connected s); [|exact Hs].
    eapply timers_kept_trans; [exact Hs|apply timers_kept_setClientAndSubscribe].
Qed.

Lemma timers_kept_startPollings_loop keys st :
  timers_kept st
    (forEach
       (fun subId s =>
          match reg_lookup subId (subscriptionsRef s) with
          | Some a => startPolling a s
          | None => s
          end) keys st).
Proof.
  apply (forEach_inv (timers_kept st)); [|apply timers_kept_refl].
  intros subId s Hs. destruct (reg_lookup subId (subscriptionsRef s)); [|exact Hs].
  eapply timers_kept_trans; [exact Hs|apply timers_kept_startPolling].
Qed.

Lemma timers_kept_startAllPollings st : timers_kept st (startAllPollings st).
Proof.
  unfold startAllPollings. destruct (negb (isPollingActive st)); [|apply timers_kept_refl].
  cbn zeta. eapply timers_kept_trans; [|apply timers_kept_startPollings_loop].
  apply timers_kept_same. reflexivity.
Qed.

Lemma timers_kept_closed config st : timers_kept st (transport_closed config st).
Proof.
  rewrite transport_closed_cases.
  destruct (isFirstConnection st);
    [destruct (clientReconnectionTries st <? clientMaxReconnectionTries config)%Z;
     apply timers_kept_same; reflexivity|].
  destruct (isClientDisconnectedForced st); [apply timers_kept_same; reflexivity|].
  destruct (clientReconnectionTries st <? clientMaxReconnectionTries config)%Z;
    [|apply timers_kept_same; reflexivity].
  set (st1 := set_isClientConnectionBroken true (set_connected false st)).
  apply (timers_kept_trans st st1); [apply timers_kept_same; reflexivity|].
  apply (timers_kept_trans st1 (startAllPollings st1));
    [apply timers_kept_startAllPollings|apply timers_kept_same; reflexivity].
Qed.

Lemma timers_kept_settles n r st : timers_kept st (fst (poll_settles n r st)).
Proof.
  unfold poll_settles. destruct (awaiting st !! n) as [[l a]|]; [|apply timers_kept_refl].
  cbn zeta. set (st1 := set_awaiting _ st).
  apply (timers_kept_trans st st1); [apply timers_kept_same; reflexivity|].
  destruct l, r as [[|]|]; cbn [startPolling_resume fallbackPolling_resume fst];
    try apply timers_kept_refl;
    try apply timers_kept_startPolling;
    try apply timers_kept_fallbackPolling;
    apply timers_kept_same; apply timers_Subscription_unsubscribe.
Qed.

Lemma timers_kept_step config l st :
  is_timer_label l = false -> timers_kept st (step config l st).
Proof.
  intros Hl. destruct l; try discriminate; cbn [step];
    try (apply timers_kept_same; reflexivity).
  - apply timers_kept_subscribe.
  - apply timers_kept_same. apply timers_unsubscribe.
  - apply timers_kept_same. apply timers_unsubscribeAll.
  - unfold transport_connected.
    apply (timers_kept_trans st (set_connected true st));
      [apply timers_kept_same; reflexivity|apply timers_kept_success].
  - apply timers_kept_closed.
  - apply timers_kept_settles.
Qed.

(** X16. The program never cancels a timer.  Every event other than the
    firing of a timer leaves the pending timers pending, in their order;
    in particular, while the client is not connected, [unsubscribe(id)]
    touches nothing but the registry, so a primary tick of the removed
    subscription that fires afterwards still calls its polling callback. *)
Theorem X16_timers_are_never_cancelled (config : Config) (st : State) :
  (forall l, is_timer_label l = false ->
     exists more, timers (step config l st) = timers st ++ more) /\
  (forall id n this s cb,
     connected st = false ->
     timers st !! n = Some (PrimaryLoop, this) ->
     heap st !! this = Some s ->
     s_pollingCallback s = Some cb ->
     timers (unsubscribe config id st) = timers st /\
     trace (unsubscribe config id st) = trace st /\
     trace (timer_fires n (unsubscribe config id st)) = trace st ++ [EvPoll this]).
Proof.
  split.
  - intros l Hl. apply (timers_kept_step config l st Hl).
  - intros id n this s cb Hc Hn Hs Hp.
    assert (Hu : exists r, unsubscribe config id st = set_subscriptionsRef r st).
    { rewrite unsubscribe_disconnected by exact Hc.
      destruct (reg_lookup id (subscriptionsRef st)); [eexists; reflexivity|].
      exists (subscriptionsRef st). symmetry. apply set_subscriptionsRef_same. }
    destruct Hu as (r & ->). split; [reflexivity|]. split; [reflexivity|].
    rewrite (primary_timer_fires n this s cb); [reflexivity|exact Hn|exact Hs|exact Hp|].
    cbn [connected set_subscriptionsRef]. rewrite Hc. apply andb_false_r.
Qed.

Lemma X16_witness :
  timers (unsubscribe defaultConfig "s1"%string one_waiting) = [(PrimaryLoop, 0)] /\
  trace (timer_fires 0 (unsubscribe defaultConfig "s1"%string one_waiting)) =
    trace one_waiting ++ [EvPoll 0].
Proof.
  destruct (X16_timers_are_never_cancelled defaultConfig one_waiting) as [_ Hstale].
  destruct (Hstale "s1"%string 0 0
              (Subscription_fields false "orders"%string polling_options "s1"%string)
              0 eq_refl eq_refl eq_refl eq_refl) as (Ht & _ & Hpoll).
  split; [rewrite Ht; reflexivity|exact Hpoll].
Defined.

(** ** Degraded polling reaches every subscription *)

Lemma startPollings_loop_schedules keys : forall st id a s cb,
  reg_lookup id (subscriptionsRef st) = Some a ->
  heap st !! a = Some s ->
  s_pollingCallback s = Some cb ->
  In id keys ->
  exists pre post,
    timers
      (forEach
         (fun subId s =>
            match reg_lookup subId (subscriptionsRef s) with
            | Some a => startPolling a s
            | None => s
            end) keys st) = timers st ++ pre ++ (PrimaryLoop, a) :: post.
Proof.
  induction keys as [|k keys IH]; intros st id a s cb Hl Hs Hp Hin; [destruct Hin|].
  rewrite forEach_cons.
  destruct (String.eqb_spec k id) as [->|Hne].
  - rewrite Hl.
    destruct (timers_kept_startPollings_loop keys (startPolling a st)) as (more & ->).
    rewrite timers_startPolling, Hs, Hp. exists [], more.
    rewrite <- app_assoc. reflexivity.
  - destruct Hin as [Heq|Hin]; [congruence|].
    set (st' := match reg_lookup k (subscriptionsRef st) with
                | Some b => startPolling b st
                | None => st
                end).
    assert (Hst' : subscriptionsRef st' = subscriptionsRef st /\ heap st' = heap st /\
                   timers_kept st st').
    { subst st'. destruct (reg_lookup k (subscriptionsRef st)) as [b|];
        [|split; [reflexivity|split; [reflexivity|apply timers_kept_refl]]].
      split; [apply (startPolling_frame subscriptionsRef)|].
      split; [apply startPolling_heap|apply timers_kept_startPolling]. }
    destruct Hst' as (Hr' & Hh' & (m & Hm)).
    destruct (IH st' id a s cb) as (pre & post & Ht);
      [rewrite Hr'; exact Hl|rewrite Hh'; exact Hs|exact Hp|exact Hin|].
    exists (m ++ pre), post. rewrite Ht, Hm, <- !app_assoc. reflexivity.
Qed.

(** X17. Degraded polling reaches every subscription that can poll.  At an
    unexpected close after a successful connection, with retries left and
    polling not yet active, a new primary timer is scheduled for every
    registered subscription that has a polling callback, behind the timers
    already pending; the registry is left as it was. *)
Theorem X17_break_starts_polling_everywhere (config : Config) (st : State)
    (id : string) (a : nat) (s : Subscription) (cb : nat) :
  isFirstConnection st = false ->
  isClientDisconnectedForced st = false ->
  (clientReconnectionTries st < clientMaxReconnectionTries config)%Z ->
  isPollingActive st = false ->
  reg_lookup id (subscriptionsRef st) = Some a ->
  heap st !! a = Some s ->
  s_pollingCallback s = Some cb ->
  (exists pre post,
     timers (transport_closed config st) = timers st ++ pre ++ (PrimaryLoop, a) :: post) /\
  subscriptionsRef (transport_closed config st) = subscriptionsRef st /\
  isPollingActive (transport_closed config st) = true.
Proof.
  intros Hf Hd Hlt Hp Hl Hs Hcb.
  rewrite later_close_below by assumption.
  cbn [timers subscriptionsRef isPollingActive set_clientReconnectionTries].
  set (st1 := set_isClientConnectionBroken true (set_connected false st)).
  split; [|split].
  - unfold startAllPollings.
    replace (isPollingActive st1) with (isPollingActive st) by reflexivity.
    rewrite Hp. cbn [negb]. cbn zeta.
    set (st2 := emit EvStartAllPollings (set_isPollingActive true st1)).
    destruct (startPollings_loop_schedules (reg_keys (subscriptionsRef st2)) st2 id a s cb)
      as (pre & post & Ht); try assumption.
    + apply (reg_lookup_in_keys id a). exact Hl.
    + exists pre, post. exact Ht.
  - rewrite (startAllPollings_frame subscriptionsRef) by reflexivity. reflexivity.
  - destruct (startAllPollings_inactive st1 Hp) as [Ha _]. exact Ha.
Qed.

Lemma X17_witness :
  exists pre post,
    timers (transport_closed defaultConfig one_connected) =
      timers one_connected ++ pre ++ (PrimaryLoop, 0) :: post.
Proof.
  destruct (X17_break_starts_polling_everywhere defaultConfig one_connected "s1"%string 0
              (mkSubscription "s1"%string true "orders"%string (Some 0) (Some 0) 3000 20000)
              0 eq_refl eq_refl) as (Ht & _); try reflexivity.
  exact Ht.
Defined.
